(** * Video proctoring system: detection state machine and integrity score

    A shallow embedding of
      - src/lib/detection.ts            (module [Detection]),
      - src/unnamed/part_000            (module [DetectionFallback], the
        variant of the detection system that falls back to a simulation),
      - src/app/(interview)/room/[roomId]/page.tsx  (modules [RoomPage] and
        [RoomPageEnd]),
      - src/lib/actions/interview-actions.ts        (modules [InterviewActions],
        [Report], [Analytics] and [Upload]),
      - the dashboard page in
        src/app/(admin)/admin/dashboard/_components/delete-button.tsx
        (module [Dashboard]).

    Conventions.
      - [Date.now()] readings are integers (milliseconds): [Z].
      - Pixel coordinates and confidences are JavaScript numbers; they are
        modelled as exact rationals [Q].  For integer pixel coordinates the
        comparison with 0.3 gives the same answer on doubles.
      - Strings are [string], read as the UTF-8 bytes of the text;
        [toLowerCase] is modelled on ASCII letters, [trim] on all the white
        space of JavaScript.
      - A call of a perception model either returns or throws: [Outcome].
      - [Math.random()] draws are explicit arguments; they are compared
        with, and multiplied as, doubles ([toDouble]). *)

From Stdlib Require Import ZArith QArith Qabs Qminmax Qround Qpower List String Ascii Bool Lia Lqa.
From Stdlib Require DecimalString Permutation.
Import ListNotations.

Open Scope Z_scope.

(* ================================================================== *)
(** ** JavaScript helpers *)

Module JS.

(** [String.prototype.toLowerCase], on ASCII letters. *)
Definition lowerChar (c : ascii) : ascii :=
  let n := nat_of_ascii c in
  if andb (Nat.leb 65 n) (Nat.leb n 90) then ascii_of_nat (n + 32) else c.

Fixpoint toLowerCase (s : string) : string :=
  match s with
  | EmptyString => EmptyString
  | String c s' => String (lowerChar c) (toLowerCase s')
  end.

(** [s.includes(sub)]: [sub] occurs in [s] at some position. *)
Fixpoint includes (s sub : string) : bool :=
  if String.prefix sub s then true
  else match s with
       | EmptyString => false
       | String _ s' => includes s' sub
       end.

(** [a < b] on numbers. *)
Definition Qlt_bool (a b : Q) : bool := negb (Qle_bool b a).

(** *** Numbers

    A JavaScript number is an IEEE 754 double.  [toDouble x] is the double
    nearest to a real number [x >= 0], ties to the even one: 53
    significant bits, so between 2^e and 2^(e+1) the doubles are 2^(e-52)
    apart, and from 2^-1022 down they stay 2^-1074 apart.  Numbers of
    2^1024 and more (which round to [Infinity]) do not occur here. *)

(** The integer nearest to [q], the even one of two equally near. *)
Definition roundHalfEven (q : Q) : Z :=
  let f := Qfloor q in
  match (q - inject_Z f ?= 1 # 2)%Q with
  | Lt => f
  | Gt => f + 1
  | Eq => if Z.even f then f else f + 1
  end.

(** [floor (log2 x)] for [x > 0]. *)
Definition ilog2 (x : Q) : Z :=
  let e := Z.log2 (Qnum x) - Z.log2 (Zpos (Qden x)) in
  if Qle_bool (2 ^ e) x then e else e - 1.

Definition toDouble (x : Q) : Q :=
  if Qle_bool x 0 then 0%Q
  else
    let ulp := (2 ^ (Z.max (ilog2 x) (-1022) - 52))%Q in
    (inject_Z (roundHalfEven (x / ulp)) * ulp)%Q.

(** The result of awaiting a call that may throw. *)
Inductive Outcome (A : Type) : Type :=
| Returns (a : A)
| Throws.
Arguments Returns {A} a.
Arguments Throws {A}.


(** [xs.slice(-n)] for [n >= 0]: the last [n] elements, all of them when
    there are fewer. *)
Definition sliceLast {A} (n : nat) (xs : list A) : list A :=
  skipn (List.length xs - n) xs.

(** [String(n)] for an integer. *)
Definition toString (n : Z) : string :=
  DecimalString.NilZero.string_of_int (Z.to_int n).

(** [!s] for a value that is a string or [null]. *)
Definition falsyOpt (s : option string) : bool :=
  match s with
  | None => true
  | Some s' => String.eqb s' ""
  end.

(** White space and line terminators that [String.prototype.trim]
    removes, on the UTF-8 bytes of the string.  One byte: U+0009 to U+000D
    and U+0020.  Two bytes: U+00A0.  Three bytes: U+1680, U+2000 to
    U+200A, U+2028, U+2029, U+202F, U+205F, U+3000 and U+FEFF. *)
Definition isByte (c : ascii) (n : nat) : bool := Nat.eqb (nat_of_ascii c) n.

Definition isWhiteSpace1 (a : ascii) : bool :=
  (Nat.leb 9 (nat_of_ascii a) && Nat.leb (nat_of_ascii a) 13) || isByte a 32.

Definition isWhiteSpace2 (a b : ascii) : bool :=
  isByte a 194 && isByte b 160.

Definition isWhiteSpace3 (a b c : ascii) : bool :=
  (isByte a 225 && isByte b 154 && isByte c 128)
  || (isByte a 226 && isByte b 128
      && ((Nat.leb 128 (nat_of_ascii c) && Nat.leb (nat_of_ascii c) 138)
          || isByte c 168 || isByte c 169 || isByte c 175))
  || (isByte a 226 && isByte b 129 && isByte c 159)
  || (isByte a 227 && isByte b 128 && isByte c 128)
  || (isByte a 239 && isByte b 187 && isByte c 191).

(** The string cut into pieces: each white-space character is one piece,
    marked [true]; every other byte is a piece of its own. *)
Fixpoint pieces (s : string) : list (bool * string) :=
  match s with
  | EmptyString => []
  | String a s1 =>
      if isWhiteSpace1 a then (true, String a EmptyString) :: pieces s1
      else
        match s1 with
        | String b s2 =>
            if isWhiteSpace2 a b then
              (true, String a (String b EmptyString)) :: pieces s2
            else
              match s2 with
              | String c s3 =>
                  if isWhiteSpace3 a b c then
                    (true, String a (String b (String c EmptyString))) :: pieces s3
                  else (false, String a EmptyString) :: pieces s1
              | EmptyString => (false, String a EmptyString) :: pieces s1
              end
        | EmptyString => [(false, String a EmptyString)]
        end
  end.

Fixpoint dropWhiteSpace (ps : list (bool * string)) : list (bool * string) :=
  match ps with
  | (true, _) :: rest => dropWhiteSpace rest
  | _ => ps
  end.

(** [s.trim()]: the white space at both ends removed. *)
Definition trim (s : string) : string :=
  String.concat EmptyString
    (map snd (rev (dropWhiteSpace (rev (dropWhiteSpace (pieces s)))))).

(** An awaited call whose value the code does not inspect: it resolves,
    or it rejects with an error, whose message the [catch] block of the
    server actions returns as [details] ("Unknown error" for a value that
    is not an [Error]). *)
Inductive Awaited : Type :=
| Resolves
| Rejects (message : string).

End JS.
Import JS.

(* ================================================================== *)
(** ** Detection events (src/lib/detection.ts, lines 9-21) *)

Inductive DetectionEventType : Type :=
| FOCUS_LOST
| NO_FACE
| MULTIPLE_FACES
| PHONE_DETECTED
| NOTES_DETECTED
| BOOK_DETECTED.

Record DetectionEvent : Type := mkEvent {
  type : DetectionEventType;
  timestamp : Z;
  confidence : Q
}.

(** The name of an event type, as the string the TypeScript union holds. *)
Definition typeName (k : DetectionEventType) : string :=
  match k with
  | FOCUS_LOST => "FOCUS_LOST"
  | NO_FACE => "NO_FACE"
  | MULTIPLE_FACES => "MULTIPLE_FACES"
  | PHONE_DETECTED => "PHONE_DETECTED"
  | NOTES_DETECTED => "NOTES_DETECTED"
  | BOOK_DETECTED => "BOOK_DETECTED"
  end.

(* ================================================================== *)
(** ** Perception results *)

Record BoundingBox : Type := mkBox {
  originX : Q;
  originY : Q;
  width : Q;
  height : Q
}.

(** A MediaPipe detection: its box and [categories[0].score]. *)
Record Face : Type := mkFace {
  boundingBox : BoundingBox;
  faceScore : Q
}.

(** A COCO-SSD prediction: [class] and [score]. *)
Record Prediction : Type := mkPrediction {
  class : string;
  score : Q
}.

(** The part of [HTMLVideoElement] the detection reads. *)
Record Video : Type := mkVideo {
  videoWidth : Q;
  videoHeight : Q
}.

(* ================================================================== *)
(** ** The detection system object and its effects

    The mutable fields of [class DetectionSystem].  [faceDetector] and
    [objectDetector] record whether the model object is non-null. *)

Record DetectionSystem : Type := mkSystem {
  faceDetector : bool;
  objectDetector : bool;
  isInitialized : bool;
  lastFaceDetectedTime : Z;
  lastLookingAwayTime : Z;
  isLookingAway : bool;
  hasNoFace : bool
}.

(** A method of the object: it reads and writes the fields and triggers
    events, in order. *)
Definition Eff (A : Type) : Type :=
  DetectionSystem -> A * DetectionSystem * list DetectionEvent.

Definition ret {A} (a : A) : Eff A := fun this => (a, this, []).

Definition bind {A B} (m : Eff A) (f : A -> Eff B) : Eff B :=
  fun this =>
    let '(a, this1, out1) := m this in
    let '(b, this2, out2) := f a this1 in
    (b, this2, out1 ++ out2).

Notation "x <- m ;; k" := (bind m (fun x => k))
  (at level 61, m at next level, right associativity).
Notation "m ;; k" := (bind m (fun _ => k))
  (at level 61, right associativity).

Definition get : Eff DetectionSystem := fun this => (this, this, []).

(** [if (c) { body }] *)
Definition when (c : bool) (body : Eff unit) : Eff unit :=
  if c then body else ret tt.

Definition set_lastFaceDetectedTime (t : Z) : Eff unit := fun this =>
  (tt, mkSystem (faceDetector this) (objectDetector this) (isInitialized this)
         t (lastLookingAwayTime this) (isLookingAway this) (hasNoFace this), []).

Definition set_lastLookingAwayTime (t : Z) : Eff unit := fun this =>
  (tt, mkSystem (faceDetector this) (objectDetector this) (isInitialized this)
         (lastFaceDetectedTime this) t (isLookingAway this) (hasNoFace this), []).

Definition set_isLookingAway (b : bool) : Eff unit := fun this =>
  (tt, mkSystem (faceDetector this) (objectDetector this) (isInitialized this)
         (lastFaceDetectedTime this) (lastLookingAwayTime this) b (hasNoFace this), []).

Definition set_hasNoFace (b : bool) : Eff unit := fun this =>
  (tt, mkSystem (faceDetector this) (objectDetector this) (isInitialized this)
         (lastFaceDetectedTime this) (lastLookingAwayTime this) (isLookingAway this) b, []).

(** The state a method leaves and the events it triggered. *)
Definition stateAfter {A} (m : Eff A) (this : DetectionSystem) : DetectionSystem :=
  snd (fst (m this)).

Definition eventsOf {A} (m : Eff A) (this : DetectionSystem) : list DetectionEvent :=
  snd (m this).

(** Thresholds (lines 38-40). *)
Definition FOCUS_LOST_THRESHOLD : Z := 5000.
Definition NO_FACE_THRESHOLD : Z := 10000.
Definition FACE_CENTER_THRESHOLD : Q := 0.3%Q.

(** [triggerEvent(type, confidence)], lines 80-95.  The event is logged,
    handed to the registered callback and shown as a toast.  The code
    stamps it with a clock reading of its own, [new Date()], taken at or
    after the [Date.now()] reading of the tick; the model stamps it with
    the reading [now] it is given, which is that of the tick.  The
    spacing of the events is therefore stated on the readings of the
    ticks ([reportClocks]), not on the stamps. *)
Definition triggerEvent (now : Z) (type : DetectionEventType) (confidence : Q) : Eff unit :=
  fun this => (tt, this, [mkEvent type now confidence]).

(** [isFaceLookingAtCenter(face, video)], lines 185-196.  With
    [videoWidth = 0] the JavaScript quotient is [Infinity] or [NaN], and
    the comparison is false. *)
Definition faceCenterX (face : Face) : Q :=
  (originX (boundingBox face) + width (boundingBox face) / 2)%Q.

Definition videoCenterX (video : Video) : Q := (videoWidth video / 2)%Q.

Definition deviationRatio (face : Face) (video : Video) : Q :=
  (Qabs (faceCenterX face - videoCenterX video) / videoWidth video)%Q.

Definition isFaceLookingAtCenter (face : Face) (video : Video) : bool :=
  if Qeq_bool (videoWidth video) 0 then false
  else Qlt_bool (deviationRatio face video) FACE_CENTER_THRESHOLD.

(** The body of the [try] block of [detectFaces] after the model has
    returned [faces] (src/lib/detection.ts lines 132-178; the same text is
    lines 163-209 of src/unnamed/part_000). *)
Definition judgeFaces (video : Video) (faces : list Face) (now : Z) : Eff unit :=
  match faces with
  | [] =>
      this <- get ;;
      when (negb (hasNoFace this))
        (set_lastFaceDetectedTime now ;; set_hasNoFace true) ;;
      this <- get ;;
      when (now - lastFaceDetectedTime this >? NO_FACE_THRESHOLD)
        (triggerEvent now NO_FACE 0.9%Q ;; set_lastFaceDetectedTime now)
  | [face] =>
      set_hasNoFace false ;;
      let isLookingAtCenter := isFaceLookingAtCenter face video in
      if negb isLookingAtCenter then
        this <- get ;;
        when (negb (isLookingAway this))
          (set_lastLookingAwayTime now ;; set_isLookingAway true) ;;
        this <- get ;;
        when (now - lastLookingAwayTime this >? FOCUS_LOST_THRESHOLD)
          (triggerEvent now FOCUS_LOST 0.8%Q ;; set_lastLookingAwayTime now)
      else
        set_isLookingAway false
  | _ =>
      triggerEvent now MULTIPLE_FACES 0.9%Q
  end.

(** The body of the [for] loop of [detectObjects] (src/lib/detection.ts
    lines 210-225; the same text is lines 294-309 of part_000). *)
Definition inspectPrediction (now : Z) (prediction : Prediction) : Eff unit :=
  let objectClass := toLowerCase (class prediction) in
  let confidence := score prediction in
  if includes objectClass "phone" || includes objectClass "cell phone" then
    triggerEvent now PHONE_DETECTED confidence
  else if includes objectClass "book" then
    triggerEvent now BOOK_DETECTED confidence
  else if includes objectClass "paper" || includes objectClass "notebook" then
    triggerEvent now NOTES_DETECTED confidence
  else ret tt.

Fixpoint forEach {A} (body : A -> Eff unit) (xs : list A) : Eff unit :=
  match xs with
  | [] => ret tt
  | x :: xs' => body x ;; forEach body xs'
  end.

(* ================================================================== *)
(** ** src/lib/detection.ts *)

Module Detection.

(** The singleton after a successful [initialize()], created at [t0]. *)
Definition initialized (t0 : Z) : DetectionSystem :=
  mkSystem true true true t0 t0 false false.

(** [detectFaces(video)], lines 120-183.  [detectForVideo] is the
    outcome of the model call, [now] the reading of [Date.now()]. *)
Definition detectFaces (video : Video) (detectForVideo : Outcome (list Face))
           (now : Z) : Eff unit :=
  this <- get ;;
  if negb (faceDetector this) || negb (isInitialized this) then ret tt
  else
    match detectForVideo with
    | Returns faces => judgeFaces video faces now
    | Throws => ret tt
    end.

(** [detectObjects(video)], lines 198-231. *)
Definition detectObjects (detect : Outcome (list Prediction)) (now : Z) : Eff unit :=
  this <- get ;;
  if negb (objectDetector this) || negb (isInitialized this) then ret tt
  else
    match detect with
    | Returns predictions => forEach (inspectPrediction now) predictions
    | Throws => ret tt
    end.

(** One tick of the detection loop: what the two models do and the clock. *)
Record Tick : Type := mkTick {
  now : Z;
  video : Video;
  detectForVideo : Outcome (list Face);
  detect : Outcome (list Prediction)
}.

(** [runDetection(video)], lines 233-244.  Both detections are started
    with [Promise.all]; [detectObjects] touches no field, so only the
    relative order of the events of the two depends on the scheduling.
    The events of the faces are listed first. *)
Definition runDetection (t : Tick) : Eff unit :=
  this <- get ;;
  if negb (isInitialized this) then ret tt
  else
    detectFaces (video t) (detectForVideo t) (now t) ;;
    detectObjects (detect t) (now t).

(** The detection loop over a list of ticks: the final object and the
    events of each tick. *)
Fixpoint runLoop (ticks : list Tick) (this : DetectionSystem)
  : DetectionSystem * list (list DetectionEvent) :=
  match ticks with
  | [] => (this, [])
  | t :: ticks' =>
      let '(_, this1, out) := runDetection t this in
      let '(this2, outs) := runLoop ticks' this1 in
      (this2, out :: outs)
  end.


(** The object as the class constructs it at [t0] (field initialisers,
    lines 24-32). *)
Definition constructed (t0 : Z) : DetectionSystem :=
  mkSystem false false false t0 t0 false false.

Definition set_faceDetector (b : bool) : Eff unit := fun this =>
  (tt, mkSystem b (objectDetector this) (isInitialized this)
         (lastFaceDetectedTime this) (lastLookingAwayTime this)
         (isLookingAway this) (hasNoFace this), []).

Definition set_objectDetector (b : bool) : Eff unit := fun this =>
  (tt, mkSystem (faceDetector this) b (isInitialized this)
         (lastFaceDetectedTime this) (lastLookingAwayTime this)
         (isLookingAway this) (hasNoFace this), []).

Definition set_isInitialized (b : bool) : Eff unit := fun this =>
  (tt, mkSystem (faceDetector this) (objectDetector this) b
         (lastFaceDetectedTime this) (lastLookingAwayTime this)
         (isLookingAway this) (hasNoFace this), []).

(** What the three awaited loads of [initialize()] do. *)
Record Loads : Type := mkLoads {
  forVisionTasks : Outcome unit;
  createFromOptions : Outcome unit;
  cocoSsdLoad : Outcome unit
}.

(** [initialize()], lines 42-74: the first load that throws ends it. *)
Definition initialize (l : Loads) : Eff bool :=
  match forVisionTasks l with
  | Throws => ret false
  | Returns _ =>
      match createFromOptions l with
      | Throws => ret false
      | Returns _ =>
          set_faceDetector true ;;
          match cocoSsdLoad l with
          | Throws => ret false
          | Returns _ =>
              set_objectDetector true ;;
              set_isInitialized true ;;
              ret true
          end
      end
  end.

(** [destroy()], lines 246-254. *)
Definition destroy : Eff unit :=
  set_faceDetector false ;;
  set_objectDetector false ;;
  set_isInitialized false.

End Detection.

(* ================================================================== *)
(** ** src/unnamed/part_000: the detection system with fallbacks

    The same class, except that a missing or throwing model is replaced by
    a simulation driven by [Math.random()]. *)

Module DetectionFallback.

(** The draws of [Math.random()] a tick may consume, each a double in
    [0,1). *)
Record Draws : Type := mkDraws {
  faceDraw : Q;      (* line 224 *)
  awayDraw : Q;      (* line 243 *)
  objectDraw : Q;    (* line 322 *)
  typeDraw : Q       (* line 326 *)
}.

(** [basicFaceDetection(video)], lines 219-260. *)
Definition basicFaceDetection (rnd : Draws) (now : Z) : Eff unit :=
  let simulatedFaceCount : Z :=
    if Qlt_bool (toDouble 0.1) (faceDraw rnd) then 1 else 0 in
  if simulatedFaceCount =? 0 then
    this <- get ;;
    when (negb (hasNoFace this))
      (set_lastFaceDetectedTime now ;; set_hasNoFace true) ;;
    this <- get ;;
    when (now - lastFaceDetectedTime this >? NO_FACE_THRESHOLD)
      (triggerEvent now NO_FACE 0.7%Q ;; set_lastFaceDetectedTime now)
  else
    set_hasNoFace false ;;
    let isLookingAway_sim := Qlt_bool (toDouble 0.8) (awayDraw rnd) in
    if isLookingAway_sim then
      this <- get ;;
      when (negb (isLookingAway this))
        (set_lastLookingAwayTime now ;; set_isLookingAway true) ;;
      this <- get ;;
      when (now - lastLookingAwayTime this >? FOCUS_LOST_THRESHOLD)
        (triggerEvent now FOCUS_LOST 0.6%Q ;; set_lastLookingAwayTime now)
    else
      set_isLookingAway false.

(** [detectFaces(video)], lines 144-216. *)
Definition detectFaces (rnd : Draws) (video : Video)
           (detectForVideo : Outcome (list Face)) (now : Z) : Eff unit :=
  this <- get ;;
  if negb (isInitialized this) then ret tt
  else if negb (faceDetector this) then basicFaceDetection rnd now
  else
    match detectForVideo with
    | Returns faces => judgeFaces video faces now
    | Throws => basicFaceDetection rnd now
    end.

(** [basicObjectDetection()], lines 320-330.  The product
    [Math.random() * 3] is a double: the exact product rounded. *)
Definition objectTypes : list DetectionEventType :=
  [PHONE_DETECTED; BOOK_DETECTED; NOTES_DETECTED].

Definition basicObjectDetection (rnd : Draws) (now : Z) : Eff unit :=
  let simulatedObjects := Qlt_bool (toDouble 0.95) (objectDraw rnd) in
  if simulatedObjects then
    match nth_error objectTypes
            (Z.to_nat (Qfloor (toDouble (typeDraw rnd * 3)))) with
    | Some randomType => triggerEvent now randomType 0.6%Q
    | None => ret tt
    end
  else ret tt.

(** [detectObjects(video)], lines 275-317. *)
Definition detectObjects (rnd : Draws) (detect : Outcome (list Prediction))
           (now : Z) : Eff unit :=
  this <- get ;;
  if negb (isInitialized this) then ret tt
  else if negb (objectDetector this) then basicObjectDetection rnd now
  else
    match detect with
    | Returns predictions => forEach (inspectPrediction now) predictions
    | Throws => basicObjectDetection rnd now
    end.

(** [runDetection(video)], lines 332-343. *)
Definition runDetection (rnd : Draws) (t : Detection.Tick) : Eff unit :=
  this <- get ;;
  if negb (isInitialized this) then ret tt
  else
    detectFaces rnd (Detection.video t) (Detection.detectForVideo t) (Detection.now t) ;;
    detectObjects rnd (Detection.detect t) (Detection.now t).


(** [initialize()], lines 41-98: each load has its own [try]; the object
    is marked initialized whatever happened. *)
Definition initialize (l : Detection.Loads) : Eff bool :=
  match Detection.cocoSsdLoad l with
  | Returns _ => Detection.set_objectDetector true
  | Throws => Detection.set_objectDetector false
  end ;;
  match Detection.forVisionTasks l with
  | Throws => Detection.set_faceDetector false
  | Returns _ =>
      match Detection.createFromOptions l with
      | Returns _ => Detection.set_faceDetector true
      | Throws => Detection.set_faceDetector false
      end
  end ;;
  Detection.set_isInitialized true ;;
  ret true.

End DetectionFallback.

(* ================================================================== *)
(** ** src/app/(interview)/room/[roomId]/page.tsx *)

Module RoomPage.

(** The React state the detection callback updates (lines 25-26). *)
Record RoomState : Type := mkRoom {
  events : list DetectionEvent;
  integrityScore : Z
}.

(** [useState([])] and [useState(100)]. *)
Definition initialRoom : RoomState := mkRoom [] 100.

(** The [switch] of the callback, lines 92-112. *)
Definition deduction (k : DetectionEventType) : Z :=
  match k with
  | FOCUS_LOST => 5
  | NO_FACE => 10
  | MULTIPLE_FACES => 15
  | PHONE_DETECTED => 20
  | NOTES_DETECTED => 15
  | BOOK_DETECTED => 15
  end.

(** The callback registered with [setEventCallback], lines 86-116. *)
Definition onDetectionEvent (event : DetectionEvent) (room : RoomState) : RoomState :=
  mkRoom (events room ++ [event])
         (Z.max 0 (integrityScore room - deduction (type event))).

(** The callback applied to a list of events, in order. *)
Definition deliver (evs : list DetectionEvent) (room : RoomState) : RoomState :=
  fold_left (fun r e => onDetectionEvent e r) evs room.

(** The score after each application. *)
Fixpoint scoreTrace (evs : list DetectionEvent) (room : RoomState) : list Z :=
  match evs with
  | [] => []
  | e :: evs' =>
      let room' := onDetectionEvent e room in
      integrityScore room' :: scoreTrace evs' room'
  end.


(** The "Recent Events" panel, line 403:
    [events.slice(-5).reverse()]. *)
Definition recentEvents (room : RoomState) : list DetectionEvent :=
  rev (sliceLast 5 (events room)).

(** The "Focus Lost" and "Objects Detected" figures, lines 434 and 440. *)
Definition focusLostShown (room : RoomState) : nat :=
  List.length (filter (fun e => match type e with FOCUS_LOST => true | _ => false end)
                      (events room)).

Definition objectsDetectedShown (room : RoomState) : nat :=
  List.length (filter (fun e => match type e with
                                | PHONE_DETECTED | NOTES_DETECTED | BOOK_DETECTED => true
                                | _ => false
                                end)
                      (events room)).

End RoomPage.

(* ================================================================== *)
(** ** src/lib/actions/interview-actions.ts *)

Module InterviewActions.

(** [interface EventData], lines 9-13: [type] is any string. *)
Record EventData : Type := mkEventData {
  type : string;
  timestamp : Z;
  confidence : Q
}.

(** [interface InterviewData], lines 15-22. *)
Record InterviewData : Type := mkInterviewData {
  roomId : string;
  candidateName : string;
  startTime : Z;
  endTime : option Z;
  integrityScore : Z;
  events : list EventData
}.

(** A [DetectionEvent] of the room page seen as an [EventData]. *)
Definition ofDetectionEvent (e : DetectionEvent) : EventData :=
  match e with
  | mkEvent k t c => mkEventData (typeName k) t c
  end.

(** The columns [saveData] writes to the interview row, lines 107-116. *)
Module Interview.
Record t : Type := mk {
  candidateName : string;
  endTime : option Z;
  duration : option Z;
  integrityScore : Z;
  totalEvents : nat;
  focusLostCount : nat;
  phoneDetectedCount : nat;
  multipleFacesCount : nat;
  noFaceCount : nat;
  notesDetectedCount : nat;
  bookDetectedCount : nat;
  status : string
}.
End Interview.

(** What [saveData] returns and stores: the interview row and the event
    rows it inserts, or the failure of its validation. *)
Inductive SaveResult : Type :=
| Saved (row : Interview.t) (eventLog : list EventData)
| Failed (details : string).

(** [!s] for a string. *)
Definition falsy (s : string) : bool := String.eqb s "".

(** [Math.round(ms / 60000)] for an integer [ms]. *)
Definition roundMinutes (ms : Z) : Z := (2 * ms + 60000) / 120000.

(** [data.events.filter(e => e.type === name).length] *)
Definition countOf (name : string) (evs : list EventData) : nat :=
  List.length (filter (fun e => String.eqb (type e) name) evs).

(** [saveData(data)], lines 80-170, with the database calls succeeding.
    A [Date] is truthy, so [!data.startTime] is false. *)
Definition saveData (data : InterviewData) : SaveResult :=
  if falsy (roomId data) || falsy (candidateName data) then
    Failed "Required interview data is missing"
  else
    let duration :=
      match endTime data with
      | Some e => Some (roundMinutes (e - startTime data))
      | None => None
      end in
    let row :=
      Interview.mk
        (candidateName data)
        (endTime data)
        duration
        (Z.max 0 (Z.min 100 (integrityScore data)))
        (List.length (events data))
        (countOf "FOCUS_LOST" (events data))
        (countOf "PHONE_DETECTED" (events data))
        (countOf "MULTIPLE_FACES" (events data))
        (countOf "NO_FACE" (events data))
        (countOf "NOTES_DETECTED" (events data))
        (countOf "BOOK_DETECTED" (events data))
        (match endTime data with Some _ => "completed" | None => "active" end) in
    let eventsToInsert :=
      map (fun event =>
             mkEventData (type event) (timestamp event)
                         (Qmax 0 (Qmin 1 (confidence event))))
          (events data) in
    Saved row eventsToInsert.

(** The sum of the six per-kind counts of a row. *)
Definition sumOfCounts (row : Interview.t) : nat :=
  (Interview.focusLostCount row + Interview.noFaceCount row
   + Interview.multipleFacesCount row + Interview.phoneDetectedCount row
   + Interview.notesDetectedCount row + Interview.bookDetectedCount row)%nat.

(** The score interpretation of [generatePDF], lines 470-474. *)
Definition interpretation (score : Z) : string :=
  if score >=? 90 then "Excellent - Highly trustworthy performance"
  else if score >=? 75 then "Good - Acceptable with minor concerns"
  else if score >=? 60 then "Average - Some compliance issues detected"
  else if score >=? 40 then "Poor - Multiple policy violations"
  else "Critical - Severe integrity concerns".

(** The severity label of an interpretation: the text before the
    separating [" - "]. *)
Fixpoint labelOf (text : string) : string :=
  match text with
  | EmptyString => EmptyString
  | String c rest =>
      if String.prefix " - " text then EmptyString
      else String c (labelOf rest)
  end.

Definition severity (score : Z) : string := labelOf (interpretation score).

(** The three database calls of [saveData]: [prisma.interview.update]
    (line 107), [prisma.detectionEvent.deleteMany] (line 128) and
    [prisma.detectionEvent.createMany] (line 145). *)
Record DbCalls : Type := mkDbCalls {
  update : Awaited;
  deleteMany : Awaited;
  createMany : Awaited
}.

(** [saveData(data)], lines 79-170, with what the database answers: the
    names are checked first ([startTime] is a [Date], which is truthy); a
    rejected call ends the action in the [catch] block, which returns the
    message of the error; [createMany] is called only when there are
    events.  When all calls resolve the result is that of [saveData]
    above. *)
Definition saveDataWith (db : DbCalls) (data : InterviewData) : SaveResult :=
  if falsy (roomId data) || falsy (candidateName data) then
    Failed "Required interview data is missing"
  else
    match update db with
    | Rejects message => Failed message
    | Resolves =>
        match deleteMany db with
        | Rejects message => Failed message
        | Resolves =>
            match events data with
            | [] => saveData data
            | _ :: _ =>
                match createMany db with
                | Rejects message => Failed message
                | Resolves => saveData data
                end
            end
        end
    end.

End InterviewActions.

(* ================================================================== *)
(** ** page.tsx: ending the interview *)

Module RoomPageEnd.

(** The call of [saveData] in [endInterview], lines 234-248, with what
    the database answers: nothing is saved when the interview was never
    started ([startTime] is null). *)
Definition endInterview (db : InterviewActions.DbCalls)
           (roomId candidateName : string) (startTime : option Z)
           (endTime : Z) (room : RoomPage.RoomState)
  : option InterviewActions.SaveResult :=
  match startTime with
  | Some started =>
      let interviewData :=
        InterviewActions.mkInterviewData
          roomId candidateName started (Some endTime)
          (RoomPage.integrityScore room)
          (map InterviewActions.ofDetectionEvent (RoomPage.events room)) in
      Some (InterviewActions.saveDataWith db interviewData)
  | None => None
  end.

End RoomPageEnd.

(* ================================================================== *)
(** ** interview-actions.ts: the report of [generatePDF] *)

Module Report.

Definition RGB : Type := (Z * Z * Z)%type.

(** [colors], lines 367-375. *)
Definition colors_success : RGB := (34, 197, 94).
Definition colors_warning : RGB := (234, 179, 8).
Definition colors_danger : RGB := (239, 68, 68).

(** The rows of the violation summary, lines 505-536. *)
Record ViolationRow : Type := mkRow {
  type : string;
  count : nat;
  severity : string;
  impact : string
}.

Definition violations (interview : InterviewActions.Interview.t) : list ViolationRow :=
  [ mkRow "Focus Lost (Looking Away)"
          (InterviewActions.Interview.focusLostCount interview) "Medium" "-5 each";
    mkRow "Face Not Detected"
          (InterviewActions.Interview.noFaceCount interview) "High" "-10 each";
    mkRow "Mobile Phone Detected"
          (InterviewActions.Interview.phoneDetectedCount interview) "Critical" "-20 each";
    mkRow "Books/Notes Detected"
          (InterviewActions.Interview.notesDetectedCount interview) "High" "-15 each";
    mkRow "Multiple Faces"
          (InterviewActions.Interview.multipleFacesCount interview) "Critical" "-15 each" ].

(** The events of the timeline, line 586, and its closing note, lines
    625-630. *)
Definition recentEvents (events : list InterviewActions.EventData)
  : list InterviewActions.EventData :=
  sliceLast 15 events.

Definition earlierNote (events : list InterviewActions.EventData) : option string :=
  if (15 <? List.length events)%nat then
    Some ("... and " ++ toString (Z.of_nat (List.length events) - 15)
          ++ " earlier events")%string
  else None.

(** [recommendations], lines 649-671. *)
Record Recommendation : Type := mkRecommendation {
  icon : string;
  text : string;
  color : RGB
}.

Definition recommendations (score : Z) : list Recommendation :=
  if score >=? 85 then
    [ mkRecommendation "✅" "Candidate demonstrated excellent interview compliance"
                       colors_success;
      mkRecommendation "✅" "Minimal supervision concerns identified" colors_success;
      mkRecommendation "✅" "Strongly recommended for next evaluation stage"
                       colors_success ]
  else if score >=? 70 then
    [ mkRecommendation "⚠️" "Candidate showed acceptable compliance with minor issues"
                       colors_warning;
      mkRecommendation "⚠️" "Consider additional verification or clarification"
                       colors_warning;
      mkRecommendation "✅" "Conditionally recommended for further evaluation"
                       colors_success ]
  else if score >=? 50 then
    [ mkRecommendation "❌" "Multiple compliance violations detected during interview"
                       colors_danger;
      mkRecommendation "❌" "Recommend re-interview under enhanced monitoring"
                       colors_danger;
      mkRecommendation "⚠️" "Consider alternative assessment methods if re-interview fails"
                       colors_warning ]
  else
    [ mkRecommendation "🚨" "Critical integrity violations - Interview compromised"
                       colors_danger;
      mkRecommendation "🚨" "Immediate re-assessment required under strict supervision"
                       colors_danger;
      mkRecommendation "❌" "Current interview results should not be considered valid"
                       colors_danger ].

End Report.

(* ================================================================== *)
(** ** interview-actions.ts: [getInterviewAnalytics] *)

Module Analytics.

(** A row of [prisma.interview.groupBy({ by: ['integrityScore'] })]: a
    score and the number of completed interviews that have it. *)
Record ScoreGroup : Type := mkGroup {
  integrityScore : Z;
  _count : nat
}.

Record ScoreDistribution : Type := mkDistribution {
  excellent : nat;
  good : nat;
  average : nat;
  poor : nat
}.

(** [.reduce((acc, curr) => acc + curr._count.integrityScore, 0)] *)
Definition total (groups : list ScoreGroup) : nat :=
  fold_left (fun acc curr => (acc + _count curr)%nat) groups 0%nat.

(** [scoreDistribution], lines 1030-1035. *)
Definition scoreDistribution (groups : list ScoreGroup) : ScoreDistribution :=
  mkDistribution
    (total (filter (fun s => integrityScore s >=? 90) groups))
    (total (filter (fun s => (integrityScore s >=? 75) && (integrityScore s <? 90)) groups))
    (total (filter (fun s => (integrityScore s >=? 60) && (integrityScore s <? 75)) groups))
    (total (filter (fun s => integrityScore s <? 60) groups)).

End Analytics.

(* ================================================================== *)
(** ** interview-actions.ts: [uploadToBlob] *)

Module Upload.

Local Open Scope string_scope.

(** The part of a [File] the action reads. *)
Record File : Type := mkFile {
  type : string;
  size : Z
}.

(** The fields of the form; [formData.get] gives [null] for a missing
    one. *)
Record UploadForm : Type := mkForm {
  video : option File;
  pdf : option File;
  roomId : option string;
  fileType : option string
}.

(** What the action does to the outside: a [put] to the blob store and
    the update of a column of the interview row. *)
Inductive Effect : Type :=
| PutBlob (filename contentType : string)
| SetVideoUrl (url : string)
| SetPdfUrl (url : string).

Inductive UploadResult : Type :=
| Uploaded (videoUrl pdfUrl : option string)
| UploadFailed (details : string).

(** [fileType === kind || !fileType] *)
Definition wants (kind : string) (fileType : option string) : bool :=
  match fileType with
  | Some t => String.eqb t kind || String.eqb t ""
  | None => true
  end.

(** The four awaited calls of the action: the [put] of the video (line
    273), the update of [videoUrl] (line 283), the [put] of the PDF (line
    307) and the update of [pdfUrl] (line 317). *)
Record StoreCalls : Type := mkStoreCalls {
  putVideo : Awaited;
  updateVideoUrl : Awaited;
  putPdf : Awaited;
  updatePdfUrl : Awaited
}.

(** [uploadToBlob(formData)], lines 228-340, with what the blob store and
    the database answer; [urlOf] is the URL the blob store gives a file
    name and [now] the reading of [Date.now()].  An effect is listed when
    its call resolved; a rejected call ends the action in the [catch]
    block with the message of its error, and the effects done before
    stay done. *)
Definition uploadToBlob (calls : StoreCalls) (urlOf : string -> string) (now : Z)
           (form : UploadForm)
  : list Effect * UploadResult :=
  match roomId form with
  | None => ([], UploadFailed "Room ID is required for upload")
  | Some room =>
    if String.eqb room "" || String.eqb (trim room) "" then
      ([], UploadFailed "Room ID is required for upload")
    else
      match video form, pdf form with
      | None, None => ([], UploadFailed "At least one file is required for upload")
      | _, _ =>
        let videoStep : list Effect * (option string + string) :=
          match video form with
          | Some videoFile =>
              if wants "video" (fileType form) then
                if negb (includes (type videoFile) "video/") then
                  ([], inr "Invalid video file type")
                else if (size videoFile >? 100 * 1024 * 1024)%Z then
                  ([], inr "Video file too large (max 100MB)")
                else
                  let videoFilename :=
                    ("videos/interview-" ++ room ++ "-" ++ toString now ++ ".webm")%string in
                  match putVideo calls with
                  | Rejects message => ([], inr message)
                  | Resolves =>
                      match updateVideoUrl calls with
                      | Rejects message =>
                          ([PutBlob videoFilename (type videoFile)], inr message)
                      | Resolves =>
                          ([PutBlob videoFilename (type videoFile);
                            SetVideoUrl (urlOf videoFilename)],
                           inl (Some (urlOf videoFilename)))
                      end
                  end
              else ([], inl None)
          | None => ([], inl None)
          end in
        match videoStep with
        | (done, inr details) => (done, UploadFailed details)
        | (done, inl videoUrl) =>
          match pdf form with
          | Some pdfFile =>
              if wants "pdf" (fileType form) then
                if negb (includes (type pdfFile) "application/pdf") then
                  (done, UploadFailed "Invalid PDF file type")
                else if (size pdfFile >? 10 * 1024 * 1024)%Z then
                  (done, UploadFailed "PDF file too large (max 10MB)")
                else
                  let pdfFilename :=
                    ("pdfs/report-" ++ room ++ "-" ++ toString now ++ ".pdf")%string in
                  match putPdf calls with
                  | Rejects message => (done, UploadFailed message)
                  | Resolves =>
                      match updatePdfUrl calls with
                      | Rejects message =>
                          ((done ++ [PutBlob pdfFilename "application/pdf"])%list,
                           UploadFailed message)
                      | Resolves =>
                          ((done ++ [PutBlob pdfFilename "application/pdf";
                                     SetPdfUrl (urlOf pdfFilename)])%list,
                           Uploaded videoUrl (Some (urlOf pdfFilename)))
                      end
                  end
              else (done, Uploaded videoUrl None)
          | None => (done, Uploaded videoUrl None)
          end
        end
      end
  end.

End Upload.

(* ================================================================== *)
(** ** The dashboard (second part of
    src/app/(admin)/admin/dashboard/_components/delete-button.tsx) and
    [getAllInterviews] *)

Module Dashboard.

Local Open Scope string_scope.

(** A number that may be [null] is truthy when it is present and not 0. *)
Definition truthyNumber (n : option Z) : bool :=
  match n with
  | Some v => negb (v =? 0)%Z
  | None => false
  end.

(** [durationFormatted] of [getAllInterviews], interview-actions.ts line
    770. *)
Definition durationFormatted (duration : option Z) : string :=
  match duration with
  | Some d => if truthyNumber duration then (toString d ++ " min")%string else "N/A"
  | None => "N/A"
  end.

(** The duration cell of the table, line 229. *)
Definition durationCell (duration : option Z) : string :=
  match duration with
  | Some d => if truthyNumber duration then (toString d ++ " mins")%string else "Ongoing"
  | None => "Ongoing"
  end.

End Dashboard.

(* ================================================================== *)
(** ** Predicates used in the statements *)

(** The object is ready: [initialize()] succeeded and loaded both models. *)
Definition ready (this : DetectionSystem) : Prop :=
  faceDetector this = true /\ objectDetector this = true /\ isInitialized this = true.

(** The face center is at least 30% of the frame width away from the frame
    center, for a frame of non-negative width. *)
Definition offCenter (video : Video) (face : Face) : Prop :=
  (0 <= videoWidth video)%Q /\
  (0.3 * videoWidth video <= Qabs (faceCenterX face - videoCenterX video))%Q.

(** A tick in which the face model returns [faces] and the object model
    returns no prediction. *)
Definition faceTick (t : Z) (video : Video) (faces : list Face) : Detection.Tick :=
  Detection.mkTick t video (Returns faces) (Returns []).

(** A list of scores never goes up. *)
Definition nonIncreasing (scores : list Z) : Prop :=
  forall i a b, nth_error scores i = Some a -> nth_error scores (S i) = Some b -> b <= a.

(** The six names [saveData] counts. *)
Definition knownTypes : list string :=
  ["FOCUS_LOST"; "NO_FACE"; "MULTIPLE_FACES";
   "PHONE_DETECTED"; "NOTES_DETECTED"; "BOOK_DETECTED"]%string.

(** Equality of event types, as a test. *)
Definition eventTypeEqb (a b : DetectionEventType) : bool :=
  match a, b with
  | FOCUS_LOST, FOCUS_LOST
  | NO_FACE, NO_FACE
  | MULTIPLE_FACES, MULTIPLE_FACES
  | PHONE_DETECTED, PHONE_DETECTED
  | NOTES_DETECTED, NOTES_DETECTED
  | BOOK_DETECTED, BOOK_DETECTED => true
  | _, _ => false
  end.

(** The timestamps of the events of kind [k], in order. *)
Definition timesOf (k : DetectionEventType) (evs : list DetectionEvent) : list Z :=
  map timestamp (filter (fun e => eventTypeEqb (type e) k) evs).

(** The number of events of kind [k]. *)
Definition countKind (k : DetectionEventType) (evs : list DetectionEvent) : nat :=
  List.length (filter (fun e => eventTypeEqb (type e) k) evs).

(** Each time is more than [d] after the one before, starting after [from]. *)
Fixpoint gapsExceedFrom (d from : Z) (times : list Z) : Prop :=
  match times with
  | [] => True
  | t :: rest => t - from > d /\ gapsExceedFrom d t rest
  end.

Definition gapsExceed (d : Z) (times : list Z) : Prop :=
  match times with
  | [] => True
  | t :: rest => gapsExceedFrom d t rest
  end.

(** The clock of the ticks never runs backwards, starting at [from]. *)
Fixpoint clockFrom (from : Z) (ticks : list Detection.Tick) : Prop :=
  match ticks with
  | [] => True
  | t :: rest => from <= Detection.now t /\ clockFrom (Detection.now t) rest
  end.

Definition clockOrdered (ticks : list Detection.Tick) : Prop :=
  match ticks with
  | [] => True
  | t :: rest => clockFrom (Detection.now t) rest
  end.

(** What one tick does to the events of kind [k] and to their timer:
    either it triggers none and leaves the timer or sets it to the clock,
    or it triggers one, sets the timer to the clock, and more than [d] had
    passed on the timer. *)
Definition timerStep (k : DetectionEventType) (d : Z)
           (timer : DetectionSystem -> Z) : Prop :=
  forall (t : Detection.Tick) (this : DetectionSystem),
    (timesOf k (eventsOf (Detection.runDetection t) this) = [] /\
     (timer (stateAfter (Detection.runDetection t) this) = timer this \/
      timer (stateAfter (Detection.runDetection t) this) = Detection.now t))
    \/
    (timesOf k (eventsOf (Detection.runDetection t) this) = [Detection.now t] /\
     timer (stateAfter (Detection.runDetection t) this) = Detection.now t /\
     Detection.now t - timer this > d).

(** A tick in which the face model returns two or more faces. *)
Definition twoOrMoreFaces (t : Detection.Tick) : Prop :=
  exists f1 f2 faces, Detection.detectForVideo t = Returns (f1 :: f2 :: faces).

(** A tick in which the face model returns no face. *)
Definition noFace (t : Detection.Tick) : Prop :=
  Detection.detectForVideo t = Returns [].

(** A tick in which the face model returns exactly one face, at least 30%
    of the frame width off the center. *)
Definition oneFaceOffCenter (t : Detection.Tick) : Prop :=
  exists face, Detection.detectForVideo t = Returns [face] /\
               offCenter (Detection.video t) face.

(** What the object detector triggers in a tick.  It reads only the
    flags [objectDetector] and [isInitialized] of the object. *)
Definition objectEvents (t : Detection.Tick) (this : DetectionSystem)
  : list DetectionEvent :=
  eventsOf (Detection.detectObjects (Detection.detect t) (Detection.now t)) this.

(** The readings of [Date.now()] of the ticks that triggered an event of
    kind [k], given the ticks and the events of each. *)
Fixpoint reportClocks (k : DetectionEventType) (ticks : list Detection.Tick)
         (outs : list (list DetectionEvent)) : list Z :=
  match ticks, outs with
  | t :: ticks', evs :: outs' =>
      if existsb (fun e => eventTypeEqb (type e) k) evs
      then Detection.now t :: reportClocks k ticks' outs'
      else reportClocks k ticks' outs'
  | _, _ => []
  end.

(** The box of the face and the width of the frame are whole numbers of
    pixels, the frame less than 2^31 pixels wide. *)
Definition wholePixels (face : Face) (video : Video) : Prop :=
  exists x w v : Z,
    originX (boundingBox face) = inject_Z x /\
    width (boundingBox face) = inject_Z w /\
    videoWidth video = inject_Z v /\
    v < 2147483648.

(** The kinds the face detector and the object detector trigger. *)
Definition isFaceKind (k : DetectionEventType) : bool :=
  match k with
  | FOCUS_LOST | NO_FACE | MULTIPLE_FACES => true
  | _ => false
  end.

Definition isObjectKind (k : DetectionEventType) : bool :=
  match k with
  | PHONE_DETECTED | NOTES_DETECTED | BOOK_DETECTED => true
  | _ => false
  end.

(** The events of a face kind and those of an object kind in a list. *)
Definition faceEventsIn (evs : list DetectionEvent) : list DetectionEvent :=
  filter (fun e => isFaceKind (type e)) evs.

Definition objectEventsIn (evs : list DetectionEvent) : list DetectionEvent :=
  filter (fun e => isObjectKind (type e)) evs.

(** The sum of the deductions of a list of events. *)
Definition totalDeduction (evs : list DetectionEvent) : Z :=
  fold_right (fun e acc => RoomPage.deduction (type e) + acc) 0 evs.

(* ================================================================== *)
(** * Properties *)

(** ** The integrity score (room page) *)

Section Score.

Import RoomPage.

Lemma deduction_nonneg (k : DetectionEventType) : 0 <= deduction k.
Proof. destruct k; simpl; lia. Qed.

Lemma onDetectionEvent_score_le (e : DetectionEvent) (room : RoomState) :
  0 <= integrityScore room ->
  0 <= integrityScore (onDetectionEvent e room) <= integrityScore room.
Proof.
  intros Hpos. simpl.
  pose proof (deduction_nonneg (type e)). lia.
Qed.

Lemma scoreTrace_invariant (evs : list DetectionEvent) :
  forall room,
    0 <= integrityScore room <= 100 ->
    Forall (fun s => 0 <= s <= 100) (scoreTrace evs room) /\
    nonIncreasing (integrityScore room :: scoreTrace evs room).
Proof.
  induction evs as [|e evs IH]; intros room Hroom.
  - split; [constructor|].
    intros [|i] a b Ha Hb; simpl in *; discriminate.
  - pose proof (onDetectionEvent_score_le e room (proj1 Hroom)) as Hstep.
    assert (Hroom' : 0 <= integrityScore (onDetectionEvent e room) <= 100) by lia.
    destruct (IH (onDetectionEvent e room) Hroom') as [Hall Hmono].
    split.
    + constructor; [exact Hroom' | exact Hall].
    + intros [|i] a b Ha Hb.
      * injection Ha as <-. injection Hb as <-. apply Hstep.
      * exact (Hmono i a b Ha Hb).
Qed.

Lemma last_cons_default (l : list Z) :
  forall a d d', last (a :: l) d = last (a :: l) d'.
Proof.
  induction l as [|b l IH]; intros a d d'; [reflexivity|].
  change (last (b :: l) d = last (b :: l) d'). apply IH.
Qed.

Lemma deliver_score_last (evs : list DetectionEvent) :
  forall room,
    integrityScore (deliver evs room)
    = last (scoreTrace evs room) (integrityScore room).
Proof.
  induction evs as [|e evs IH]; intros room; [reflexivity|].
  change (deliver (e :: evs) room) with (deliver evs (onDetectionEvent e room)).
  rewrite IH. simpl scoreTrace.
  destruct (scoreTrace evs (onDetectionEvent e room)) as [|z l] eqn:Htr;
    [reflexivity|].
  change (last (z :: l) (integrityScore (onDetectionEvent e room))
          = last (z :: l) (integrityScore room)).
  apply last_cons_default.
Qed.

(** C1. For every sequence of violation events applied to a session that
    starts with score 100, the scores after the applications, listed
    after the initial 100, never increase and all lie in [0,100]. *)
Theorem score_nonincreasing_in_range (evs : list DetectionEvent) :
  let trace := integrityScore initialRoom :: scoreTrace evs initialRoom in
  integrityScore initialRoom = 100 /\
  Forall (fun s => 0 <= s <= 100) trace /\
  nonIncreasing trace /\
  integrityScore (deliver evs initialRoom) = last trace 100.
Proof.
  cbv zeta.
  assert (Hinit : 0 <= integrityScore initialRoom <= 100) by (simpl; lia).
  destruct (scoreTrace_invariant evs initialRoom Hinit) as [Hall Hmono].
  split; [reflexivity|]. split; [|split].
  - constructor; [simpl; lia | exact Hall].
  - exact Hmono.
  - rewrite deliver_score_last. simpl integrityScore.
    destruct (scoreTrace evs initialRoom); reflexivity.
Qed.

(** C2. Applying one violation event of kind k to a session with score s
    sets the score to max(0, s - d(k)), with d(FOCUS_LOST)=5,
    d(NO_FACE)=10, d(MULTIPLE_FACES)=15, d(PHONE_DETECTED)=20,
    d(NOTES_DETECTED)=15 and d(BOOK_DETECTED)=15. *)
Theorem single_event_deduction :
  (deduction FOCUS_LOST = 5 /\ deduction NO_FACE = 10 /\
   deduction MULTIPLE_FACES = 15 /\ deduction PHONE_DETECTED = 20 /\
   deduction NOTES_DETECTED = 15 /\ deduction BOOK_DETECTED = 15) /\
  forall (e : DetectionEvent) (room : RoomState),
    integrityScore (onDetectionEvent e room)
    = Z.max 0 (integrityScore room - deduction (type e)).
Proof.
  split; [repeat split | reflexivity].
Qed.

End Score.

(** ** The severity classification (report) *)

Section Severity.

Import InterviewActions.
Open Scope string_scope.

Lemma interpretation_bands (score : Z) :
  (90 <= score -> interpretation score = "Excellent - Highly trustworthy performance") /\
  (75 <= score < 90 -> interpretation score = "Good - Acceptable with minor concerns") /\
  (60 <= score < 75 -> interpretation score = "Average - Some compliance issues detected") /\
  (40 <= score < 60 -> interpretation score = "Poor - Multiple policy violations") /\
  (score < 40 -> interpretation score = "Critical - Severe integrity concerns").
Proof.
  unfold interpretation. rewrite !Z.geb_leb.
  destruct (Z.leb_spec 90 score); destruct (Z.leb_spec 75 score);
    destruct (Z.leb_spec 60 score); destruct (Z.leb_spec 40 score);
    repeat split; intros; first [reflexivity | lia].
Qed.

(** C3. The severity is a function of the score alone, and for every
    integer score in [0,100]: it is "Excellent" exactly when score >= 90,
    "Good" exactly when 75 <= score < 90, "Average" exactly when
    60 <= score < 75, "Poor" exactly when 40 <= score < 60 and "Critical"
    exactly when score < 40; so each score falls in exactly one band.
    The severity is the label with which the interpretation text of the
    report begins, before its [" - "]. *)
Theorem severity_bands (score : Z) :
  0 <= score <= 100 ->
  (severity score = "Excellent" <-> 90 <= score) /\
  (severity score = "Good" <-> 75 <= score < 90) /\
  (severity score = "Average" <-> 60 <= score < 75) /\
  (severity score = "Poor" <-> 40 <= score < 60) /\
  (severity score = "Critical" <-> score < 40) /\
  String.prefix (severity score ++ " - ") (interpretation score) = true.
Proof.
  intros _.
  destruct (interpretation_bands score) as (HE & HG & HA & HP & HC).
  unfold severity.
  destruct (Z.le_gt_cases 90 score) as [H90|H90];
    [rewrite (HE H90)|
     destruct (Z.le_gt_cases 75 score) as [H75|H75];
     [rewrite HG by lia|
      destruct (Z.le_gt_cases 60 score) as [H60|H60];
      [rewrite HA by lia|
       destruct (Z.le_gt_cases 40 score) as [H40|H40];
       [rewrite HP by lia | rewrite HC by lia]]]];
    cbn; repeat split; intros; first [reflexivity | lia | discriminate].
Qed.

Lemma severity_bands_witness :
  0 <= 80 <= 100 /\ severity 80 = "Good".
Proof.
  split; [lia|].
  apply (proj2 (proj1 (proj2 (severity_bands 80 ltac:(lia))))). lia.
Defined.

End Severity.

(** ** The face trackers (src/lib/detection.ts) *)

Section Faces.

Import Detection RoomPage.

(** A face at least 30% off the center is not looking at the center. *)
Lemma offCenter_not_centered (video : Video) (face : Face) :
  offCenter video face -> isFaceLookingAtCenter face video = false.
Proof.
  intros [Hw Hdev]. unfold isFaceLookingAtCenter.
  destruct (Qeq_bool (videoWidth video) 0) eqn:Hz; [reflexivity|].
  apply Qeq_bool_neq in Hz.
  assert (Hpos : (0 < videoWidth video)%Q).
  { apply Qlt_leneq. split; [exact Hw|]. intros H0. apply Hz. symmetry. exact H0. }
  unfold Qlt_bool, deviationRatio, FACE_CENTER_THRESHOLD.
  apply negb_false_iff, Qle_bool_iff, Qle_shift_div_l; assumption.
Qed.

Ltac decide_gtb :=
  repeat match goal with
  | |- context [?a >? ?b] =>
      let H := fresh "Hcmp" in
      destruct (Z.gtb_spec a b) as [H|H]; try lia
  end.

(** One tick with a single off-center face, on a ready object. *)
Lemma runDetection_offCenter (this : DetectionSystem) (video : Video)
      (face : Face) (t : Z) :
  ready this -> offCenter video face ->
  runDetection (faceTick t video [face]) this =
    let since := if isLookingAway this then lastLookingAwayTime this else t in
    let fire := t - since >? FOCUS_LOST_THRESHOLD in
    (tt,
     mkSystem true true true (lastFaceDetectedTime this)
              (if fire then t else since) true false,
     if fire then [mkEvent FOCUS_LOST t 0.8%Q] else []).
Proof.
  intros (Hf & Ho & Hi) Hoff.
  apply offCenter_not_centered in Hoff.
  destruct this as [fd od init lf la away nf]; simpl in Hf, Ho, Hi; subst.
  unfold runDetection, detectFaces, detectObjects, judgeFaces, faceTick, bind, get; simpl.
  rewrite Hoff; simpl.
  unfold FOCUS_LOST_THRESHOLD.
  destruct away; simpl; decide_gtb; reflexivity.
Qed.

(** One tick with no face or several faces, on a ready object: the
    fields of the focus tracker are not written. *)
Lemma detectFaces_gap_keeps_focus (this : DetectionSystem) (video : Video)
      (faces : list Face) (t : Z) :
  List.length faces <> 1%nat ->
  let gap := stateAfter (detectFaces video (Returns faces) t) this in
  lastLookingAwayTime gap = lastLookingAwayTime this /\
  isLookingAway gap = isLookingAway this /\
  faceDetector gap = faceDetector this /\
  objectDetector gap = objectDetector this /\
  isInitialized gap = isInitialized this.
Proof.
  intros Hlen.
  destruct this as [fd od init lf la away nf].
  destruct faces as [|f1 [|f2 faces]]; [| now elim Hlen |];
    unfold stateAfter, detectFaces, judgeFaces, bind, get; simpl;
    destruct fd, init; simpl; try (repeat split; reflexivity).
  destruct nf; simpl; decide_gtb; simpl; repeat split; reflexivity.
Qed.

(** C4 (refuted as stated). A fresh tracker that sees three ticks at 2 s
    spacing, each with one face 46% off the center of a 1280 px frame,
    emits nothing at the third tick, and the score stays 100. *)
Lemma focus_lost_third_tick_counterexample :
  let video := mkVideo 1280 720 in
  let face := mkFace (mkBox 0 0 100 100) 0.9%Q in
  let run := runLoop [faceTick 0 video [face]; faceTick 2000 video [face];
                      faceTick 4000 video [face]] (initialized 0) in
  offCenter video face /\
  snd run = [[]; []; []] /\
  integrityScore (deliver (List.concat (snd run)) initialRoom) = 100.
Proof.
  cbv zeta. split; [|split; reflexivity].
  split; [discriminate|].
  vm_compute. discriminate.
Qed.

(** C4 (amended). For a ready tracker that is not yet tracking a
    deviation and sees ticks at 2 s spacing, each with exactly one face
    at least 30% of the frame width off the center: the first three ticks
    emit nothing and leave the score at 100; the fourth tick, 6000 ms
    after the first, emits exactly one FOCUS_LOST (confidence 0.8), and
    applying it drops the score from 100 to 95. *)
Theorem focus_lost_fourth_tick (this : DetectionSystem) (video : Video)
        (f1 f2 f3 f4 : Face) (t : Z) :
  ready this -> isLookingAway this = false ->
  offCenter video f1 -> offCenter video f2 ->
  offCenter video f3 -> offCenter video f4 ->
  let three := [faceTick t video [f1]; faceTick (t + 2000) video [f2];
                faceTick (t + 4000) video [f3]] in
  let four := three ++ [faceTick (t + 6000) video [f4]] in
  snd (runLoop three this) = [[]; []; []] /\
  integrityScore (deliver (List.concat (snd (runLoop three this))) initialRoom) = 100 /\
  snd (runLoop four this) = [[]; []; []; [mkEvent FOCUS_LOST (t + 6000) 0.8%Q]] /\
  integrityScore (deliver (List.concat (snd (runLoop four this))) initialRoom) = 95.
Proof.
  intros Hready Haway H1 H2 H3 H4. cbv zeta.
  assert (Hrun : snd (runLoop [faceTick t video [f1]; faceTick (t + 2000) video [f2];
                               faceTick (t + 4000) video [f3];
                               faceTick (t + 6000) video [f4]] this)
                 = [[]; []; []; [mkEvent FOCUS_LOST (t + 6000) 0.8%Q]]
                 /\ snd (runLoop [faceTick t video [f1]; faceTick (t + 2000) video [f2];
                                  faceTick (t + 4000) video [f3]] this)
                    = [[]; []; []]).
  { unfold runLoop.
    rewrite (runDetection_offCenter this video f1 t Hready H1).
    rewrite Haway. cbv zeta.
    replace (t - t) with 0 by lia.
    change (0 >? FOCUS_LOST_THRESHOLD) with false. cbv iota.
    rewrite runDetection_offCenter; [|repeat split|exact H2].
    cbv zeta. simpl isLookingAway. simpl lastLookingAwayTime. cbv iota.
    replace (t + 2000 - t) with 2000 by lia.
    change (2000 >? FOCUS_LOST_THRESHOLD) with false. cbv iota.
    rewrite runDetection_offCenter; [|repeat split|exact H3].
    cbv zeta. simpl isLookingAway. simpl lastLookingAwayTime. cbv iota.
    replace (t + 4000 - t) with 4000 by lia.
    change (4000 >? FOCUS_LOST_THRESHOLD) with false. cbv iota.
    rewrite runDetection_offCenter; [|repeat split|exact H4].
    cbv zeta. simpl isLookingAway. simpl lastLookingAwayTime. cbv iota.
    replace (t + 6000 - t) with 6000 by lia.
    change (6000 >? FOCUS_LOST_THRESHOLD) with true. cbv iota.
    split; reflexivity. }
  destruct Hrun as [Hfour Hthree].
  simpl app. rewrite Hfour, Hthree.
  repeat split; reflexivity.
Qed.

Lemma focus_lost_fourth_tick_witness :
  snd (runLoop [faceTick 0 (mkVideo 1280 720) [mkFace (mkBox 0 0 100 100) 0.9%Q];
                faceTick 2000 (mkVideo 1280 720) [mkFace (mkBox 10 0 100 100) 0.9%Q];
                faceTick 4000 (mkVideo 1280 720) [mkFace (mkBox 1100 0 100 100) 0.9%Q];
                faceTick 6000 (mkVideo 1280 720) [mkFace (mkBox 0 0 100 100) 0.9%Q]]
               (initialized 0))
  = [[]; []; []; [mkEvent FOCUS_LOST 6000 0.8%Q]].
Proof.
  refine (proj1 (proj2 (proj2
    (focus_lost_fourth_tick (initialized 0) (mkVideo 1280 720)
       (mkFace (mkBox 0 0 100 100) 0.9%Q) (mkFace (mkBox 10 0 100 100) 0.9%Q)
       (mkFace (mkBox 1100 0 100 100) 0.9%Q) (mkFace (mkBox 0 0 100 100) 0.9%Q)
       0 _ _ _ _ _ _)))).
  - repeat split.
  - reflexivity.
  - split; [discriminate | vm_compute; discriminate].
  - split; [discriminate | vm_compute; discriminate].
  - split; [discriminate | vm_compute; discriminate].
  - split; [discriminate | vm_compute; discriminate].
Defined.

(** C5 (refuted as stated). With the no-face condition active and exactly
    10000 ms since [lastFaceDetectedTime], a tick with zero faces emits
    nothing and does not touch the timer: the test is [>], not [>=]. *)
Lemma no_face_at_threshold_counterexample :
  let this := mkSystem true true true 0 0 false true in
  hasNoFace this = true /\
  10000 - lastFaceDetectedTime this >= NO_FACE_THRESHOLD /\
  detectFaces (mkVideo 1280 720) (Returns []) 10000 this = (tt, this, []).
Proof.
  cbv zeta. split; [reflexivity|]. split; [vm_compute; discriminate | reflexivity].
Qed.

(** C5 (amended). At a tick with zero faces where the no-face condition
    is already active and now - lastFaceDetectedTime > 10000 ms, exactly
    one NO_FACE event with confidence 0.9 is emitted and
    lastFaceDetectedTime is set to now, nothing else changing; a later
    tick with zero faces emits NO_FACE again exactly when more than
    10000 ms have passed since that emission. *)
Theorem no_face_emission_rearms (this : DetectionSystem) (video : Video)
        (now later : Z) :
  faceDetector this = true -> isInitialized this = true ->
  hasNoFace this = true ->
  now - lastFaceDetectedTime this > NO_FACE_THRESHOLD ->
  let this' := mkSystem true (objectDetector this) true now
                        (lastLookingAwayTime this) (isLookingAway this) true in
  detectFaces video (Returns []) now this
    = (tt, this', [mkEvent NO_FACE now 0.9%Q]) /\
  (later - now > NO_FACE_THRESHOLD ->
   eventsOf (detectFaces video (Returns []) later) this'
     = [mkEvent NO_FACE later 0.9%Q]) /\
  (later - now <= NO_FACE_THRESHOLD ->
   detectFaces video (Returns []) later this' = (tt, this', [])).
Proof.
  intros Hf Hi Hn Hgt.
  destruct this as [fd od init lf la away nf]; simpl in Hf, Hi, Hn, Hgt; subst.
  unfold NO_FACE_THRESHOLD in *. cbv zeta.
  unfold eventsOf, detectFaces, judgeFaces, bind, get; simpl.
  unfold NO_FACE_THRESHOLD.
  split; [|split; intros Hlater]; decide_gtb; reflexivity.
Qed.

Lemma no_face_emission_rearms_witness :
  detectFaces (mkVideo 1280 720) (Returns []) 12000
              (mkSystem true true true 0 0 false true)
  = (tt, mkSystem true true true 12000 0 false true, [mkEvent NO_FACE 12000 0.9%Q]).
Proof.
  refine (proj1 (no_face_emission_rearms (mkSystem true true true 0 0 false true)
                   (mkVideo 1280 720) 12000 0 _ _ _ _)).
  - reflexivity.
  - reflexivity.
  - reflexivity.
  - reflexivity.
Defined.

(** C6 (refuted as stated). The face is off-center at 0 ms, no face is
    seen at 2000 ms, and one off-center face reappears at 6000 ms: the
    timer started at 0 ms is still running, and FOCUS_LOST is emitted at
    once on the reappearance. *)
Lemma focus_timer_survives_gap_counterexample :
  let video := mkVideo 1280 720 in
  let face := mkFace (mkBox 0 0 100 100) 0.9%Q in
  let before := runLoop [faceTick 0 video [face]; faceTick 2000 video []]
                        (initialized 0) in
  lastLookingAwayTime (fst before) = 0 /\
  isLookingAway (fst before) = true /\
  snd before = [[]; []] /\
  runDetection (faceTick 6000 video [face]) (fst before)
  = (tt, mkSystem true true true 2000 6000 true false,
     [mkEvent FOCUS_LOST 6000 0.8%Q]).
Proof.
  cbv zeta. repeat split; reflexivity.
Qed.

(** C6 (amended). A tick that observes zero or several faces leaves the
    deviation timer and the looking-away flag as they were, and the next
    tick with exactly one face does not reset them: when the flag was set
    before the gap and the face is at least 30% off the center, that tick
    emits FOCUS_LOST exactly when more than 5000 ms have passed since the
    timer value from before the gap. *)
Theorem focus_timer_kept_across_gap (this : DetectionSystem) (video : Video)
        (faces : list Face) (face : Face) (t1 t2 : Z) :
  ready this -> List.length faces <> 1%nat ->
  isLookingAway this = true -> offCenter video face ->
  let gap := stateAfter (detectFaces video (Returns faces) t1) this in
  lastLookingAwayTime gap = lastLookingAwayTime this /\
  isLookingAway gap = true /\
  (t2 - lastLookingAwayTime this > FOCUS_LOST_THRESHOLD ->
   eventsOf (runDetection (faceTick t2 video [face])) gap
     = [mkEvent FOCUS_LOST t2 0.8%Q]) /\
  (t2 - lastLookingAwayTime this <= FOCUS_LOST_THRESHOLD ->
   eventsOf (runDetection (faceTick t2 video [face])) gap = []).
Proof.
  intros Hready Hlen Haway Hoff. cbv zeta.
  destruct (detectFaces_gap_keeps_focus this video faces t1 Hlen)
    as (Hla & Haw & Hfd & Hod & Hin).
  set (gap := stateAfter (detectFaces video (Returns faces) t1) this) in *.
  assert (Hgap : ready gap).
  { destruct Hready as (? & ? & ?). repeat split; congruence. }
  rewrite Haway in Haw.
  split; [exact Hla|]. split; [exact Haw|].
  unfold eventsOf.
  rewrite (runDetection_offCenter gap video face t2 Hgap Hoff).
  rewrite Haw, Hla. cbv zeta. unfold FOCUS_LOST_THRESHOLD.
  split; intros Ht; decide_gtb; reflexivity.
Qed.

Lemma focus_timer_kept_across_gap_witness :
  eventsOf (runDetection (faceTick 6000 (mkVideo 1280 720)
                                   [mkFace (mkBox 0 0 100 100) 0.9%Q]))
           (stateAfter (detectFaces (mkVideo 1280 720) (Returns []) 2000)
                       (mkSystem true true true 0 0 true false))
  = [mkEvent FOCUS_LOST 6000 0.8%Q].
Proof.
  refine (proj1 (proj2 (proj2
    (focus_timer_kept_across_gap (mkSystem true true true 0 0 true false)
       (mkVideo 1280 720) [] (mkFace (mkBox 0 0 100 100) 0.9%Q) 2000 6000
       _ _ _ _))) _).
  - repeat split.
  - discriminate.
  - reflexivity.
  - split; [discriminate | vm_compute; discriminate].
  - reflexivity.
Defined.

End Faces.

(** ** A model call that throws *)

Section Failure.

Import Detection.

Lemma inspectPrediction_keeps_state (now : Z) (p : Prediction) (this : DetectionSystem) :
  inspectPrediction now p this = (tt, this, eventsOf (inspectPrediction now p) this).
Proof.
  unfold eventsOf, inspectPrediction.
  repeat match goal with
         | |- context [if ?c then _ else _] => destruct c
         end; reflexivity.
Qed.

Lemma forEach_inspect_keeps_state (now : Z) (ps : list Prediction) :
  forall this,
    forEach (inspectPrediction now) ps this
    = (tt, this, eventsOf (forEach (inspectPrediction now) ps) this).
Proof.
  induction ps as [|p ps IH]; intros this; [reflexivity|].
  unfold eventsOf. simpl forEach. unfold bind.
  rewrite inspectPrediction_keeps_state, IH. reflexivity.
Qed.

Lemma detectObjects_keeps_state (d : Outcome (list Prediction)) (now : Z)
      (this : DetectionSystem) :
  detectObjects d now this = (tt, this, eventsOf (detectObjects d now) this).
Proof.
  unfold eventsOf, detectObjects, bind, get.
  destruct (negb (objectDetector this) || negb (isInitialized this)); [reflexivity|].
  destruct d as [ps|]; [|reflexivity].
  rewrite forEach_inspect_keeps_state. reflexivity.
Qed.

Lemma detectFaces_throws (this : DetectionSystem) (video : Video) (now : Z) :
  detectFaces video Throws now this = (tt, this, []).
Proof.
  unfold detectFaces, bind, get.
  destruct (negb (faceDetector this) || negb (isInitialized this)); reflexivity.
Qed.

Lemma detectObjects_throws (this : DetectionSystem) (now : Z) :
  detectObjects Throws now this = (tt, this, []).
Proof.
  unfold detectObjects, bind, get.
  destruct (negb (objectDetector this) || negb (isInitialized this)); reflexivity.
Qed.

(** C9 (refuted as stated). In the variant with fallbacks a throwing face
    model runs the simulation, which here emits NO_FACE and moves the
    timer; and in src/lib/detection.ts a tick whose face model throws
    still emits the events of the object model. *)
Lemma model_failure_counterexample :
  let this := mkSystem true true true 0 0 false true in
  DetectionFallback.detectFaces (DetectionFallback.mkDraws 0.05 0 0 0)
      (mkVideo 1280 720) Throws 20000 this
  = (tt, mkSystem true true true 20000 0 false true,
     [mkEvent NO_FACE 20000 0.7%Q]) /\
  runDetection (mkTick 20000 (mkVideo 1280 720) Throws
                       (Returns [mkPrediction "cell phone" 0.87%Q])) this
  = (tt, this, [mkEvent PHONE_DETECTED 20000 0.87%Q]).
Proof.
  cbv zeta. split; reflexivity.
Qed.

(** C9 (amended). In src/lib/detection.ts a detector whose model call
    throws emits no event and writes no field: this holds for
    [detectFaces] and for [detectObjects]; a tick whose face model throws
    leaves the whole object unchanged and emits only what the object
    detector emits; a tick in which both calls throw emits nothing, and
    the loop goes on from the unchanged object with the next tick.  In
    the variant with fallbacks (part_000) a throwing face model runs
    [basicFaceDetection] instead. *)
Theorem model_failure_skips_detector :
  (forall this video now, detectFaces video Throws now this = (tt, this, [])) /\
  (forall this now, detectObjects Throws now this = (tt, this, [])) /\
  (forall this t,
      detectForVideo t = Throws ->
      stateAfter (runDetection t) this = this /\
      eventsOf (runDetection t) this
      = if isInitialized this
        then eventsOf (detectObjects (detect t) (now t)) this else []) /\
  (forall this t ticks,
      detectForVideo t = Throws -> detect t = Throws ->
      runLoop (t :: ticks) this
      = (fst (runLoop ticks this), [] :: snd (runLoop ticks this))) /\
  (forall rnd this video now,
      isInitialized this = true ->
      DetectionFallback.detectFaces rnd video Throws now this
      = DetectionFallback.basicFaceDetection rnd now this).
Proof.
  split; [exact detectFaces_throws|].
  split; [exact detectObjects_throws|].
  split; [|split].
  - intros this t Hface.
    unfold stateAfter, eventsOf, runDetection, bind, get.
    destruct (isInitialized this); simpl; [|split; reflexivity].
    rewrite Hface, detectFaces_throws, detectObjects_keeps_state.
    split; reflexivity.
  - intros this t ticks Hface Hobj.
    simpl runLoop. unfold runDetection, bind, get.
    rewrite Hface, Hobj.
    destruct (isInitialized this); simpl.
    + rewrite detectFaces_throws, detectObjects_throws.
      destruct (runLoop ticks this); reflexivity.
    + destruct (runLoop ticks this); reflexivity.
  - intros rnd this video now Hinit.
    unfold DetectionFallback.detectFaces, bind, get.
    rewrite Hinit. simpl.
    destruct (faceDetector this); simpl;
      destruct (DetectionFallback.basicFaceDetection rnd now this) as [[[] s] o];
      reflexivity.
Qed.

Lemma model_failure_skips_detector_witness :
  runLoop [mkTick 2000 (mkVideo 1280 720) Throws Throws;
           faceTick 4000 (mkVideo 1280 720) [mkFace (mkBox 1200 0 100 100) 0.9%Q]]
          (mkSystem true true true 0 0 true false)
  = (mkSystem true true true 0 0 true false, [[]; []]).
Proof.
  exact (proj1 (proj2 (proj2 (proj2 model_failure_skips_detector)))
           (mkSystem true true true 0 0 true false)
           (mkTick 2000 (mkVideo 1280 720) Throws Throws)
           [faceTick 4000 (mkVideo 1280 720) [mkFace (mkBox 1200 0 100 100) 0.9%Q]]
           eq_refl eq_refl).
Defined.

End Failure.

(** ** Labels of detected objects *)

Section Labels.

Open Scope string_scope.

Lemma append_assoc_str (a b c : string) : (a ++ b) ++ c = a ++ (b ++ c).
Proof. induction a as [|x a IH]; simpl; [reflexivity | now rewrite IH]. Qed.

Lemma prefix_spec (sub : string) :
  forall s, String.prefix sub s = true <-> exists post, s = sub ++ post.
Proof.
  induction sub as [|x sub IH]; intros s.
  - split; [intros _; exists s; reflexivity | intros _; destruct s; reflexivity].
  - destruct s as [|y s]; simpl.
    + split; [discriminate | intros [post H]; discriminate].
    + destruct (ascii_dec x y) as [->|Hxy].
      * rewrite IH. split; intros [post H]; exists post.
        -- now rewrite H.
        -- now injection H.
      * split; [discriminate|].
        intros [post H]. injection H as Hy _. now elim Hxy.
Qed.

Lemma includes_nil (sub : string) :
  includes "" sub = String.prefix sub "".
Proof.
  change (includes "" sub) with (if String.prefix sub "" then true else false).
  now destruct (String.prefix sub "").
Qed.

Lemma includes_cons (c : ascii) (s sub : string) :
  includes (String c s) sub = String.prefix sub (String c s) || includes s sub.
Proof.
  change (includes (String c s) sub)
    with (if String.prefix sub (String c s) then true else includes s sub).
  now destruct (String.prefix sub (String c s)).
Qed.

(** [includes] finds exactly the occurrences of [sub]. *)
Lemma includes_spec (sub : string) :
  forall s, includes s sub = true <-> exists pre post, s = pre ++ sub ++ post.
Proof.
  induction s as [|c s IH].
  - rewrite includes_nil, prefix_spec. split.
    + intros [post H]. now exists "", post.
    + intros (pre & post & H). destruct pre as [|x pre]; [|discriminate].
      now exists post.
  - rewrite includes_cons, orb_true_iff, prefix_spec, IH. split.
    + intros [[post H] | (pre & post & H)].
      * now exists "", post.
      * exists (String c pre), post. simpl. now rewrite H.
    + intros (pre & post & H). destruct pre as [|x pre].
      * left. now exists post.
      * right. injection H as _ H. now exists pre, post.
Qed.

Lemma includes_trans (s a b : string) :
  includes s a = true -> includes a b = true -> includes s b = true.
Proof.
  rewrite !includes_spec.
  intros (p1 & q1 & H1) (p2 & q2 & H2).
  exists (p1 ++ p2), (q2 ++ q1). subst.
  now rewrite !append_assoc_str.
Qed.

Lemma notebook_includes_book (s : string) :
  includes s "notebook" = true -> includes s "book" = true.
Proof. intros H. apply (includes_trans s "notebook" "book" H). reflexivity. Qed.

Lemma cell_phone_includes_phone (s : string) :
  includes s "cell phone" = true -> includes s "phone" = true.
Proof. intros H. apply (includes_trans s "cell phone" "phone" H). reflexivity. Qed.

Lemma cell_phone_redundant (s : string) :
  includes s "phone" || includes s "cell phone" = includes s "phone".
Proof.
  destruct (includes s "phone") eqn:Hp; [reflexivity|].
  destruct (includes s "cell phone") eqn:Hc; [|reflexivity].
  apply cell_phone_includes_phone in Hc. congruence.
Qed.

(** The events of one loop iteration, by the label. *)
Lemma inspectPrediction_events (now : Z) (p : Prediction) (this : DetectionSystem) :
  eventsOf (inspectPrediction now p) this =
    let label := toLowerCase (class p) in
    if includes label "phone" then [mkEvent PHONE_DETECTED now (score p)]
    else if includes label "book" then [mkEvent BOOK_DETECTED now (score p)]
    else if includes label "paper" then [mkEvent NOTES_DETECTED now (score p)]
    else [].
Proof.
  unfold eventsOf, inspectPrediction. cbv zeta.
  rewrite cell_phone_redundant.
  destruct (includes (toLowerCase (class p)) "phone"); [reflexivity|].
  destruct (includes (toLowerCase (class p)) "book") eqn:Hb; [reflexivity|].
  destruct (includes (toLowerCase (class p)) "paper"); [reflexivity|].
  destruct (includes (toLowerCase (class p)) "notebook") eqn:Hn; [|reflexivity].
  apply notebook_includes_book in Hn. congruence.
Qed.

(** C7 (the code misses it). A label whose lower-case form contains
    "notebook" also contains "book", and the "book" test comes first: the
    event is BOOK_DETECTED (PHONE_DETECTED when it contains "phone"
    too), with the confidence of the prediction, and never
    NOTES_DETECTED. *)
Theorem notebook_label_yields_book (now : Z) (p : Prediction) (this : DetectionSystem) :
  includes (toLowerCase (class p)) "notebook" = true ->
  eventsOf (inspectPrediction now p) this
  = [mkEvent (if includes (toLowerCase (class p)) "phone"
              then PHONE_DETECTED else BOOK_DETECTED) now (score p)] /\
  ~ In NOTES_DETECTED (map type (eventsOf (inspectPrediction now p) this)).
Proof.
  intros Hn. apply notebook_includes_book in Hn.
  rewrite inspectPrediction_events. cbv zeta. rewrite Hn.
  destruct (includes (toLowerCase (class p)) "phone"); simpl;
    (split; [reflexivity | intros [H|[]]; discriminate]).
Qed.

Lemma notebook_label_yields_book_witness :
  eventsOf (inspectPrediction 0 (mkPrediction "notebook" 0.9%Q)) (Detection.initialized 0)
  = [mkEvent BOOK_DETECTED 0 0.9%Q].
Proof.
  exact (proj1 (notebook_label_yields_book 0 (mkPrediction "notebook" 0.9%Q)
                  (Detection.initialized 0) eq_refl)).
Defined.

(** C10. In one tick each object observation yields at most one event,
    by fixed precedence: "phone" gives only PHONE_DETECTED; otherwise
    "book" gives only BOOK_DETECTED; otherwise "paper" or "notebook"
    gives only NOTES_DETECTED; otherwise nothing.  The events of the
    tick are those of its observations, in order, so there are at most
    as many events as observations; a label with both "phone" and
    "book" gives exactly one PHONE_DETECTED. *)
Theorem one_event_per_observation :
  (forall now p this,
      let label := toLowerCase (class p) in
      let evs := eventsOf (inspectPrediction now p) this in
      stateAfter (inspectPrediction now p) this = this /\
      (List.length evs <= 1)%nat /\
      (includes label "phone" = true ->
       evs = [mkEvent PHONE_DETECTED now (score p)]) /\
      (includes label "phone" = false -> includes label "book" = true ->
       evs = [mkEvent BOOK_DETECTED now (score p)]) /\
      (includes label "phone" = false -> includes label "book" = false ->
       includes label "paper" = true \/ includes label "notebook" = true ->
       evs = [mkEvent NOTES_DETECTED now (score p)]) /\
      (includes label "phone" = false -> includes label "book" = false ->
       includes label "paper" = false -> evs = [])) /\
  (forall now ps this,
      ready this ->
      let evs := eventsOf (Detection.detectObjects (Returns ps) now) this in
      evs = flat_map (fun p => eventsOf (inspectPrediction now p) this) ps /\
      (List.length evs <= List.length ps)%nat) /\
  (forall now c this,
      eventsOf (inspectPrediction now (mkPrediction "Phone Book" c)) this
      = [mkEvent PHONE_DETECTED now c]).
Proof.
  split; [|split].
  - intros now p this. cbv zeta.
    split; [unfold stateAfter; now rewrite inspectPrediction_keeps_state|].
    rewrite inspectPrediction_events. cbv zeta.
    destruct (includes (toLowerCase (class p)) "phone") eqn:Hp;
      [|destruct (includes (toLowerCase (class p)) "book") eqn:Hb;
        [|destruct (includes (toLowerCase (class p)) "paper") eqn:Hpp]].
    + simpl List.length. repeat split; intros; first [reflexivity | discriminate | lia].
    + simpl List.length. repeat split; intros; first [reflexivity | discriminate | lia].
    + simpl List.length. repeat split; intros; first [reflexivity | discriminate | lia].
    + simpl List.length. split; [lia|].
      split; [discriminate|]. split; [discriminate|].
      split; [|reflexivity].
      intros _ _ [Hpaper|Hnote]; [discriminate|].
      apply notebook_includes_book in Hnote. congruence.
  - intros now ps this (_ & Ho & Hi). cbv zeta.
    assert (Hev : eventsOf (Detection.detectObjects (Returns ps) now) this
                  = flat_map (fun p => eventsOf (inspectPrediction now p) this) ps).
    { unfold eventsOf at 1. unfold Detection.detectObjects, bind, get.
      rewrite Ho, Hi. simpl.
      rewrite forEach_inspect_keeps_state. simpl.
      induction ps as [|p ps IH]; [reflexivity|].
      unfold eventsOf at 1. simpl forEach. unfold bind.
      rewrite inspectPrediction_keeps_state, forEach_inspect_keeps_state.
      simpl. now rewrite IH. }
    split; [exact Hev|]. rewrite Hev. clear Hev.
    induction ps as [|p ps IH]; [simpl; lia|].
    change (flat_map (fun p => eventsOf (inspectPrediction now p) this) (p :: ps))
      with (eventsOf (inspectPrediction now p) this
            ++ flat_map (fun p => eventsOf (inspectPrediction now p) this) ps)%list.
    rewrite length_app.
    assert (Hone : (List.length (eventsOf (inspectPrediction now p) this) <= 1)%nat).
    { rewrite inspectPrediction_events. cbv zeta.
      repeat match goal with
             | |- context [if ?c then _ else _] => destruct c
             end; simpl; lia. }
    change (List.length (p :: ps)) with (S (List.length ps)). lia.
  - intros now c this. reflexivity.
Qed.

Lemma one_event_per_observation_witness :
  eventsOf (inspectPrediction 0 (mkPrediction "Paper Sheet" 0.5%Q)) (Detection.initialized 0)
  = [mkEvent NOTES_DETECTED 0 0.5%Q].
Proof.
  exact (proj1 (proj2 (proj2 (proj2 (proj2
           (proj1 one_event_per_observation 0 (mkPrediction "Paper Sheet" 0.5%Q)
                  (Detection.initialized 0))))))
           eq_refl eq_refl (or_introl eq_refl)).
Defined.

End Labels.

(** ** The counts [saveData] stores *)

Section Aggregation.

Import InterviewActions.
Open Scope string_scope.

Lemma countOf_cons (name : string) (e : EventData) (evs : list EventData) :
  countOf name (e :: evs)
  = ((if String.eqb (type e) name then 1 else 0) + countOf name evs)%nat.
Proof.
  unfold countOf. simpl filter.
  destruct (String.eqb (type e) name); reflexivity.
Qed.

(** The sum of the six counts over a list of events. *)
Lemma counts_sum_known (evs : list EventData) :
  Forall (fun e => In (type e) knownTypes) evs ->
  (countOf "FOCUS_LOST" evs + countOf "NO_FACE" evs
   + countOf "MULTIPLE_FACES" evs + countOf "PHONE_DETECTED" evs
   + countOf "NOTES_DETECTED" evs + countOf "BOOK_DETECTED" evs
   = List.length evs)%nat.
Proof.
  induction 1 as [|e evs He _ IH]; [reflexivity|].
  rewrite !countOf_cons.
  change (List.length (e :: evs)) with (S (List.length evs)).
  rewrite <- IH.
  destruct e as [ty ts c]. simpl in He. simpl type.
  destruct He as [<-|[<-|[<-|[<-|[<-|[<-|[]]]]]]]; simpl; lia.
Qed.

(** The events the room page records carry one of the six names. *)
Lemma room_events_known (evs : list DetectionEvent) :
  Forall (fun e => In (type e) knownTypes) (map ofDetectionEvent evs).
Proof.
  induction evs as [|[k t c] evs IH]; constructor; [|exact IH].
  destruct k; simpl; tauto.
Qed.

(** C8. After recording any sequence of violation events (events whose
    type is one of the six kinds), for every such input accepted by
    [saveData], the stored totalEvents equals the length of the event
    list, which is the number of event rows written, and equals the sum of
    the six per-kind counts. *)
Theorem total_events_sum_of_counts (data : InterviewData) (row : Interview.t)
        (log : list EventData) :
  Forall (fun e => In (type e) knownTypes) (events data) ->
  saveData data = Saved row log ->
  Interview.totalEvents row = List.length (events data) /\
  List.length log = List.length (events data) /\
  Interview.totalEvents row = sumOfCounts row.
Proof.
  intros Hknown Hsave. unfold saveData in Hsave.
  destruct (falsy (roomId data) || falsy (candidateName data)); [discriminate|].
  injection Hsave as <- <-.
  unfold sumOfCounts. simpl.
  rewrite length_map.
  split; [reflexivity|]. split; [reflexivity|].
  rewrite <- (counts_sum_known (events data) Hknown). lia.
Qed.

Lemma total_events_sum_of_counts_witness :
  exists row log,
    saveData (mkInterviewData "room-1" "Ada" 0 (Some 60000) 80
                (map ofDetectionEvent [mkEvent PHONE_DETECTED 1000 0.87%Q]))
    = Saved row log /\
    Interview.totalEvents row = sumOfCounts row.
Proof.
  eexists. eexists. split; [reflexivity|].
  refine (proj2 (proj2 (total_events_sum_of_counts
            (mkInterviewData "room-1" "Ada" 0 (Some 60000) 80
               (map ofDetectionEvent [mkEvent PHONE_DETECTED 1000 0.87%Q]))
            _ _ _ eq_refl))).
  apply room_events_known.
Defined.

End Aggregation.


(* ================================================================== *)
(** * Further properties of the code *)

Ltac split_gtb :=
  repeat match goal with
  | |- context [?a >? ?b] =>
      let H := fresh "Hcmp" in
      destruct (Z.gtb_spec a b) as [H|H]; try lia
  | H : context [?a >? ?b] |- _ =>
      let H' := fresh "Hcmp" in
      destruct (Z.gtb_spec a b) as [H'|H']; try lia
  end.

(** ** One tick of src/lib/detection.ts, in general *)

Section Ticks.

Import Detection.

Lemma eff_unit_eta (m : Eff unit) (this : DetectionSystem) :
  m this = (tt, stateAfter m this, eventsOf m this).
Proof.
  unfold stateAfter, eventsOf. destruct (m this) as [[[] s] o]. reflexivity.
Qed.

Lemma runDetection_events (t : Tick) (this : DetectionSystem) :
  eventsOf (runDetection t) this
  = if isInitialized this
    then (eventsOf (detectFaces (video t) (detectForVideo t) (now t)) this
          ++ eventsOf (detectObjects (detect t) (now t))
               (stateAfter (detectFaces (video t) (detectForVideo t) (now t)) this))%list
    else [].
Proof.
  unfold eventsOf at 1. unfold runDetection, bind, get.
  destruct (isInitialized this); [|reflexivity]. simpl.
  rewrite (eff_unit_eta (detectFaces _ _ _) this).
  rewrite detectObjects_keeps_state. reflexivity.
Qed.

Lemma runDetection_state (t : Tick) (this : DetectionSystem) :
  stateAfter (runDetection t) this
  = stateAfter (detectFaces (video t) (detectForVideo t) (now t)) this.
Proof.
  unfold stateAfter at 1. unfold runDetection, bind, get.
  destruct (isInitialized this) eqn:Hi; simpl.
  - rewrite (eff_unit_eta (detectFaces _ _ _) this).
    rewrite detectObjects_keeps_state. reflexivity.
  - unfold stateAfter, detectFaces, bind, get. rewrite Hi.
    rewrite orb_true_r. reflexivity.
Qed.

Lemma runLoop_cons (t : Tick) (ticks : list Tick) (this : DetectionSystem) :
  runLoop (t :: ticks) this
  = (fst (runLoop ticks (stateAfter (runDetection t) this)),
     eventsOf (runDetection t) this
       :: snd (runLoop ticks (stateAfter (runDetection t) this))).
Proof.
  simpl runLoop. rewrite (eff_unit_eta (runDetection t) this).
  destruct (runLoop ticks (stateAfter (runDetection t) this)). reflexivity.
Qed.

(** The face detector never writes the three flags of readiness. *)
Lemma detectFaces_keeps_flags (video : Video) (r : Outcome (list Face)) (t : Z)
      (this : DetectionSystem) :
  let this' := stateAfter (detectFaces video r t) this in
  faceDetector this' = faceDetector this /\
  objectDetector this' = objectDetector this /\
  isInitialized this' = isInitialized this.
Proof.
  destruct this as [fd od init lf la away nf].
  destruct r as [[|f [|f2 fs]]|];
    unfold stateAfter, detectFaces, judgeFaces, bind, get; simpl;
    destruct fd, init; simpl; try (repeat split; reflexivity).
  - destruct nf; simpl; split_gtb; simpl; repeat split; reflexivity.
  - destruct (isFaceLookingAtCenter f video); simpl;
      [repeat split; reflexivity|].
    destruct away; simpl; split_gtb; simpl; repeat split; reflexivity.
Qed.

(** What the face detector triggers in one tick: at most one event, of a
    face kind, stamped with the clock of the tick. *)
Lemma detectFaces_events_shape (video : Video) (r : Outcome (list Face)) (t : Z)
      (this : DetectionSystem) :
  let evs := eventsOf (detectFaces video r t) this in
  (List.length evs <= 1)%nat /\
  Forall (fun e => isFaceKind (type e) = true /\ timestamp e = t) evs.
Proof.
  destruct this as [fd od init lf la away nf].
  destruct r as [[|f [|f2 fs]]|];
    unfold eventsOf, detectFaces, judgeFaces, bind, get; simpl;
    destruct fd, init; simpl; try (split; [lia | repeat constructor]).
  - destruct nf; simpl; split_gtb; simpl; split; try lia; repeat constructor.
  - destruct (isFaceLookingAtCenter f video); simpl;
      [split; [lia | constructor]|].
    destruct away; simpl; split_gtb; simpl; split; try lia; repeat constructor.
Qed.

(** What the object detector triggers in one tick. *)
Lemma detectObjects_events_shape (d : Outcome (list Prediction)) (t : Z)
      (this : DetectionSystem) :
  let evs := eventsOf (detectObjects d t) this in
  (List.length evs <= match d with Returns ps => List.length ps | Throws => 0 end)%nat /\
  Forall (fun e => isObjectKind (type e) = true /\ timestamp e = t) evs.
Proof.
  cbv zeta. unfold eventsOf, detectObjects, bind, get.
  destruct (negb (objectDetector this) || negb (isInitialized this));
    [simpl; split; [lia | constructor]|].
  destruct d as [ps|]; [|simpl; split; [lia | constructor]].
  simpl. rewrite forEach_inspect_keeps_state. simpl.
  induction ps as [|p ps [IHlen IHall]]; [simpl; split; [lia | constructor]|].
  unfold eventsOf in *. simpl forEach. unfold bind.
  rewrite inspectPrediction_keeps_state, forEach_inspect_keeps_state.
  simpl. rewrite length_app.
  rewrite (inspectPrediction_events t p this). cbv zeta.
  unfold eventsOf.
  split.
  - repeat match goal with
           | |- context [if ?c then _ else _] => destruct c
           end; simpl; lia.
  - apply Forall_app. split; [|exact IHall].
    repeat match goal with
           | |- context [if ?c then _ else _] => destruct c
           end; repeat constructor.
Qed.

End Ticks.

Section TickProperties.

Import Detection.

Lemma timesOf_app (k : DetectionEventType) (a b : list DetectionEvent) :
  timesOf k (a ++ b) = (timesOf k a ++ timesOf k b)%list.
Proof. unfold timesOf. now rewrite filter_app, map_app. Qed.

Lemma timesOf_other_kind (k : DetectionEventType) (P : DetectionEventType -> bool)
      (t : Z) (evs : list DetectionEvent) :
  P k = false ->
  Forall (fun e => P (type e) = true /\ timestamp e = t) evs ->
  timesOf k evs = [].
Proof.
  intros Hk Hall. unfold timesOf.
  induction Hall as [|e evs [He _] _ IH]; [reflexivity|].
  simpl filter.
  destruct (eventTypeEqb (type e) k) eqn:Heq; [|exact IH].
  destruct (type e), k; simpl in Heq; try discriminate; congruence.
Qed.

Lemma filter_all_true {A} (p : A -> bool) (l : list A) :
  Forall (fun a => p a = true) l -> filter p l = l.
Proof.
  induction 1 as [|a l Ha _ IH]; [reflexivity|]. simpl. now rewrite Ha, IH.
Qed.

Lemma filter_all_false {A} (p : A -> bool) (l : list A) :
  Forall (fun a => p a = false) l -> filter p l = [].
Proof.
  induction 1 as [|a l Ha _ IH]; [reflexivity|]. simpl. now rewrite Ha.
Qed.

Lemma face_events_are_face_kind (video : Video) (r : Outcome (list Face)) (t : Z)
      (this : DetectionSystem) :
  Forall (fun e => isFaceKind (type e) = true /\ isObjectKind (type e) = false)
         (eventsOf (detectFaces video r t) this).
Proof.
  destruct (detectFaces_events_shape video r t this) as [_ Hall].
  eapply Forall_impl; [|exact Hall].
  intros e [He _]. destruct (type e); simpl in *; try discriminate; now split.
Qed.

Lemma object_events_are_object_kind (d : Outcome (list Prediction)) (t : Z)
      (this : DetectionSystem) :
  Forall (fun e => isObjectKind (type e) = true /\ isFaceKind (type e) = false)
         (eventsOf (detectObjects d t) this).
Proof.
  destruct (detectObjects_events_shape d t this) as [_ Hall].
  eapply Forall_impl; [|exact Hall].
  intros e [He _]. destruct (type e); simpl in *; try discriminate; now split.
Qed.

Lemma forEach_inspect_events_cons (t : Z) (p : Prediction) (ps : list Prediction)
      (this : DetectionSystem) :
  eventsOf (forEach (inspectPrediction t) (p :: ps)) this
  = (eventsOf (inspectPrediction t p) this
     ++ eventsOf (forEach (inspectPrediction t) ps) this)%list.
Proof.
  unfold eventsOf. simpl forEach. unfold bind.
  rewrite inspectPrediction_keeps_state, forEach_inspect_keeps_state.
  reflexivity.
Qed.

Lemma forEach_inspect_any_state (t : Z) (ps : list Prediction)
      (this this' : DetectionSystem) :
  eventsOf (forEach (inspectPrediction t) ps) this'
  = eventsOf (forEach (inspectPrediction t) ps) this.
Proof.
  induction ps as [|p ps IH]; [reflexivity|].
  rewrite !forEach_inspect_events_cons, IH, !inspectPrediction_events.
  reflexivity.
Qed.

(** The object detector reads only the two flags. *)
Lemma detectObjects_reads_flags (d : Outcome (list Prediction)) (t : Z)
      (this this' : DetectionSystem) :
  objectDetector this' = objectDetector this ->
  isInitialized this' = isInitialized this ->
  eventsOf (detectObjects d t) this' = eventsOf (detectObjects d t) this.
Proof.
  intros Ho Hi.
  assert (Hev : forall s,
             eventsOf (detectObjects d t) s
             = if negb (objectDetector s) || negb (isInitialized s) then []
               else match d with
                    | Returns ps => eventsOf (forEach (inspectPrediction t) ps) s
                    | Throws => []
                    end).
  { intros s. unfold eventsOf, detectObjects, bind, get. simpl.
    destruct (negb (objectDetector s) || negb (isInitialized s)); [reflexivity|].
    destruct d as [ps|]; [|reflexivity].
    simpl. rewrite forEach_inspect_keeps_state. reflexivity. }
  rewrite !Hev, Ho, Hi.
  destruct (negb (objectDetector this) || negb (isInitialized this)); [reflexivity|].
  destruct d as [ps|]; [|reflexivity].
  apply forEach_inspect_any_state.
Qed.

(** The events of a tick, sorted by detector: those of a face kind are
    the events of [detectFaces], those of an object kind the events of
    [detectObjects]. *)
Lemma tick_events_by_detector (t : Tick) (this : DetectionSystem) :
  faceEventsIn (eventsOf (runDetection t) this)
  = eventsOf (detectFaces (video t) (detectForVideo t) (now t)) this /\
  objectEventsIn (eventsOf (runDetection t) this) = objectEvents t this.
Proof.
  unfold faceEventsIn, objectEventsIn, objectEvents.
  rewrite runDetection_events.
  destruct (isInitialized this) eqn:Hi.
  - destruct (detectFaces_keeps_flags (video t) (detectForVideo t) (now t) this)
      as (_ & Ho' & Hi').
    rewrite (detectObjects_reads_flags (detect t) (now t) this _ Ho' Hi').
    pose proof (face_events_are_face_kind (video t) (detectForVideo t) (now t) this)
      as Hf.
    pose proof (object_events_are_object_kind (detect t) (now t) this) as Hobj.
    rewrite !filter_app. split.
    + rewrite (filter_all_true _ _ (Forall_impl _ (fun e H => proj1 H) Hf)).
      rewrite (filter_all_false _ _ (Forall_impl _ (fun e H => proj2 H) Hobj)).
      apply app_nil_r.
    + rewrite (filter_all_false _ _ (Forall_impl _ (fun e H => proj2 H) Hf)).
      rewrite (filter_all_true _ _ (Forall_impl _ (fun e H => proj1 H) Hobj)).
      reflexivity.
  - unfold eventsOf, detectFaces, detectObjects, bind, get. simpl.
    rewrite Hi, !orb_true_r. split; reflexivity.
Qed.

(** X1. In one tick the detection triggers at most one event more than
    the object model returned predictions: at most one event of a face
    kind, and at most one event of an object kind for each prediction. *)
Theorem tick_events_bounded (t : Tick) (this : DetectionSystem) :
  let evs := eventsOf (runDetection t) this in
  let predictions := match detect t with
                     | Returns ps => List.length ps
                     | Throws => 0%nat
                     end in
  (List.length evs <= 1 + predictions)%nat /\
  (List.length (faceEventsIn evs) <= 1)%nat /\
  (List.length (objectEventsIn evs) <= predictions)%nat.
Proof.
  cbv zeta.
  destruct (tick_events_by_detector t this) as [Hface Hobj].
  rewrite Hface, Hobj. unfold objectEvents.
  destruct (detectFaces_events_shape (video t) (detectForVideo t) (now t) this)
    as [Hflen _].
  destruct (detectObjects_events_shape (detect t) (now t) this) as [Holen _].
  cbv zeta in *.
  split; [|split; assumption].
  rewrite runDetection_events.
  destruct (isInitialized this); [|simpl; lia].
  rewrite length_app.
  destruct (detectObjects_events_shape (detect t) (now t)
              (stateAfter (detectFaces (video t) (detectForVideo t) (now t)) this))
    as [Holen' _].
  cbv zeta in Holen'. lia.
Qed.

Lemma several_faces_tick (t : Tick) (this : DetectionSystem) :
  ready this -> twoOrMoreFaces t ->
  stateAfter (runDetection t) this = this /\
  eventsOf (detectFaces (video t) (detectForVideo t) (now t)) this
  = [mkEvent MULTIPLE_FACES (now t) 0.9%Q].
Proof.
  intros (Hf & Ho & Hi) (f1 & f2 & fs & Hfaces).
  rewrite runDetection_state, Hfaces.
  destruct this as [fd od init lf la away nf]; simpl in Hf, Ho, Hi; subst.
  split; reflexivity.
Qed.

Lemma several_faces_loop (ticks : list Tick) (this : DetectionSystem) :
  ready this -> Forall twoOrMoreFaces ticks ->
  fst (runLoop ticks this) = this /\
  Forall2 (fun t evs =>
             (exists stamp, faceEventsIn evs = [mkEvent MULTIPLE_FACES stamp 0.9%Q]) /\
             objectEventsIn evs = objectEvents t this)
          ticks (snd (runLoop ticks this)).
Proof.
  intros Hready Hall.
  induction Hall as [|t ticks Ht _ [IHstate IHevs]]; [split; [reflexivity | constructor]|].
  rewrite runLoop_cons.
  destruct (several_faces_tick t this Hready Ht) as [Hstate Hface].
  rewrite Hstate. simpl fst. simpl snd.
  split; [exact IHstate|].
  constructor; [|exact IHevs].
  destruct (tick_events_by_detector t this) as [Hf Hobj].
  split; [|exact Hobj].
  exists (now t). now rewrite Hf.
Qed.

(** X2. While two or more faces are in view, every tick triggers exactly
    one event of a face kind, a MULTIPLE_FACES with confidence 0.9, beside
    whatever the object detector triggers, and writes no field: there is
    no debounce, and the timers and flags of the other conditions stay as
    they were. *)
Theorem several_faces_every_tick (ticks : list Tick) (this : DetectionSystem) :
  ready this -> Forall twoOrMoreFaces ticks ->
  fst (runLoop ticks this) = this /\
  Forall2 (fun t evs =>
             (exists stamp, faceEventsIn evs = [mkEvent MULTIPLE_FACES stamp 0.9%Q]) /\
             objectEventsIn evs = objectEvents t this)
          ticks (snd (runLoop ticks this)).
Proof.
  exact (several_faces_loop ticks this).
Qed.

Lemma several_faces_every_tick_witness :
  fst (runLoop
         [mkTick 0 (mkVideo 1280 720)
                 (Returns [mkFace (mkBox 0 0 100 100) 0.9%Q;
                           mkFace (mkBox 600 0 100 100) 0.8%Q])
                 (Returns [mkPrediction "person" 0.9%Q; mkPrediction "cell phone" 0.8%Q]);
          mkTick 2000 (mkVideo 1280 720)
                 (Returns [mkFace (mkBox 0 0 100 100) 0.9%Q;
                           mkFace (mkBox 600 0 100 100) 0.8%Q])
                 (Returns [mkPrediction "person" 0.9%Q])]
         (mkSystem true true true 0 0 true true))
  = mkSystem true true true 0 0 true true.
Proof.
  refine (proj1 (several_faces_every_tick _ (mkSystem true true true 0 0 true true) _ _)).
  - repeat split.
  - repeat constructor; do 3 eexists; reflexivity.
Defined.

Lemma no_report_at_first_sight (t : Tick) (this : DetectionSystem) :
  (isLookingAway this = false ->
   timesOf FOCUS_LOST (eventsOf (runDetection t) this) = []) /\
  (hasNoFace this = false ->
   timesOf NO_FACE (eventsOf (runDetection t) this) = []).
Proof.
  rewrite runDetection_events.
  destruct (isInitialized this) eqn:Hi; [|split; reflexivity].
  rewrite !timesOf_app.
  destruct (detectObjects_events_shape (detect t) (now t)
              (stateAfter (detectFaces (video t) (detectForVideo t) (now t)) this))
    as [_ Hoall].
  rewrite (timesOf_other_kind FOCUS_LOST isObjectKind (now t) _ eq_refl Hoall).
  rewrite (timesOf_other_kind NO_FACE isObjectKind (now t) _ eq_refl Hoall).
  rewrite !app_nil_r. clear Hoall.
  destruct this as [fd od init lf la away nf]; simpl in Hi; subst init.
  destruct (detectForVideo t) as [[|f [|f2 fs]]|];
    unfold eventsOf, detectFaces, judgeFaces, bind, get,
      NO_FACE_THRESHOLD, FOCUS_LOST_THRESHOLD; simpl;
    destruct fd; simpl; try (split; reflexivity).
  - split; intros H; simpl in H; subst; simpl.
    + destruct nf; simpl; split_gtb; reflexivity.
    + split_gtb; reflexivity.
  - destruct (isFaceLookingAtCenter f (video t)); simpl; [split; reflexivity|].
    split; intros H; simpl in H; subst; simpl.
    + split_gtb; reflexivity.
    + destruct away; simpl; split_gtb; reflexivity.
Qed.

(** X3. A condition is never reported at the tick that first sees it: an
    object that is not tracking a deviation triggers no FOCUS_LOST, and an
    object that is not tracking an absence triggers no NO_FACE, whatever
    the tick contains and whatever the timers hold. *)
Theorem first_sight_never_emits (t : Tick) (this : DetectionSystem) :
  (isLookingAway this = false ->
   timesOf FOCUS_LOST (eventsOf (runDetection t) this) = []) /\
  (hasNoFace this = false ->
   timesOf NO_FACE (eventsOf (runDetection t) this) = []).
Proof.
  exact (no_report_at_first_sight t this).
Qed.

Lemma first_sight_never_emits_witness :
  timesOf FOCUS_LOST
    (eventsOf (runDetection (faceTick 900000 (mkVideo 1280 720)
                                      [mkFace (mkBox 0 0 100 100) 0.9%Q]))
              (initialized 0)) = [].
Proof.
  exact (proj1 (first_sight_never_emits
                  (faceTick 900000 (mkVideo 1280 720) [mkFace (mkBox 0 0 100 100) 0.9%Q])
                  (initialized 0)) eq_refl).
Defined.

(** X4. A tick with exactly one face that looks at the center triggers
    no event of a face kind, whatever the object model returns, and
    clears both conditions, leaving the two timers as they were; so the
    tick after it triggers neither FOCUS_LOST nor NO_FACE: both
    countdowns start again from zero. *)
Theorem centered_face_restarts_countdowns (this : DetectionSystem) (t next : Tick)
        (face : Face) :
  ready this ->
  detectForVideo t = Returns [face] ->
  isFaceLookingAtCenter face (video t) = true ->
  let this' := stateAfter (runDetection t) this in
  this' = mkSystem true true true (lastFaceDetectedTime this)
                   (lastLookingAwayTime this) false false /\
  faceEventsIn (eventsOf (runDetection t) this) = [] /\
  timesOf FOCUS_LOST (eventsOf (runDetection next) this') = [] /\
  timesOf NO_FACE (eventsOf (runDetection next) this') = [].
Proof.
  intros (Hf & Ho & Hi) Hfaces Hc. cbv zeta.
  assert (Hstate : stateAfter (runDetection t) this
                   = mkSystem true true true (lastFaceDetectedTime this)
                              (lastLookingAwayTime this) false false).
  { rewrite runDetection_state, Hfaces.
    destruct this as [fd od init lf la away nf]; simpl in Hf, Ho, Hi; subst.
    unfold stateAfter, detectFaces, judgeFaces, bind, get. simpl.
    rewrite Hc. reflexivity. }
  split; [exact Hstate|]. split.
  - rewrite (proj1 (tick_events_by_detector t this)), Hfaces.
    destruct this as [fd od init lf la away nf]; simpl in Hf, Ho, Hi; subst.
    unfold eventsOf, detectFaces, judgeFaces, bind, get. simpl.
    rewrite Hc. reflexivity.
  - rewrite Hstate. split; apply no_report_at_first_sight; reflexivity.
Qed.

Lemma centered_face_restarts_countdowns_witness :
  stateAfter (runDetection
                (mkTick 7000 (mkVideo 1280 720)
                        (Returns [mkFace (mkBox 590 0 100 100) 0.9%Q])
                        (Returns [mkPrediction "person" 0.9%Q])))
             (mkSystem true true true 0 0 true true)
  = mkSystem true true true 0 0 false false.
Proof.
  refine (proj1 (centered_face_restarts_countdowns
                   (mkSystem true true true 0 0 true true)
                   (mkTick 7000 (mkVideo 1280 720)
                           (Returns [mkFace (mkBox 590 0 100 100) 0.9%Q])
                           (Returns [mkPrediction "person" 0.9%Q]))
                   (faceTick 9000 (mkVideo 1280 720) [])
                   (mkFace (mkBox 590 0 100 100) 0.9%Q) _ _ _)).
  - repeat split.
  - reflexivity.
  - reflexivity.
Defined.

(** X5. Two or more faces in view do not end an absence: such a tick
    leaves the no-face flag and its timer as they were, and a tick without
    a face after it triggers NO_FACE (confidence 0.9, the only event of a
    face kind) exactly when the clock is more than 10000 ms past the timer
    value from before; the object model may return anything in both
    ticks. *)
Theorem several_faces_keep_absence_timer (this : DetectionSystem) (gap after : Tick) :
  ready this -> hasNoFace this = true ->
  twoOrMoreFaces gap -> noFace after ->
  let this' := stateAfter (runDetection gap) this in
  this' = this /\
  (now after - lastFaceDetectedTime this > NO_FACE_THRESHOLD ->
   exists stamp,
     faceEventsIn (eventsOf (runDetection after) this')
     = [mkEvent NO_FACE stamp 0.9%Q]) /\
  (now after - lastFaceDetectedTime this <= NO_FACE_THRESHOLD ->
   faceEventsIn (eventsOf (runDetection after) this') = []).
Proof.
  intros Hready Hnf Hgap Hafter. cbv zeta.
  destruct (several_faces_tick gap this Hready Hgap) as [Hstate _].
  rewrite Hstate. split; [reflexivity|].
  rewrite (proj1 (tick_events_by_detector after this)).
  unfold noFace in Hafter. rewrite Hafter.
  destruct Hready as (Hf & Ho & Hi).
  destruct this as [fd od init lf la away nf]; simpl in Hf, Ho, Hi, Hnf; subst.
  unfold eventsOf, detectFaces, judgeFaces, bind, get, NO_FACE_THRESHOLD. simpl.
  split; intros Ht; split_gtb; [exists (now after)|]; reflexivity.
Qed.

Lemma several_faces_keep_absence_timer_witness :
  faceEventsIn
    (eventsOf (runDetection (mkTick 12000 (mkVideo 1280 720) (Returns [])
                                    (Returns [mkPrediction "chair" 0.6%Q])))
              (stateAfter (runDetection
                             (mkTick 6000 (mkVideo 1280 720)
                                     (Returns [mkFace (mkBox 0 0 100 100) 0.9%Q;
                                               mkFace (mkBox 600 0 100 100) 0.8%Q])
                                     (Returns [mkPrediction "person" 0.9%Q])))
                          (mkSystem true true true 0 0 false true)))
  = [mkEvent NO_FACE 12000 0.9%Q].
Proof.
  destruct (proj1 (proj2 (several_faces_keep_absence_timer
              (mkSystem true true true 0 0 false true)
              (mkTick 6000 (mkVideo 1280 720)
                      (Returns [mkFace (mkBox 0 0 100 100) 0.9%Q;
                                mkFace (mkBox 600 0 100 100) 0.8%Q])
                      (Returns [mkPrediction "person" 0.9%Q]))
              (mkTick 12000 (mkVideo 1280 720) (Returns [])
                      (Returns [mkPrediction "chair" 0.6%Q]))
              ltac:(repeat split) eq_refl
              ltac:(do 3 eexists; reflexivity) eq_refl))
            eq_refl) as [stamp Hstamp].
  reflexivity.
Defined.

End TickProperties.

(** ** The distance between two reports of the same condition *)

Section Spacing.

Import Detection.

Variable k : DetectionEventType.
Variable d : Z.
Variable timer : DetectionSystem -> Z.

Hypothesis step : timerStep k d timer.

Lemma clockFrom_weaken (ticks : list Tick) (a b : Z) :
  a <= b -> clockFrom b ticks -> clockFrom a ticks.
Proof.
  destruct ticks as [|t ticks]; [trivial|].
  simpl. intros Hab [Hb Hrest]. split; [lia | exact Hrest].
Qed.

Lemma clockFrom_ordered (ticks : list Tick) (a : Z) :
  clockFrom a ticks -> clockOrdered ticks.
Proof.
  destruct ticks as [|t ticks]; [trivial|]. simpl. now intros [_ H].
Qed.

Lemma loop_times_cons (t : Tick) (ticks : list Tick) (this : DetectionSystem) :
  timesOf k (List.concat (snd (runLoop (t :: ticks) this)))
  = (timesOf k (eventsOf (runDetection t) this)
     ++ timesOf k (List.concat
                     (snd (runLoop ticks (stateAfter (runDetection t) this)))))%list.
Proof.
  rewrite runLoop_cons. simpl. apply timesOf_app.
Qed.

Lemma gaps_from (ticks : list Tick) :
  forall (this : DetectionSystem) (from : Z),
    from <= timer this -> clockFrom from ticks ->
    gapsExceedFrom d from (timesOf k (List.concat (snd (runLoop ticks this)))).
Proof.
  induction ticks as [|t ticks IH]; intros this from Hfrom Hclock; [exact I|].
  destruct Hclock as [Hnow Hrest].
  rewrite loop_times_cons.
  destruct (step t this) as [[Hnone Htimer] | (Hone & Htimer & Hgap)].
  - rewrite Hnone. simpl app. apply IH.
    + destruct Htimer as [-> | ->]; lia.
    + exact (clockFrom_weaken ticks from (now t) Hnow Hrest).
  - rewrite Hone. simpl app. split; [lia|].
    apply IH; [rewrite Htimer; lia | exact Hrest].
Qed.

Lemma gaps_of_loop (ticks : list Tick) :
  forall this : DetectionSystem,
    clockOrdered ticks ->
    gapsExceed d (timesOf k (List.concat (snd (runLoop ticks this)))).
Proof.
  induction ticks as [|t ticks IH]; intros this Hclock; [exact I|].
  simpl in Hclock. rewrite loop_times_cons.
  destruct (step t this) as [[Hnone Htimer] | (Hone & Htimer & Hgap)].
  - rewrite Hnone. simpl app. apply IH.
    exact (clockFrom_ordered ticks (now t) Hclock).
  - rewrite Hone. simpl app. simpl gapsExceed.
    apply gaps_from; [rewrite Htimer; lia | exact Hclock].
Qed.

Lemma existsb_timesOf (evs : list DetectionEvent) :
  existsb (fun e => eventTypeEqb (type e) k) evs
  = match timesOf k evs with
    | [] => false
    | _ :: _ => true
    end.
Proof.
  unfold timesOf. induction evs as [|e evs IH]; [reflexivity|].
  simpl. destruct (eventTypeEqb (type e) k); [reflexivity | exact IH].
Qed.

(** The clock readings of the ticks that trigger an event of kind [k]
    are the time stamps of those events. *)
Lemma reportClocks_loop (ticks : list Tick) :
  forall this : DetectionSystem,
    reportClocks k ticks (snd (runLoop ticks this))
    = timesOf k (List.concat (snd (runLoop ticks this))).
Proof.
  induction ticks as [|t ticks IH]; intros this; [reflexivity|].
  rewrite loop_times_cons, runLoop_cons.
  cbn [snd reportClocks]. rewrite existsb_timesOf, IH.
  destruct (step t this) as [[Hnone _] | (Hone & _)].
  - rewrite Hnone. reflexivity.
  - rewrite Hone. reflexivity.
Qed.

Lemma report_gaps_of_loop (ticks : list Tick) (this : DetectionSystem) :
  clockOrdered ticks ->
  gapsExceed d (reportClocks k ticks (snd (runLoop ticks this))).
Proof.
  rewrite reportClocks_loop. apply gaps_of_loop.
Qed.

End Spacing.

Section SpacingOfReports.

Import Detection.

Lemma focus_timer_step :
  timerStep FOCUS_LOST FOCUS_LOST_THRESHOLD lastLookingAwayTime.
Proof.
  intros t this.
  rewrite runDetection_state, runDetection_events.
  destruct (isInitialized this) eqn:Hi.
  2:{ left. split; [reflexivity|]. left.
      unfold stateAfter, detectFaces, bind, get. rewrite Hi, orb_true_r. reflexivity. }
  rewrite timesOf_app.
  destruct (detectObjects_events_shape (detect t) (now t)
              (stateAfter (detectFaces (video t) (detectForVideo t) (now t)) this))
    as [_ Hoall].
  rewrite (timesOf_other_kind FOCUS_LOST isObjectKind (now t) _ eq_refl Hoall).
  rewrite app_nil_r. clear Hoall.
  destruct this as [fd od init lf la away nf]; simpl in Hi; subst init.
  destruct (detectForVideo t) as [[|f [|f2 fs]]|];
    unfold stateAfter, eventsOf, detectFaces, judgeFaces, bind, get,
      NO_FACE_THRESHOLD, FOCUS_LOST_THRESHOLD; simpl;
    destruct fd; simpl; try (left; split; [reflexivity | left; reflexivity]).
  - destruct nf; simpl; split_gtb; simpl;
      left; (split; [reflexivity | left; reflexivity]).
  - destruct (isFaceLookingAtCenter f (video t)); simpl;
      [left; split; [reflexivity | left; reflexivity]|].
    destruct away; simpl; split_gtb; simpl;
      first [ right; split; [reflexivity | split; [reflexivity | lia]]
            | left; split; [reflexivity | left; reflexivity]
            | left; split; [reflexivity | right; reflexivity] ].
Qed.

Lemma absence_timer_step :
  timerStep NO_FACE NO_FACE_THRESHOLD lastFaceDetectedTime.
Proof.
  intros t this.
  rewrite runDetection_state, runDetection_events.
  destruct (isInitialized this) eqn:Hi.
  2:{ left. split; [reflexivity|]. left.
      unfold stateAfter, detectFaces, bind, get. rewrite Hi, orb_true_r. reflexivity. }
  rewrite timesOf_app.
  destruct (detectObjects_events_shape (detect t) (now t)
              (stateAfter (detectFaces (video t) (detectForVideo t) (now t)) this))
    as [_ Hoall].
  rewrite (timesOf_other_kind NO_FACE isObjectKind (now t) _ eq_refl Hoall).
  rewrite app_nil_r. clear Hoall.
  destruct this as [fd od init lf la away nf]; simpl in Hi; subst init.
  destruct (detectForVideo t) as [[|f [|f2 fs]]|];
    unfold stateAfter, eventsOf, detectFaces, judgeFaces, bind, get,
      NO_FACE_THRESHOLD, FOCUS_LOST_THRESHOLD; simpl;
    destruct fd; simpl; try (left; split; [reflexivity | left; reflexivity]).
  - destruct nf; simpl; split_gtb; simpl;
      first [ right; split; [reflexivity | split; [reflexivity | lia]]
            | left; split; [reflexivity | left; reflexivity]
            | left; split; [reflexivity | right; reflexivity] ].
  - destruct (isFaceLookingAtCenter f (video t)); simpl;
      [left; split; [reflexivity | left; reflexivity]|].
    destruct away; simpl; split_gtb; simpl;
      left; (split; [reflexivity | left; reflexivity]).
Qed.

(** X6. Over any run of the detection loop whose clock never runs
    backwards, from any state of the object and whatever the two models
    return, the clock readings of two successive ticks that trigger
    FOCUS_LOST are more than 5000 ms apart. *)
Theorem focus_lost_events_spaced (ticks : list Tick) (this : DetectionSystem) :
  clockOrdered ticks ->
  gapsExceed FOCUS_LOST_THRESHOLD
    (reportClocks FOCUS_LOST ticks (snd (runLoop ticks this))).
Proof.
  apply (report_gaps_of_loop FOCUS_LOST FOCUS_LOST_THRESHOLD lastLookingAwayTime
                             focus_timer_step).
Qed.

Lemma focus_lost_events_spaced_witness :
  gapsExceed FOCUS_LOST_THRESHOLD
    (reportClocks FOCUS_LOST
       [faceTick 0 (mkVideo 1280 720) [mkFace (mkBox 0 0 100 100) 0.9%Q];
        faceTick 6000 (mkVideo 1280 720) [mkFace (mkBox 0 0 100 100) 0.9%Q];
        faceTick 12000 (mkVideo 1280 720) [mkFace (mkBox 0 0 100 100) 0.9%Q]]
       (snd (runLoop
               [faceTick 0 (mkVideo 1280 720) [mkFace (mkBox 0 0 100 100) 0.9%Q];
                faceTick 6000 (mkVideo 1280 720) [mkFace (mkBox 0 0 100 100) 0.9%Q];
                faceTick 12000 (mkVideo 1280 720) [mkFace (mkBox 0 0 100 100) 0.9%Q]]
               (initialized 0)))).
Proof.
  apply focus_lost_events_spaced. simpl. lia.
Defined.

(** X7. Over any run of the detection loop whose clock never runs
    backwards, from any state of the object and whatever the two models
    return, the clock readings of two successive ticks that trigger
    NO_FACE are more than 10000 ms apart. *)
Theorem no_face_events_spaced (ticks : list Tick) (this : DetectionSystem) :
  clockOrdered ticks ->
  gapsExceed NO_FACE_THRESHOLD
    (reportClocks NO_FACE ticks (snd (runLoop ticks this))).
Proof.
  apply (report_gaps_of_loop NO_FACE NO_FACE_THRESHOLD lastFaceDetectedTime
                             absence_timer_step).
Qed.

Lemma no_face_events_spaced_witness :
  gapsExceed NO_FACE_THRESHOLD
    (reportClocks NO_FACE
       [faceTick 0 (mkVideo 1280 720) [];
        faceTick 11000 (mkVideo 1280 720) [];
        faceTick 22000 (mkVideo 1280 720) []]
       (snd (runLoop
               [faceTick 0 (mkVideo 1280 720) [];
                faceTick 11000 (mkVideo 1280 720) [];
                faceTick 22000 (mkVideo 1280 720) []]
               (initialized 0)))).
Proof.
  apply no_face_events_spaced. simpl. lia.
Defined.

End SpacingOfReports.

(** ** Initialization and shutdown *)

Section Lifecycle.

Import Detection.

Lemma uninitialized_loop_silent (ticks : list Tick) (this : DetectionSystem) :
  isInitialized this = false ->
  runLoop ticks this = (this, map (fun _ => []) ticks).
Proof.
  intros Hi. induction ticks as [|t ticks IH]; [reflexivity|].
  simpl runLoop. unfold runDetection, bind, get. rewrite Hi. simpl.
  rewrite IH. reflexivity.
Qed.

(** X8. [initialize()] of src/lib/detection.ts returns true exactly when
    all three loads succeed, and then the object is ready.  When a load
    fails on an object that was not initialized, the object stays
    uninitialized, and the detection loop then triggers no event on any
    tick and leaves the object as it is. *)
Theorem failed_initialize_silences_loop (l : Loads) (this : DetectionSystem)
        (ticks : list Tick) :
  isInitialized this = false ->
  let ok := fst (fst (initialize l this)) in
  let this' := stateAfter (initialize l) this in
  eventsOf (initialize l) this = [] /\
  (ok = true <->
   forVisionTasks l = Returns tt /\ createFromOptions l = Returns tt /\
   cocoSsdLoad l = Returns tt) /\
  (ok = true -> ready this') /\
  (ok = false ->
   isInitialized this' = false /\
   runLoop ticks this' = (this', map (fun _ => []) ticks)).
Proof.
  intros Hi. cbv zeta.
  assert (Hcases :
    eventsOf (initialize l) this = [] /\
    (fst (fst (initialize l this)) = true <->
     forVisionTasks l = Returns tt /\ createFromOptions l = Returns tt /\
     cocoSsdLoad l = Returns tt) /\
    (fst (fst (initialize l this)) = true -> ready (stateAfter (initialize l) this)) /\
    (fst (fst (initialize l this)) = false ->
     isInitialized (stateAfter (initialize l) this) = false)).
  { destruct this as [fd od init lf la away nf]; simpl in Hi; subst init.
    destruct l as [[[]|] [[]|] [[]|]];
      unfold eventsOf, stateAfter, initialize, ready, bind; simpl;
      (split; [reflexivity|]);
      (split; [split; [intros H; try discriminate H; repeat split
                      | intros (H1 & H2 & H3);
                        first [reflexivity | discriminate]]|]);
      (split; [intros H; try discriminate H; repeat split
              | intros H; first [reflexivity | discriminate H]]). }
  destruct Hcases as (Hev & Hok & Hready & Hfail).
  split; [exact Hev|]. split; [exact Hok|]. split; [exact Hready|].
  intros Hfalse. specialize (Hfail Hfalse). split; [exact Hfail|].
  apply uninitialized_loop_silent. exact Hfail.
Qed.

Lemma failed_initialize_silences_loop_witness :
  runLoop [faceTick 0 (mkVideo 1280 720) []; faceTick 20000 (mkVideo 1280 720) []]
          (stateAfter (initialize (mkLoads (Returns tt) (Returns tt) Throws))
                      (constructed 0))
  = (mkSystem true false false 0 0 false false, [[]; []]).
Proof.
  exact (proj2 (proj2 (proj2 (proj2
           (failed_initialize_silences_loop
              (mkLoads (Returns tt) (Returns tt) Throws) (constructed 0)
              [faceTick 0 (mkVideo 1280 720) []; faceTick 20000 (mkVideo 1280 720) []]
              eq_refl))) eq_refl)).
Defined.

(** X9. After [destroy()] the detection loop triggers no event on any
    tick, whatever the models would return, and the timers and condition
    flags keep the values they had. *)
Theorem destroy_stops_detection (this : DetectionSystem) (ticks : list Tick) :
  let this' := stateAfter destroy this in
  this' = mkSystem false false false (lastFaceDetectedTime this)
                   (lastLookingAwayTime this) (isLookingAway this) (hasNoFace this) /\
  runLoop ticks this' = (this', map (fun _ => []) ticks).
Proof.
  cbv zeta. split; [reflexivity|].
  apply uninitialized_loop_silent. reflexivity.
Qed.

End Lifecycle.

(** ** Doubles *)

Section Doubles.

Lemma Qfloor_unique (y : Q) (n : Z) :
  (inject_Z n <= y)%Q -> (y < inject_Z (n + 1))%Q -> Qfloor y = n.
Proof.
  intros Hn Hn1.
  pose proof (Qfloor_resp_le _ _ Hn) as Hge. rewrite Qfloor_Z in Hge.
  pose proof (Qfloor_le y) as Hfl.
  assert (Hlt : (inject_Z (Qfloor y) < inject_Z (n + 1))%Q) by lra.
  rewrite <- Zlt_Qlt in Hlt. lia.
Qed.

Lemma inject_Z_pred (N : Z) : (inject_Z (N - 1) == inject_Z N - 1)%Q.
Proof.
  unfold Z.sub. rewrite inject_Z_plus, inject_Z_opp. reflexivity.
Qed.

Lemma roundHalfEven_bounds (q : Q) :
  (q - (1 # 2) <= inject_Z (roundHalfEven q) <= q + (1 # 2))%Q.
Proof.
  unfold roundHalfEven.
  pose proof (Qfloor_le q) as Hlo.
  pose proof (Qlt_floor q) as Hhi.
  rewrite inject_Z_plus in Hhi. change (inject_Z 1) with 1%Q in Hhi.
  destruct (q - inject_Z (Qfloor q) ?= 1 # 2)%Q eqn:Hc.
  - apply Qeq_alt in Hc.
    destruct (Z.even (Qfloor q)).
    + lra.
    + rewrite inject_Z_plus. change (inject_Z 1) with 1%Q. lra.
  - apply Qlt_alt in Hc. lra.
  - apply Qgt_alt in Hc.
    rewrite inject_Z_plus. change (inject_Z 1) with 1%Q. lra.
Qed.

Lemma roundHalfEven_tie (N : Z) (q : Q) :
  Z.even N = true -> (q == inject_Z N - (1 # 2))%Q -> roundHalfEven q = N.
Proof.
  intros Heven Hq. unfold roundHalfEven.
  assert (Hf : Qfloor q = N - 1).
  { apply Qfloor_unique.
    - rewrite inject_Z_pred. lra.
    - replace (N - 1 + 1) with N by lia. lra. }
  rewrite Hf.
  assert (Hc : (q - inject_Z (N - 1) ?= 1 # 2)%Q = Eq).
  { apply Qeq_alt. rewrite inject_Z_pred. lra. }
  rewrite Hc.
  replace (Z.even (N - 1)) with false; [lia|].
  rewrite Z.even_sub, Heven. reflexivity.
Qed.

Lemma roundHalfEven_below (N : Z) (q : Q) :
  (q < inject_Z N - (1 # 2))%Q -> roundHalfEven q < N.
Proof.
  intros Hq. destruct (roundHalfEven_bounds q) as [_ Hhi].
  rewrite Zlt_Qlt. lra.
Qed.

Lemma roundHalfEven_above (N : Z) (q : Q) :
  Z.even N = true -> (inject_Z N - (1 # 2) <= q)%Q -> N <= roundHalfEven q.
Proof.
  intros Heven Hq.
  destruct (Qlt_le_dec (inject_Z N - (1 # 2)) q) as [Hlt | Hle].
  - destruct (roundHalfEven_bounds q) as [Hlo _].
    assert (H : (inject_Z (N - 1) < inject_Z (roundHalfEven q))%Q).
    { rewrite inject_Z_pred. lra. }
    rewrite <- Zlt_Qlt in H. lia.
  - rewrite (roundHalfEven_tie N q Heven); [lia|]. lra.
Qed.

Lemma roundHalfEven_least (N : Z) (q : Q) :
  (inject_Z N <= q)%Q -> N <= roundHalfEven q.
Proof.
  intros Hq. destruct (roundHalfEven_bounds q) as [Hlo _].
  assert (H : (inject_Z (N - 1) < inject_Z (roundHalfEven q))%Q).
  { rewrite inject_Z_pred. lra. }
  rewrite <- Zlt_Qlt in H. lia.
Qed.

Lemma Qpower2_sub (a b : Z) :
  0 <= a -> 0 <= b ->
  (2 ^ (a - b) == (2 ^ a)%Z # Z.to_pos (2 ^ b))%Q.
Proof.
  intros Ha Hb.
  rewrite Qpower_minus by discriminate.
  change 2%Q with (inject_Z 2).
  rewrite <- !Zpower_Qpower by assumption.
  rewrite (Qmake_Qdiv (2 ^ a) (Z.to_pos (2 ^ b))).
  rewrite Z2Pos.id by (apply Z.pow_pos_nonneg; lia).
  reflexivity.
Qed.

Lemma ilog2_spec (x : Q) :
  (0 < x)%Q -> (2 ^ ilog2 x <= x)%Q /\ (x < 2 ^ (ilog2 x + 1))%Q.
Proof.
  intros Hx. unfold ilog2.
  destruct x as [n d]. cbn [Qnum Qden].
  assert (Hn : 0 < n) by (unfold Qlt in Hx; simpl in Hx; lia).
  pose proof (Z.log2_spec n Hn) as [Hna Hnb].
  pose proof (Z.log2_spec (Zpos d) ltac:(lia)) as [Hda Hdb].
  pose proof (Z.log2_nonneg n) as Ha.
  pose proof (Z.log2_nonneg (Zpos d)) as Hb.
  set (a := Z.log2 n) in *. set (b := Z.log2 (Zpos d)) in *.
  rewrite <- Z.add_1_r in Hnb, Hdb.
  assert (HA : 0 < 2 ^ a) by (apply Z.pow_pos_nonneg; lia).
  assert (HB : 0 < 2 ^ b) by (apply Z.pow_pos_nonneg; lia).
  assert (HA1 : 2 ^ (a + 1) = 2 * 2 ^ a) by (rewrite Z.pow_add_r by lia; lia).
  assert (HB1 : 2 ^ (b + 1) = 2 * 2 ^ b) by (rewrite Z.pow_add_r by lia; lia).
  destruct (Qle_bool (2 ^ (a - b)) (n # d)) eqn:Hle.
  - apply Qle_bool_iff in Hle. split; [exact Hle|].
    replace (a - b + 1) with (a + 1 - b) by lia.
    rewrite Qpower2_sub by lia.
    unfold Qlt. cbn [Qnum Qden].
    rewrite Z2Pos.id by assumption. nia.
  - assert (Hlt : (n # d < 2 ^ (a - b))%Q).
    { apply Qnot_le_lt. intros H. apply Qle_bool_iff in H. congruence. }
    replace (a - b - 1 + 1) with (a - b) by lia.
    split; [|exact Hlt].
    replace (a - b - 1) with (a - (b + 1)) by lia.
    rewrite Qpower2_sub by lia.
    unfold Qle. cbn [Qnum Qden].
    rewrite Z2Pos.id by (apply Z.pow_pos_nonneg; lia). nia.
Qed.

Lemma ilog2_unique (x : Q) (e : Z) :
  (2 ^ e <= x)%Q -> (x < 2 ^ (e + 1))%Q -> ilog2 x = e.
Proof.
  intros Hlo Hhi.
  assert (Hx : (0 < x)%Q).
  { apply Qlt_le_trans with (2 ^ e)%Q; [|exact Hlo].
    apply Qpower_0_lt. reflexivity. }
  destruct (ilog2_spec x Hx) as [Hlo' Hhi'].
  assert (H1 : (2 ^ e < 2 ^ (ilog2 x + 1))%Q) by (eapply Qle_lt_trans; eassumption).
  assert (H2 : (2 ^ ilog2 x < 2 ^ (e + 1))%Q) by (eapply Qle_lt_trans; eassumption).
  apply Qpower_lt_compat_l_inv in H1; [|reflexivity].
  apply Qpower_lt_compat_l_inv in H2; [|reflexivity].
  lia.
Qed.

Lemma Qlt_bool_true (a b : Q) : (a < b)%Q -> Qlt_bool a b = true.
Proof.
  intros H. unfold Qlt_bool. apply negb_true_iff.
  destruct (Qle_bool b a) eqn:Hle; [|reflexivity].
  apply Qle_bool_iff in Hle. lra.
Qed.

Lemma Qlt_bool_false (a b : Q) : (b <= a)%Q -> Qlt_bool a b = false.
Proof.
  intros H. unfold Qlt_bool. apply negb_false_iff. now apply Qle_bool_iff.
Qed.

Lemma toDouble_at (x : Q) (e : Z) :
  (2 ^ e <= x)%Q -> (x < 2 ^ (e + 1))%Q -> -1022 <= e ->
  toDouble x
  = (inject_Z (roundHalfEven (x / 2 ^ (e - 52))) * 2 ^ (e - 52))%Q.
Proof.
  intros Hlo Hhi He. unfold toDouble.
  assert (Hx : (0 < x)%Q).
  { apply Qlt_le_trans with (2 ^ e)%Q; [|exact Hlo].
    apply Qpower_0_lt. reflexivity. }
  destruct (Qle_bool x 0) eqn:Hle.
  { apply Qle_bool_iff in Hle. lra. }
  rewrite (ilog2_unique x e Hlo Hhi), Z.max_l by lia. reflexivity.
Qed.

(** [Math.floor] of the double nearest to a number between 0 and
    3 - 3 * 2^-53, the product of 3 and the largest double below 1: the
    double is 1 or more from 1 - 2^-54 on and 2 or more from 2 - 2^-53
    on, where the number lies midway between two doubles and the even one
    is the integer. *)
Lemma floor_of_tripled_draw (x : Q) :
  (0 <= x)%Q -> (x <= 3 - (3 # 9007199254740992))%Q ->
  Qfloor (toDouble x)
  = if Qlt_bool x (1 - (1 # 18014398509481984)) then 0
    else if Qlt_bool x (2 - (1 # 9007199254740992)) then 1
    else 2.
Proof.
  intros H0 Hmax.
  destruct (Qlt_le_dec x (1 # 2)) as [Hhalf | Hhalf].
  { rewrite Qlt_bool_true by lra.
    unfold toDouble.
    destruct (Qle_bool x 0) eqn:Hle; [reflexivity|].
    assert (Hx : (0 < x)%Q).
    { apply Qnot_le_lt. intros H. apply Qle_bool_iff in H. congruence. }
    destruct (ilog2_spec x Hx) as [Hlo _].
    assert (He : ilog2 x < -1).
    { apply (Qpower_lt_compat_l_inv 2); [|reflexivity].
      change (2 ^ (-1))%Q with (1 # 2)%Q. lra. }
    set (m := Z.max (ilog2 x) (-1022) - 52).
    assert (Hm : m <= -54) by lia.
    assert (Hpos : (0 < 2 ^ m)%Q) by (apply Qpower_0_lt; reflexivity).
    assert (Hsmall : (2 ^ m <= 1 # 18014398509481984)%Q).
    { change (1 # 18014398509481984)%Q with (2 ^ (-54))%Q.
      apply Qpower_le_compat_l; [exact Hm | discriminate]. }
    set (ulp := (2 ^ m)%Q) in *.
    destruct (roundHalfEven_bounds (x / ulp)) as [_ Hhi].
    assert (Hq : (0 <= x / ulp)%Q).
    { apply Qle_shift_div_l; [exact Hpos | lra]. }
    pose proof (roundHalfEven_least 0 (x / ulp) Hq) as Hnn.
    rewrite Zle_Qle in Hnn. change (inject_Z 0) with 0%Q in Hnn.
    assert (Hval : (inject_Z (roundHalfEven (x / ulp)) * ulp
                    <= (x / ulp + (1 # 2)) * ulp)%Q).
    { apply Qmult_le_compat_r; [exact Hhi | lra]. }
    assert (Hback : ((x / ulp + (1 # 2)) * ulp == x + (1 # 2) * ulp)%Q).
    { field. lra. }
    apply Qfloor_unique.
    - change (inject_Z 0) with 0%Q. apply Qmult_le_0_compat; lra.
    - change (inject_Z (0 + 1)) with 1%Q. lra. }
  destruct (Qlt_le_dec x 1) as [Hone | Hone].
  { rewrite (toDouble_at x (-1)); [|exact Hhalf | exact Hone | lia].
    change (2 ^ (-1 - 52))%Q with (1 # 9007199254740992)%Q.
    set (q := (x / (1 # 9007199254740992))%Q).
    assert (Hq : (q == x * 9007199254740992)%Q) by (unfold q; field).
    destruct (roundHalfEven_bounds q) as [_ Hhi].
    destruct (Qlt_le_dec x (1 - (1 # 18014398509481984))) as [Hlt | Hge].
    - rewrite Qlt_bool_true by exact Hlt.
      assert (Hbelow : roundHalfEven q < 9007199254740992).
      { apply roundHalfEven_below.
        change (inject_Z 9007199254740992) with (9007199254740992 # 1)%Q. lra. }
      assert (Hleast : 0 <= roundHalfEven q).
      { apply roundHalfEven_least. change (inject_Z 0) with 0%Q. lra. }
      assert (Hb : roundHalfEven q <= 9007199254740991) by lia.
      rewrite Zle_Qle in Hleast, Hb.
      change (inject_Z 0) with 0%Q in Hleast.
      change (inject_Z 9007199254740991) with (9007199254740991 # 1)%Q in Hb.
      apply Qfloor_unique.
      + change (inject_Z 0) with 0%Q. lra.
      + change (inject_Z (0 + 1)) with 1%Q. lra.
    - rewrite Qlt_bool_false by exact Hge.
      rewrite Qlt_bool_true by lra.
      assert (Habove : 9007199254740992 <= roundHalfEven q).
      { apply roundHalfEven_above; [reflexivity|].
        change (inject_Z 9007199254740992) with (9007199254740992 # 1)%Q. lra. }
      rewrite Zle_Qle in Habove.
      change (inject_Z 9007199254740992) with (9007199254740992 # 1)%Q in Habove.
      apply Qfloor_unique.
      + change (inject_Z 1) with 1%Q. lra.
      + change (inject_Z (1 + 1)) with 2%Q. lra. }
  rewrite Qlt_bool_false by lra.
  destruct (Qlt_le_dec x 2) as [Htwo | Htwo].
  { rewrite (toDouble_at x 0); [|exact Hone | exact Htwo | lia].
    change (2 ^ (0 - 52))%Q with (1 # 4503599627370496)%Q.
    set (q := (x / (1 # 4503599627370496))%Q).
    assert (Hq : (q == x * 4503599627370496)%Q) by (unfold q; field).
    destruct (roundHalfEven_bounds q) as [_ Hhi].
    assert (Hleast : 4503599627370496 <= roundHalfEven q).
    { apply roundHalfEven_least.
      change (inject_Z 4503599627370496) with (4503599627370496 # 1)%Q. lra. }
    rewrite Zle_Qle in Hleast.
    change (inject_Z 4503599627370496) with (4503599627370496 # 1)%Q in Hleast.
    destruct (Qlt_le_dec x (2 - (1 # 9007199254740992))) as [Hlt | Hge].
    - rewrite Qlt_bool_true by exact Hlt.
      assert (Hbelow : roundHalfEven q < 9007199254740992).
      { apply roundHalfEven_below.
        change (inject_Z 9007199254740992) with (9007199254740992 # 1)%Q. lra. }
      assert (Hb : roundHalfEven q <= 9007199254740991) by lia.
      rewrite Zle_Qle in Hb.
      change (inject_Z 9007199254740991) with (9007199254740991 # 1)%Q in Hb.
      apply Qfloor_unique.
      + change (inject_Z 1) with 1%Q. lra.
      + change (inject_Z (1 + 1)) with 2%Q. lra.
    - rewrite Qlt_bool_false by exact Hge.
      assert (Habove : 9007199254740992 <= roundHalfEven q).
      { apply roundHalfEven_above; [reflexivity|].
        change (inject_Z 9007199254740992) with (9007199254740992 # 1)%Q. lra. }
      rewrite Zle_Qle in Habove.
      change (inject_Z 9007199254740992) with (9007199254740992 # 1)%Q in Habove.
      apply Qfloor_unique.
      + change (inject_Z 2) with 2%Q. lra.
      + change (inject_Z (2 + 1)) with 3%Q. lra. }
  rewrite Qlt_bool_false by lra.
  rewrite (toDouble_at x 1); [|exact Htwo | change (2 ^ (1 + 1))%Q with 4%Q; lra | lia].
  change (2 ^ (1 - 52))%Q with (1 # 2251799813685248)%Q.
  set (q := (x / (1 # 2251799813685248))%Q).
  assert (Hq : (q == x * 2251799813685248)%Q) by (unfold q; field).
  destruct (roundHalfEven_bounds q) as [_ Hhi].
  assert (Hleast : 4503599627370496 <= roundHalfEven q).
  { apply roundHalfEven_least.
    change (inject_Z 4503599627370496) with (4503599627370496 # 1)%Q. lra. }
  rewrite Zle_Qle in Hleast.
  change (inject_Z 4503599627370496) with (4503599627370496 # 1)%Q in Hleast.
  apply Qfloor_unique.
  - change (inject_Z 2) with 2%Q. lra.
  - change (inject_Z (2 + 1)) with 3%Q. lra.
Qed.

End Doubles.

(** ** The variant with fallbacks (src/unnamed/part_000) *)

Section Fallbacks.

Import DetectionFallback.

(** X10. [initialize()] of the variant always returns true and leaves the
    object initialized, whatever fails to load; the detector flags record
    what loaded.  When the face model did not load, every later call of
    [detectFaces] runs the simulation, whatever the tick holds, and so can
    never trigger MULTIPLE_FACES. *)
Theorem fallback_initialize_always_ready (l : Detection.Loads) (this : DetectionSystem) :
  let faceOk := match Detection.forVisionTasks l, Detection.createFromOptions l with
                | Returns _, Returns _ => true
                | _, _ => false
                end in
  let objectOk := match Detection.cocoSsdLoad l with
                  | Returns _ => true
                  | Throws => false
                  end in
  let this' := mkSystem faceOk objectOk true (lastFaceDetectedTime this)
                        (lastLookingAwayTime this) (isLookingAway this)
                        (hasNoFace this) in
  initialize l this = (true, this', []) /\
  (faceOk = false ->
   forall rnd video r now,
     detectFaces rnd video r now this' = basicFaceDetection rnd now this' /\
     timesOf MULTIPLE_FACES (eventsOf (detectFaces rnd video r now) this') = []).
Proof.
  cbv zeta. split.
  - destruct l as [[[]|] [[]|] [[]|]]; reflexivity.
  - intros Hface rnd video r now. rewrite Hface.
    set (st := mkSystem false _ true _ _ _ _).
    assert (Heq : detectFaces rnd video r now st = basicFaceDetection rnd now st).
    { unfold detectFaces, bind, get. simpl.
      destruct (basicFaceDetection rnd now st) as [[[] s] o]. reflexivity. }
    split; [exact Heq|].
    unfold eventsOf. rewrite Heq.
    unfold st, basicFaceDetection, bind, get,
      NO_FACE_THRESHOLD, FOCUS_LOST_THRESHOLD; simpl.
    destruct (Qlt_bool (toDouble 0.1) (faceDraw rnd)); simpl.
    + destruct (Qlt_bool (toDouble 0.8) (awayDraw rnd)); simpl; [|reflexivity].
      destruct (isLookingAway this); simpl; split_gtb; reflexivity.
    + destruct (hasNoFace this); simpl; split_gtb; reflexivity.
Qed.

Lemma fallback_initialize_always_ready_witness :
  detectFaces (mkDraws 0.5 0.9 0 0) (mkVideo 1280 720)
              (Returns [mkFace (mkBox 0 0 10 10) 0.9%Q; mkFace (mkBox 50 0 10 10) 0.9%Q])
              8000 (mkSystem false true true 0 0 true false)
  = basicFaceDetection (mkDraws 0.5 0.9 0 0) 8000 (mkSystem false true true 0 0 true false).
Proof.
  exact (proj1 (proj2 (fallback_initialize_always_ready
                         (Detection.mkLoads Throws (Returns tt) (Returns tt))
                         (mkSystem true false false 0 0 true false))
                      eq_refl (mkDraws 0.5 0.9 0 0) (mkVideo 1280 720)
                      (Returns [mkFace (mkBox 0 0 10 10) 0.9%Q;
                                mkFace (mkBox 50 0 10 10) 0.9%Q]) 8000)).
Defined.

(** X11. For a draw in [0,1), which as a double is at most 1 - 2^-53, the
    index [Math.floor(draw * 3)] is 0, 1 or 2, so [basicObjectDetection]
    triggers exactly one event with confidence 0.6 when the first draw
    exceeds 0.95 and none otherwise, and writes no field.  The kind is
    PHONE_DETECTED when three times the second draw is below 1 - 2^-54,
    BOOK_DETECTED when it is below 2 - 2^-53 and NOTES_DETECTED from there
    on: the thirds of [0,1), moved down by the rounding of the product to
    a double. *)
Theorem basic_object_detection_by_draw (rnd : Draws) (now : Z) (this : DetectionSystem) :
  (0 <= typeDraw rnd)%Q -> (typeDraw rnd <= 1 - (1 # 9007199254740992))%Q ->
  basicObjectDetection rnd now this
  = (tt, this,
     if Qlt_bool (toDouble 0.95) (objectDraw rnd) then
       [mkEvent (if Qlt_bool (typeDraw rnd * 3) (1 - (1 # 18014398509481984))
                 then PHONE_DETECTED
                 else if Qlt_bool (typeDraw rnd * 3) (2 - (1 # 9007199254740992))
                 then BOOK_DETECTED
                 else NOTES_DETECTED) now 0.6%Q]
     else []).
Proof.
  intros H0 H1. unfold basicObjectDetection.
  destruct (Qlt_bool (toDouble 0.95) (objectDraw rnd)); [|reflexivity].
  rewrite floor_of_tripled_draw by lra.
  destruct (Qlt_bool (typeDraw rnd * 3) (1 - (1 # 18014398509481984)));
    [reflexivity|].
  destruct (Qlt_bool (typeDraw rnd * 3) (2 - (1 # 9007199254740992)));
    reflexivity.
Qed.

Lemma basic_object_detection_by_draw_witness :
  basicObjectDetection
    (mkDraws 0 0 0.97 (6004799503160661 # 9007199254740992)) 4000
    (Detection.initialized 0)
  = (tt, Detection.initialized 0, [mkEvent NOTES_DETECTED 4000 0.6%Q]).
Proof.
  refine (basic_object_detection_by_draw
            (mkDraws 0 0 0.97 (6004799503160661 # 9007199254740992)) 4000
            (Detection.initialized 0) _ _).
  - discriminate.
  - discriminate.
Defined.

End Fallbacks.

(** ** The position of the face *)

Section Geometry.

(** X12. A face box in whole pixels that lies inside a frame of positive
    width (in whole pixels, below 2^31) and is wider than 40% of it is
    always judged to look at the center: its center cannot be 30% of the
    width away from the center of the frame. *)
Theorem wide_face_is_centered (face : Face) (video : Video) :
  wholePixels face video ->
  (0 < videoWidth video)%Q ->
  (0 <= originX (boundingBox face))%Q ->
  (originX (boundingBox face) + width (boundingBox face) <= videoWidth video)%Q ->
  (0.4 * videoWidth video < width (boundingBox face))%Q ->
  isFaceLookingAtCenter face video = true.
Proof.
  intros _ Hw Hx Hin Hwide. unfold isFaceLookingAtCenter.
  destruct (Qeq_bool (videoWidth video) 0) eqn:Hz.
  { apply Qeq_bool_eq in Hz. lra. }
  unfold Qlt_bool. apply negb_true_iff.
  destruct (Qle_bool FACE_CENTER_THRESHOLD (deviationRatio face video)) eqn:Hle;
    [|reflexivity].
  apply Qle_bool_iff in Hle. exfalso.
  assert (Hlt : (deviationRatio face video < FACE_CENTER_THRESHOLD)%Q).
  { unfold deviationRatio, FACE_CENTER_THRESHOLD.
    apply Qlt_shift_div_r; [exact Hw|].
    apply Qabs_Qlt_condition.
    unfold faceCenterX, videoCenterX, Qdiv. change (/ 2)%Q with (1 # 2)%Q.
    split; lra. }
  lra.
Qed.

Lemma wide_face_is_centered_witness :
  isFaceLookingAtCenter (mkFace (mkBox 700 100 580 500) 0.9%Q) (mkVideo 1280 720) = true.
Proof.
  refine (wide_face_is_centered (mkFace (mkBox 700 100 580 500) 0.9%Q)
                                (mkVideo 1280 720) _ _ _ _ _).
  - exists 700, 580, 1280. repeat split.
  - reflexivity.
  - discriminate.
  - discriminate.
  - reflexivity.
Defined.

End Geometry.

(** ** The session state of the room page *)

Section Session.

Import RoomPage.

Lemma deliver_app (a b : list DetectionEvent) (room : RoomState) :
  deliver (a ++ b) room = deliver b (deliver a room).
Proof. unfold deliver. apply fold_left_app. Qed.

Lemma deliver_events (evs : list DetectionEvent) :
  forall room, events (deliver evs room) = (events room ++ evs)%list.
Proof.
  induction evs as [|e evs IH]; intros room.
  - simpl. now rewrite app_nil_r.
  - change (deliver (e :: evs) room) with (deliver evs (onDetectionEvent e room)).
    rewrite IH. simpl events. now rewrite <- app_assoc.
Qed.

Lemma totalDeduction_nonneg (evs : list DetectionEvent) : 0 <= totalDeduction evs.
Proof.
  induction evs as [|e evs IH]; simpl; [lia|].
  pose proof (deduction_nonneg (type e)). lia.
Qed.

Lemma deliver_score (evs : list DetectionEvent) :
  forall room,
    0 <= integrityScore room ->
    integrityScore (deliver evs room)
    = Z.max 0 (integrityScore room - totalDeduction evs).
Proof.
  induction evs as [|e evs IH]; intros room Hpos.
  - simpl. lia.
  - change (deliver (e :: evs) room) with (deliver evs (onDetectionEvent e room)).
    pose proof (onDetectionEvent_score_le e room Hpos) as [Hlo _].
    rewrite (IH _ Hlo).
    change (totalDeduction (e :: evs))
      with (deduction (type e) + totalDeduction evs).
    change (integrityScore (onDetectionEvent e room))
      with (Z.max 0 (integrityScore room - deduction (type e))).
    pose proof (deduction_nonneg (type e)).
    pose proof (totalDeduction_nonneg evs). lia.
Qed.

Lemma totalDeduction_permutation (a b : list DetectionEvent) :
  Permutation.Permutation a b -> totalDeduction a = totalDeduction b.
Proof.
  induction 1; simpl; lia.
Qed.

Lemma totalDeduction_by_kind (evs : list DetectionEvent) :
  totalDeduction evs
  = 5 * Z.of_nat (countKind FOCUS_LOST evs)
    + 10 * Z.of_nat (countKind NO_FACE evs)
    + 15 * Z.of_nat (countKind MULTIPLE_FACES evs)
    + 20 * Z.of_nat (countKind PHONE_DETECTED evs)
    + 15 * Z.of_nat (countKind NOTES_DETECTED evs)
    + 15 * Z.of_nat (countKind BOOK_DETECTED evs).
Proof.
  induction evs as [|e evs IH]; [reflexivity|].
  change (totalDeduction (e :: evs))
    with (deduction (type e) + totalDeduction evs).
  rewrite IH. unfold countKind. simpl filter.
  destruct (type e); simpl eventTypeEqb; cbv iota; simpl deduction;
    simpl List.length; lia.
Qed.

(** X13. After any list of events the score of a session that started at
    100 is max(0, 100 - sum of the deductions), the log holds exactly
    these events in order of arrival, and the score does not depend on the
    order in which the events arrived. *)
Theorem final_score_closed_form (evs evs' : list DetectionEvent) :
  integrityScore (deliver evs initialRoom) = Z.max 0 (100 - totalDeduction evs) /\
  events (deliver evs initialRoom) = evs /\
  (Permutation.Permutation evs evs' ->
   integrityScore (deliver evs' initialRoom)
   = integrityScore (deliver evs initialRoom)).
Proof.
  split; [|split].
  - apply (deliver_score evs initialRoom). simpl. lia.
  - apply (deliver_events evs initialRoom).
  - intros Hperm.
    rewrite !deliver_score by (simpl; lia).
    now rewrite (totalDeduction_permutation evs evs' Hperm).
Qed.

Lemma final_score_closed_form_witness :
  integrityScore (deliver [mkEvent PHONE_DETECTED 1 0.9%Q; mkEvent FOCUS_LOST 2 0.8%Q]
                          initialRoom)
  = integrityScore (deliver [mkEvent FOCUS_LOST 2 0.8%Q; mkEvent PHONE_DETECTED 1 0.9%Q]
                            initialRoom).
Proof.
  refine (proj2 (proj2 (final_score_closed_form
            [mkEvent FOCUS_LOST 2 0.8%Q; mkEvent PHONE_DETECTED 1 0.9%Q]
            [mkEvent PHONE_DETECTED 1 0.9%Q; mkEvent FOCUS_LOST 2 0.8%Q])) _).
  apply Permutation.perm_swap.
Defined.

(** X14. The "Recent Events" panel shows the newest events first and at
    most five of them: it is the first five of the log read backwards,
    and a new event enters at the top and pushes the fifth one out. *)
Theorem recent_events_newest_first (e : DetectionEvent) (room : RoomState) :
  recentEvents room = firstn 5 (rev (events room)) /\
  (List.length (recentEvents room) <= 5)%nat /\
  recentEvents (onDetectionEvent e room) = e :: firstn 4 (recentEvents room).
Proof.
  assert (Hshape : forall r, recentEvents r = firstn 5 (rev (events r))).
  { intros r. unfold recentEvents, sliceLast. symmetry. apply firstn_rev. }
  split; [apply Hshape|]. split.
  - rewrite Hshape. apply firstn_le_length.
  - rewrite !Hshape. simpl events. rewrite rev_app_distr. simpl rev. simpl app.
    rewrite firstn_firstn. reflexivity.
Qed.

End Session.

(** ** What [saveData] stores *)

Section Saving.

Import InterviewActions.
Open Scope string_scope.

Lemma saveData_inv (data : InterviewData) (row : Interview.t) (log : list EventData) :
  saveData data = Saved row log ->
  roomId data <> "" /\ candidateName data <> "" /\
  row = Interview.mk
          (candidateName data) (endTime data)
          (match endTime data with
           | Some e => Some (roundMinutes (e - startTime data))
           | None => None
           end)
          (Z.max 0 (Z.min 100 (integrityScore data)))
          (List.length (events data))
          (countOf "FOCUS_LOST" (events data))
          (countOf "PHONE_DETECTED" (events data))
          (countOf "MULTIPLE_FACES" (events data))
          (countOf "NO_FACE" (events data))
          (countOf "NOTES_DETECTED" (events data))
          (countOf "BOOK_DETECTED" (events data))
          (match endTime data with Some _ => "completed" | None => "active" end) /\
  log = map (fun event => mkEventData (type event) (timestamp event)
                                      (Qmax 0 (Qmin 1 (confidence event))))
            (events data).
Proof.
  unfold saveData, falsy. intros H.
  destruct (String.eqb_spec (roomId data) ""); [discriminate|].
  destruct (String.eqb_spec (candidateName data) ""); [discriminate|].
  simpl in H. injection H as <- <-. repeat split; assumption.
Qed.

Lemma saveData_accepts (data : InterviewData) :
  roomId data <> "" -> candidateName data <> "" ->
  exists row log, saveData data = Saved row log.
Proof.
  intros Hr Hc. unfold saveData, falsy.
  destruct (String.eqb_spec (roomId data) ""); [contradiction|].
  destruct (String.eqb_spec (candidateName data) ""); [contradiction|].
  simpl. eauto.
Qed.

(** What the database answered when [saveData] reports success. *)
Lemma saveDataWith_saved (db : DbCalls) (data : InterviewData) (row : Interview.t)
      (log : list EventData) :
  saveDataWith db data = Saved row log ->
  update db = Resolves /\ deleteMany db = Resolves /\
  (events data = [] \/ createMany db = Resolves) /\
  saveData data = Saved row log.
Proof.
  unfold saveDataWith. intros H.
  destruct (falsy (roomId data) || falsy (candidateName data)) eqn:Hnames;
    [discriminate|].
  destruct (update db); [|discriminate].
  destruct (deleteMany db); [|discriminate].
  destruct (events data) as [|e evs] eqn:Hevs.
  - repeat split; [now left | exact H].
  - destruct (createMany db); [|discriminate].
    repeat split; [now right | exact H].
Qed.

Lemma saveDataWith_resolving (db : DbCalls) (data : InterviewData) :
  update db = Resolves -> deleteMany db = Resolves ->
  events data = [] \/ createMany db = Resolves ->
  saveDataWith db data = saveData data.
Proof.
  unfold saveDataWith, saveData. intros -> -> Hcreate.
  destruct (falsy (roomId data) || falsy (candidateName data)); [reflexivity|].
  destruct (events data) as [|e evs]; [reflexivity|].
  destruct Hcreate as [Hnil | ->]; [discriminate | reflexivity].
Qed.

(** X15. [saveData] checks the names before it calls the database: with
    an empty room id or candidate name it fails with the message
    "Required interview data is missing", whatever the database would
    answer.  It reports success exactly when both names are non-empty, the
    update and the deletion of the old event rows resolve, and the
    insertion of the event rows resolves or there is no event to insert,
    whatever the score, the times and the events are; and when the names
    are non-empty and the update is rejected, the failure carries the
    message of that error. *)
Theorem saveData_refuses_empty_names (db : DbCalls) (data : InterviewData) :
  (roomId data = "" \/ candidateName data = "" ->
   saveDataWith db data = Failed "Required interview data is missing") /\
  ((exists row log, saveDataWith db data = Saved row log) <->
   roomId data <> "" /\ candidateName data <> "" /\
   update db = Resolves /\ deleteMany db = Resolves /\
   (events data = [] \/ createMany db = Resolves)) /\
  (forall message,
     roomId data <> "" -> candidateName data <> "" ->
     update db = Rejects message ->
     saveDataWith db data = Failed message).
Proof.
  split; [|split].
  - unfold saveDataWith, falsy. intros [H|H]; rewrite H.
    + reflexivity.
    + rewrite orb_true_r. reflexivity.
  - split.
    + intros (row & log & H).
      apply saveDataWith_saved in H. destruct H as (Hu & Hd & Hc & H).
      apply saveData_inv in H. tauto.
    + intros (Hr & Hc & Hu & Hd & Hcreate).
      rewrite (saveDataWith_resolving db data Hu Hd Hcreate).
      now apply saveData_accepts.
  - intros message Hr Hc Hu. unfold saveDataWith, falsy.
    destruct (String.eqb_spec (roomId data) ""); [contradiction|].
    destruct (String.eqb_spec (candidateName data) ""); [contradiction|].
    simpl. now rewrite Hu.
Qed.

Lemma saveData_refuses_empty_names_witness :
  saveDataWith (mkDbCalls (Rejects "Record to update not found.") Resolves Resolves)
               (mkInterviewData "room-1" "Ada" 0 (Some 60000) 80 [])
  = Failed "Record to update not found.".
Proof.
  refine (proj2 (proj2 (saveData_refuses_empty_names
            (mkDbCalls (Rejects "Record to update not found.") Resolves Resolves)
            (mkInterviewData "room-1" "Ada" 0 (Some 60000) 80 [])))
            "Record to update not found." _ _ eq_refl).
  - discriminate.
  - discriminate.
Defined.

Lemma Qclamp_range (c : Q) : (0 <= Qmax 0 (Qmin 1 c) <= 1)%Q.
Proof.
  split.
  - apply Q.le_max_l.
  - apply Q.max_lub; [discriminate | apply Q.le_min_l].
Qed.

Lemma Qclamp_id (c : Q) : (0 <= c <= 1)%Q -> (Qmax 0 (Qmin 1 c) == c)%Q.
Proof.
  intros [H0 H1].
  rewrite (Q.min_r 1 c H1). apply Q.max_r. exact H0.
Qed.

(** X16. What a successful [saveData] stores: the score forced into
    [0,100] and unchanged when it already is there; one event row for
    each event, in the same order, with the same type and timestamp, and
    the confidence forced into [0,1] and equal to the given one when that
    is in [0,1]. *)
Theorem saveData_stores_clamped (data : InterviewData) (row : Interview.t)
        (log : list EventData) :
  saveData data = Saved row log ->
  0 <= Interview.integrityScore row <= 100 /\
  (0 <= integrityScore data <= 100 ->
   Interview.integrityScore row = integrityScore data) /\
  map type log = map type (events data) /\
  map timestamp log = map timestamp (events data) /\
  Forall2 (fun stored given =>
             (0 <= confidence stored <= 1)%Q /\
             ((0 <= confidence given <= 1)%Q ->
              (confidence stored == confidence given)%Q))
          log (events data).
Proof.
  intros H. apply saveData_inv in H. destruct H as (_ & _ & -> & ->).
  simpl Interview.integrityScore.
  split; [lia|]. split; [lia|].
  rewrite !map_map. simpl.
  split; [reflexivity|]. split; [reflexivity|].
  induction (events data) as [|e evs IH]; constructor; [|exact IH].
  simpl. split; [apply Qclamp_range | apply Qclamp_id].
Qed.

Lemma saveData_stores_clamped_witness :
  exists row log,
    saveData (mkInterviewData "room-1" "Ada" 0 None 250
                              [mkEventData "NO_FACE" 5 (3 # 2)])
    = Saved row log /\
    0 <= Interview.integrityScore row <= 100.
Proof.
  eexists. eexists. split; [reflexivity|].
  exact (proj1 (saveData_stores_clamped
                  (mkInterviewData "room-1" "Ada" 0 None 250
                                   [mkEventData "NO_FACE" 5 (3 # 2)])
                  _ _ eq_refl)).
Defined.

(** X17. The stored duration is the number of minutes nearest to the
    time between start and end, half minutes counted upwards, and the
    status is "completed"; without an end time no duration is stored and
    the status is "active". *)
Theorem saveData_duration_nearest_minute (data : InterviewData) (row : Interview.t)
        (log : list EventData) :
  saveData data = Saved row log ->
  match endTime data with
  | Some e =>
      exists minutes,
        Interview.duration row = Some minutes /\
        60000 * minutes - 30000 <= e - startTime data < 60000 * minutes + 30000 /\
        Interview.status row = "completed"
  | None =>
      Interview.duration row = None /\ Interview.status row = "active"
  end.
Proof.
  intros H. apply saveData_inv in H. destruct H as (_ & _ & -> & _).
  destruct (endTime data) as [e|]; cbn [Interview.duration Interview.status];
    [|split; reflexivity].
  exists (roundMinutes (e - startTime data)). split; [reflexivity|].
  split; [|reflexivity].
  unfold roundMinutes.
  pose proof (Z.div_mod (2 * (e - startTime data) + 60000) 120000 ltac:(lia)) as Hdm.
  pose proof (Z.mod_pos_bound (2 * (e - startTime data) + 60000) 120000 ltac:(lia)).
  lia.
Qed.

Lemma saveData_duration_nearest_minute_witness :
  match saveData (mkInterviewData "room-1" "Ada" 0 (Some 150000) 100 []) with
  | Saved row _ =>
      exists minutes,
        Interview.duration row = Some minutes /\
        60000 * minutes - 30000 <= 150000 - 0 < 60000 * minutes + 30000 /\
        Interview.status row = "completed"
  | Failed _ => False
  end.
Proof.
  exact (saveData_duration_nearest_minute
           (mkInterviewData "room-1" "Ada" 0 (Some 150000) 100 []) _ _ eq_refl).
Defined.

Lemma countOf_of_room_events (k : DetectionEventType) (evs : list DetectionEvent) :
  countOf (typeName k) (map ofDetectionEvent evs) = countKind k evs.
Proof.
  unfold countOf, countKind.
  induction evs as [|[k' t c] evs IH]; [reflexivity|].
  simpl map. simpl filter.
  replace (typeName k' =? typeName k) with (eventTypeEqb k' k)
    by (destruct k', k; reflexivity).
  destruct (eventTypeEqb k' k); simpl; now rewrite IH.
Qed.

(** X18. When ending an interview stores its row, the stored score is
    determined by the six stored counts: max(0, 100 - 5 focusLost
    - 10 noFace - 15 multipleFaces - 20 phoneDetected - 15 notesDetected
    - 15 bookDetected); the stored totalEvents is the number of events
    the session received.  An interview that was never started stores
    nothing, whatever the database would answer. *)
Theorem ended_interview_score_matches_counts (db : DbCalls) (room candidate : string)
        (started ended : Z) (evs : list DetectionEvent) :
  RoomPageEnd.endInterview db room candidate None ended
    (RoomPage.deliver evs RoomPage.initialRoom) = None /\
  forall row log,
    RoomPageEnd.endInterview db room candidate (Some started) ended
      (RoomPage.deliver evs RoomPage.initialRoom) = Some (Saved row log) ->
    Interview.totalEvents row = List.length evs /\
    Interview.integrityScore row
    = Z.max 0 (100 - 5 * Z.of_nat (Interview.focusLostCount row)
                   - 10 * Z.of_nat (Interview.noFaceCount row)
                   - 15 * Z.of_nat (Interview.multipleFacesCount row)
                   - 20 * Z.of_nat (Interview.phoneDetectedCount row)
                   - 15 * Z.of_nat (Interview.notesDetectedCount row)
                   - 15 * Z.of_nat (Interview.bookDetectedCount row)).
Proof.
  split; [reflexivity|].
  intros row log Hsave.
  unfold RoomPageEnd.endInterview in Hsave.
  injection Hsave as Hsave.
  apply saveDataWith_saved in Hsave. destruct Hsave as (_ & _ & _ & Hsave).
  apply saveData_inv in Hsave. destruct Hsave as (_ & _ & -> & _).
  cbn [Interview.totalEvents Interview.integrityScore Interview.focusLostCount
       Interview.noFaceCount Interview.multipleFacesCount
       Interview.phoneDetectedCount Interview.notesDetectedCount
       Interview.bookDetectedCount integrityScore events].
  rewrite (deliver_events evs RoomPage.initialRoom).
  change (RoomPage.events RoomPage.initialRoom ++ evs)%list with evs.
  rewrite length_map. split; [reflexivity|].
  rewrite (deliver_score evs RoomPage.initialRoom) by (simpl; lia).
  change (countOf "FOCUS_LOST") with (countOf (typeName FOCUS_LOST)).
  change (countOf "NO_FACE") with (countOf (typeName NO_FACE)).
  change (countOf "MULTIPLE_FACES") with (countOf (typeName MULTIPLE_FACES)).
  change (countOf "PHONE_DETECTED") with (countOf (typeName PHONE_DETECTED)).
  change (countOf "NOTES_DETECTED") with (countOf (typeName NOTES_DETECTED)).
  change (countOf "BOOK_DETECTED") with (countOf (typeName BOOK_DETECTED)).
  rewrite !countOf_of_room_events.
  rewrite totalDeduction_by_kind.
  change (RoomPage.integrityScore RoomPage.initialRoom) with 100.
  pose proof (totalDeduction_nonneg evs) as Hnn.
  rewrite totalDeduction_by_kind in Hnn. lia.
Qed.

Lemma ended_interview_score_matches_counts_witness :
  match RoomPageEnd.endInterview (mkDbCalls Resolves Resolves Resolves)
          "room-1" "Ada" (Some 0) 90000
          (RoomPage.deliver [mkEvent PHONE_DETECTED 10 0.87%Q; mkEvent NO_FACE 20 0.9%Q]
                            RoomPage.initialRoom) with
  | Some (Saved row _) =>
      Interview.totalEvents row = 2%nat /\ Interview.integrityScore row = 70
  | _ => False
  end.
Proof.
  exact (proj2 (ended_interview_score_matches_counts
                  (mkDbCalls Resolves Resolves Resolves) "room-1" "Ada" 0 90000
                  [mkEvent PHONE_DETECTED 10 0.87%Q; mkEvent NO_FACE 20 0.9%Q])
               _ _ eq_refl).
Defined.

End Saving.

(** ** The dashboard and the report *)

Section Reporting.

Import InterviewActions.
Open Scope string_scope.

(** X19. An interview that ends less than half a minute after its start
    is stored as completed with duration 0, and because 0 counts as
    absent the dashboard shows "Ongoing" in its duration cell and
    [getAllInterviews] formats it as "N/A"; any other stored duration is
    shown as its number of minutes. *)
Theorem short_interview_shown_ongoing (data : InterviewData) (row : Interview.t)
        (log : list EventData) (e : Z) :
  saveData data = Saved row log ->
  endTime data = Some e ->
  -30000 <= e - startTime data < 30000 ->
  Interview.duration row = Some 0 /\
  Interview.status row = "completed" /\
  Dashboard.durationCell (Interview.duration row) = "Ongoing" /\
  Dashboard.durationFormatted (Interview.duration row) = "N/A" /\
  (forall minutes, minutes <> 0 ->
     Dashboard.durationCell (Some minutes) = toString minutes ++ " mins" /\
     Dashboard.durationFormatted (Some minutes) = toString minutes ++ " min").
Proof.
  intros H He Hshort. apply saveData_inv in H. destruct H as (_ & _ & -> & _).
  rewrite He. cbn [Interview.duration Interview.status].
  assert (Hzero : roundMinutes (e - startTime data) = 0).
  { unfold roundMinutes. apply Z.div_small. lia. }
  rewrite Hzero.
  repeat split.
  - unfold Dashboard.durationCell, Dashboard.truthyNumber.
    destruct (Z.eqb_spec minutes 0); [contradiction | reflexivity].
  - unfold Dashboard.durationFormatted, Dashboard.truthyNumber.
    destruct (Z.eqb_spec minutes 0); [contradiction | reflexivity].
Qed.

Lemma short_interview_shown_ongoing_witness :
  match saveData (mkInterviewData "room-1" "Ada" 1000 (Some 21000) 100 []) with
  | Saved row _ =>
      Interview.status row = "completed" /\
      Dashboard.durationCell (Interview.duration row) = "Ongoing"
  | Failed _ => False
  end.
Proof.
  pose (H := short_interview_shown_ongoing
               (mkInterviewData "room-1" "Ada" 1000 (Some 21000) 100 []) _ _ 21000
               eq_refl eq_refl ltac:(simpl; lia)).
  exact (conj (proj1 (proj2 H)) (proj1 (proj2 (proj2 H)))).
Defined.

(** X20. The violation table of the report has no row for books: for a
    stored interview whose events all have one of the six kinds, the
    counts of its five rows add up to totalEvents less bookDetectedCount,
    so BOOK_DETECTED events lower the score without appearing in the
    table. *)
Theorem report_table_omits_books (data : InterviewData) (row : Interview.t)
        (log : list EventData) :
  saveData data = Saved row log ->
  Forall (fun e => In (type e) knownTypes) (events data) ->
  (list_sum (map Report.count (Report.violations row))
   + Interview.bookDetectedCount row = Interview.totalEvents row)%nat.
Proof.
  intros H Hknown. apply saveData_inv in H. destruct H as (_ & _ & -> & _).
  unfold Report.violations.
  unfold list_sum.
  cbn [map fold_right Report.count Interview.focusLostCount Interview.noFaceCount
       Interview.phoneDetectedCount Interview.notesDetectedCount
       Interview.multipleFacesCount Interview.bookDetectedCount
       Interview.totalEvents].
  rewrite <- (counts_sum_known (events data) Hknown). lia.
Qed.

Lemma report_table_omits_books_witness :
  match saveData (mkInterviewData "room-1" "Ada" 0 None 85
                                  [mkEventData "BOOK_DETECTED" 5 0.9%Q]) with
  | Saved row _ =>
      (list_sum (map Report.count (Report.violations row)) + 1 = 1)%nat
  | Failed _ => False
  end.
Proof.
  refine (report_table_omits_books
            (mkInterviewData "room-1" "Ada" 0 None 85
                             [mkEventData "BOOK_DETECTED" 5 0.9%Q]) _ _ eq_refl _).
  constructor; [simpl; tauto | constructor].
Defined.

(** X21. The timeline of the report lists the last fifteen events in
    their order (all of them when there are at most fifteen), and its
    closing note appears exactly when events were left out and states how
    many. *)
Theorem timeline_shows_last_fifteen (events : list EventData) :
  exists earlier,
    events = (earlier ++ Report.recentEvents events)%list /\
    List.length (Report.recentEvents events) = Nat.min 15 (List.length events) /\
    Report.earlierNote events
    = (if (15 <? List.length events)%nat
       then Some ("... and " ++ toString (Z.of_nat (List.length earlier))
                  ++ " earlier events")
       else None) /\
    ((List.length events <= 15)%nat -> earlier = []).
Proof.
  exists (firstn (List.length events - 15) events).
  unfold Report.recentEvents, Report.earlierNote, sliceLast.
  split; [symmetry; apply firstn_skipn|].
  split; [rewrite length_skipn; lia|].
  split.
  - destruct (Nat.ltb_spec 15 (List.length events)) as [Hlt|Hle]; [|reflexivity].
    rewrite firstn_length_le by lia.
    replace (Z.of_nat (List.length events - 15))
      with (Z.of_nat (List.length events) - 15) by lia.
    reflexivity.
  - intros Hle. replace (List.length events - 15)%nat with 0%nat by lia.
    reflexivity.
Qed.

(** X22. The recommendations of the report follow the severity label,
    although their thresholds (85, 70, 50) differ from those of the label
    (90, 75, 60, 40): an Excellent score always gets the "strongly
    recommended" set and a Critical one the "not valid" set; a Good score
    gets the first or second set, an Average one the second or third, a
    Poor one the third or fourth. *)
Theorem recommendation_follows_severity (score : Z) :
  let first := hd "" (map Report.text (Report.recommendations score)) in
  let set1 := "Candidate demonstrated excellent interview compliance" in
  let set2 := "Candidate showed acceptable compliance with minor issues" in
  let set3 := "Multiple compliance violations detected during interview" in
  let set4 := "Critical integrity violations - Interview compromised" in
  (severity score = "Excellent" -> first = set1) /\
  (severity score = "Good" -> first = set1 \/ first = set2) /\
  (severity score = "Average" -> first = set2 \/ first = set3) /\
  (severity score = "Poor" -> first = set3 \/ first = set4) /\
  (severity score = "Critical" -> first = set4).
Proof.
  cbv zeta. unfold severity, interpretation, Report.recommendations.
  rewrite !Z.geb_leb.
  destruct (Z.leb_spec 90 score); destruct (Z.leb_spec 75 score);
    destruct (Z.leb_spec 60 score); destruct (Z.leb_spec 40 score);
    destruct (Z.leb_spec 85 score); destruct (Z.leb_spec 70 score);
    destruct (Z.leb_spec 50 score); try lia;
    cbn; repeat split; intros Hs; try discriminate Hs; auto.
Qed.

Lemma recommendation_follows_severity_witness :
  hd "" (map Report.text (Report.recommendations 87))
  = "Candidate demonstrated excellent interview compliance"
  \/ hd "" (map Report.text (Report.recommendations 87))
     = "Candidate showed acceptable compliance with minor issues".
Proof.
  exact (proj1 (proj2 (recommendation_follows_severity 87)) eq_refl).
Defined.

End Reporting.

(** ** The score distribution of the analytics *)

Section Distribution.

Import Analytics.

Lemma total_from (groups : list ScoreGroup) :
  forall acc,
    fold_left (fun a curr => (a + _count curr)%nat) groups acc
    = (acc + list_sum (map _count groups))%nat.
Proof.
  induction groups as [|g groups IH]; intros acc; simpl; [lia|].
  rewrite IH. lia.
Qed.

Lemma total_sum (groups : list ScoreGroup) :
  total groups = list_sum (map _count groups).
Proof. unfold total. now rewrite total_from. Qed.

(** X23. The four buckets of the score distribution count every
    completed interview exactly once: excellent, good, average and poor
    add up to the total of the groups, whatever scores occur; the poor
    bucket holds every score below 60. *)
Theorem score_distribution_partitions (groups : list ScoreGroup) :
  let dist := scoreDistribution groups in
  (excellent dist + good dist + average dist + poor dist = total groups)%nat /\
  poor dist = total (filter (fun s => integrityScore s <? 60) groups) /\
  (Forall (fun s => 60 <= integrityScore s) groups -> poor dist = 0%nat).
Proof.
  cbv zeta. unfold scoreDistribution.
  cbn [excellent good average poor].
  split; [|split; [reflexivity|]].
  - rewrite !total_sum.
    induction groups as [|g groups IH]; [reflexivity|].
    cbn [filter]. rewrite !Z.geb_leb.
    destruct (Z.leb_spec 90 (integrityScore g));
      destruct (Z.leb_spec 75 (integrityScore g));
      destruct (Z.leb_spec 60 (integrityScore g));
      destruct (Z.ltb_spec (integrityScore g) 90);
      destruct (Z.ltb_spec (integrityScore g) 75);
      destruct (Z.ltb_spec (integrityScore g) 60);
      try lia; unfold list_sum in *; cbn [andb map fold_right] in *; lia.
  - intros Hall. rewrite total_sum.
    induction Hall as [|g groups Hg _ IH]; [reflexivity|].
    cbn [filter]. destruct (Z.ltb_spec (integrityScore g) 60); [lia | exact IH].
Qed.

Lemma score_distribution_partitions_witness :
  poor (scoreDistribution [mkGroup 100 3; mkGroup 60 2]) = 0%nat.
Proof.
  refine (proj2 (proj2 (score_distribution_partitions
                          [mkGroup 100 3; mkGroup 60 2])) _).
  repeat constructor; simpl; lia.
Defined.

End Distribution.

(** ** Uploads *)

Section Uploads.

Import Upload.
Open Scope string_scope.

(** X24. [uploadToBlob] never stores a file that fails its checks,
    whatever the blob store and the database answer: a missing or blank
    room id (empty, or white space only), or a form without any file, is
    refused before anything is done; and every [put] that was made is
    either of the given video, whose type contains "video/" and whose
    size is at most 100 MB, or of the given PDF, whose type contains
    "application/pdf" and whose size is at most 10 MB. *)
Theorem upload_only_checked_files (calls : StoreCalls) (urlOf : string -> string)
        (now : Z) (form : UploadForm) :
  let effects := fst (uploadToBlob calls urlOf now form) in
  ((falsyOpt (roomId form) = true \/
    (exists room, roomId form = Some room /\ trim room = "") \/
    (video form = None /\ pdf form = None)) ->
   effects = [] /\
   exists details, snd (uploadToBlob calls urlOf now form) = UploadFailed details) /\
  (forall filename contentType,
     In (PutBlob filename contentType) effects ->
     (exists videoFile,
        video form = Some videoFile /\ contentType = type videoFile /\
        includes (type videoFile) "video/" = true /\
        size videoFile <= 100 * 1024 * 1024) \/
     (exists pdfFile,
        pdf form = Some pdfFile /\ contentType = "application/pdf" /\
        includes (type pdfFile) "application/pdf" = true /\
        size pdfFile <= 10 * 1024 * 1024)).
Proof.
  cbv zeta. split.
  - intros Hbad. unfold uploadToBlob.
    destruct (roomId form) as [room|]; [|split; [reflexivity | eexists; reflexivity]].
    destruct (String.eqb_spec room "") as [->|Hne]; [split; [reflexivity | eexists; reflexivity]|].
    destruct (String.eqb_spec (trim room) "") as [Ht|Hnt];
      [split; [reflexivity | eexists; reflexivity]|].
    simpl orb. cbv iota.
    destruct Hbad as [Hf | [(room' & Hr & Ht) | [Hv Hp]]].
    + simpl in Hf. apply String.eqb_eq in Hf. contradiction.
    + injection Hr as <-. contradiction.
    + rewrite Hv, Hp. split; [reflexivity | eexists; reflexivity].
  - intros filename contentType. unfold uploadToBlob.
    destruct (roomId form) as [room|]; [|intros []].
    destruct (String.eqb room "" || String.eqb (trim room) ""); [intros []|].
    destruct (putVideo calls), (updateVideoUrl calls), (putPdf calls),
      (updatePdfUrl calls);
      destruct (video form) as [vf|] eqn:Hv; destruct (pdf form) as [pf|] eqn:Hp;
      try (intros []);
      repeat match goal with
             | |- context [if ?c then _ else _] => destruct c eqn:?
             end;
      simpl; intros Hin;
      repeat match goal with
             | H : _ \/ _ |- _ => destruct H
             | H : False |- _ => destruct H
             | H : PutBlob _ _ = PutBlob _ _ |- _ => injection H as <- <-
             | H : SetVideoUrl _ = PutBlob _ _ |- _ => discriminate H
             | H : SetPdfUrl _ = PutBlob _ _ |- _ => discriminate H
             end;
      first
        [ left; exists vf; repeat split;
          [ apply negb_false_iff; assumption
          | split_gtb; lia ]
        | right; exists pf; repeat split;
          [ apply negb_false_iff; assumption
          | split_gtb; lia ] ].
Qed.

Lemma upload_only_checked_files_witness :
  fst (uploadToBlob (mkStoreCalls Resolves Resolves Resolves Resolves)
                    (fun name => "https://blob.example/" ++ name) 5
                    (mkForm (Some (mkFile "video/webm" 1000)) None
                            (Some (String (ascii_of_nat 194)
                                     (String (ascii_of_nat 160) " ")))
                            (Some "video"))) = [].
Proof.
  exact (proj1 (proj1 (upload_only_checked_files
                         (mkStoreCalls Resolves Resolves Resolves Resolves)
                         (fun name => "https://blob.example/" ++ name) 5
                         (mkForm (Some (mkFile "video/webm" 1000)) None
                                 (Some (String (ascii_of_nat 194)
                                          (String (ascii_of_nat 160) " ")))
                                 (Some "video")))
                      (or_intror (or_introl
                         (ex_intro _ (String (ascii_of_nat 194)
                                        (String (ascii_of_nat 160) " "))
                                   (conj eq_refl eq_refl)))))).
Defined.

(** X25. A reported failure does not mean that nothing was stored: when
    no file type is named, the room id is not blank, the video passes its
    checks and its [put] and the update of its URL resolve, and the PDF
    fails its type or size check, then the video has been put and its URL
    written to the interview before the failure of the PDF is reported. *)
Theorem upload_fails_after_storing_video (calls : StoreCalls)
        (urlOf : string -> string) (now : Z) (room : string)
        (videoFile pdfFile : File) (fileType : option string) :
  room <> "" -> trim room <> "" ->
  falsyOpt fileType = true ->
  includes (type videoFile) "video/" = true ->
  size videoFile <= 100 * 1024 * 1024 ->
  putVideo calls = Resolves -> updateVideoUrl calls = Resolves ->
  includes (type pdfFile) "application/pdf" = false \/
  size pdfFile > 10 * 1024 * 1024 ->
  let videoFilename := "videos/interview-" ++ room ++ "-" ++ toString now ++ ".webm" in
  exists details,
    uploadToBlob calls urlOf now
                 (mkForm (Some videoFile) (Some pdfFile) (Some room) fileType)
    = ([PutBlob videoFilename (type videoFile); SetVideoUrl (urlOf videoFilename)],
       UploadFailed details).
Proof.
  intros Hr Ht Hft Hvt Hvs Hput Hupdate Hpdf. cbv zeta.
  unfold uploadToBlob. cbn [roomId video pdf Upload.fileType].
  destruct (String.eqb_spec room ""); [contradiction|].
  destruct (String.eqb_spec (trim room) ""); [contradiction|].
  cbn [orb].
  assert (Hwants : forall kind, wants kind fileType = true).
  { intros kind. unfold wants. destruct fileType as [t|]; [|reflexivity].
    simpl in Hft. rewrite Hft. apply orb_true_r. }
  rewrite !Hwants, Hvt, Hput, Hupdate. cbn [negb].
  destruct (Z.gtb_spec (size videoFile) (100 * 1024 * 1024)); [lia|].
  destruct (includes (type pdfFile) "application/pdf") eqn:Hpt; cbn [negb].
  - destruct Hpdf as [Hno|Hbig]; [discriminate|].
    destruct (Z.gtb_spec (size pdfFile) (10 * 1024 * 1024)); [|lia].
    eexists. reflexivity.
  - eexists. reflexivity.
Qed.

Lemma upload_fails_after_storing_video_witness :
  exists details,
    uploadToBlob (mkStoreCalls Resolves Resolves Resolves Resolves)
                 (fun name => "https://blob.example/" ++ name) 7
                 (mkForm (Some (mkFile "video/webm" 1000))
                         (Some (mkFile "text/plain" 10))
                         (Some "room-1") None)
    = ([PutBlob "videos/interview-room-1-7.webm" "video/webm";
        SetVideoUrl "https://blob.example/videos/interview-room-1-7.webm"],
       UploadFailed details).
Proof.
  refine (upload_fails_after_storing_video
            (mkStoreCalls Resolves Resolves Resolves Resolves)
            (fun name => "https://blob.example/" ++ name) 7 "room-1"
            (mkFile "video/webm" 1000) (mkFile "text/plain" 10) None
            _ _ _ _ _ _ _ _).
  - discriminate.
  - discriminate.
  - reflexivity.
  - reflexivity.
  - simpl. lia.
  - reflexivity.
  - reflexivity.
  - left. reflexivity.
Defined.

(** X26. Success does not mean that something was stored: when the named
    file type is neither "video" nor "pdf" nor empty, a form with a
    non-blank room id and at least one file is answered with success and
    no URL; neither file is put and no call is made to the blob store or
    the database. *)
Theorem upload_succeeds_without_storing (calls : StoreCalls)
        (urlOf : string -> string) (now : Z) (form : UploadForm)
        (room kind : string) :
  roomId form = Some room -> room <> "" -> trim room <> "" ->
  fileType form = Some kind ->
  kind <> "video" -> kind <> "pdf" -> kind <> "" ->
  video form <> None \/ pdf form <> None ->
  uploadToBlob calls urlOf now form = ([], Uploaded None None).
Proof.
  intros Hroom Hr Ht Hkind Hv Hp He Hfile.
  unfold uploadToBlob. rewrite Hroom, Hkind.
  destruct (String.eqb_spec room ""); [contradiction|].
  destruct (String.eqb_spec (trim room) ""); [contradiction|].
  cbn [orb]. unfold wants.
  destruct (String.eqb_spec kind "video"); [contradiction|].
  destruct (String.eqb_spec kind "pdf"); [contradiction|].
  destruct (String.eqb_spec kind ""); [contradiction|].
  cbn [orb].
  destruct (video form) as [vf|]; destruct (pdf form) as [pf|]; try reflexivity.
  destruct Hfile as [H|H]; now elim H.
Qed.

Lemma upload_succeeds_without_storing_witness :
  uploadToBlob (mkStoreCalls (Rejects "store down") Resolves Resolves Resolves)
               (fun name => "https://blob.example/" ++ name) 7
               (mkForm (Some (mkFile "video/webm" 1000)) None
                       (Some "room-1") (Some "Video"))
  = ([], Uploaded None None).
Proof.
  refine (upload_succeeds_without_storing
            (mkStoreCalls (Rejects "store down") Resolves Resolves Resolves)
            (fun name => "https://blob.example/" ++ name) 7
            (mkForm (Some (mkFile "video/webm" 1000)) None (Some "room-1") (Some "Video"))
            "room-1" "Video" eq_refl _ _ eq_refl _ _ _ _).
  - discriminate.
  - discriminate.
  - discriminate.
  - discriminate.
  - discriminate.
  - left. discriminate.
Defined.

End Uploads.

(** ** Conditions that do not last long enough *)

Section ShortEpisodes.

Import Detection.

(** The events of a tick: those of the face detector, then those the
    object detector triggers from its predictions. *)
Lemma tick_events_split (t : Tick) (this : DetectionSystem) :
  eventsOf (runDetection t) this
  = (eventsOf (detectFaces (video t) (detectForVideo t) (now t)) this
     ++ objectEvents t this)%list.
Proof.
  rewrite runDetection_events. unfold objectEvents.
  destruct (isInitialized this) eqn:Hi.
  - destruct (detectFaces_keeps_flags (video t) (detectForVideo t) (now t) this)
      as (_ & Ho' & Hi').
    now rewrite (detectObjects_reads_flags (detect t) (now t) this _ Ho' Hi').
  - unfold eventsOf, detectFaces, detectObjects, bind, get. simpl.
    rewrite Hi, !orb_true_r. reflexivity.
Qed.

Lemma absent_tick_silent (t : Tick) (this : DetectionSystem) :
  ready this -> hasNoFace this = true -> noFace t ->
  now t - lastFaceDetectedTime this <= NO_FACE_THRESHOLD ->
  stateAfter (runDetection t) this = this /\
  eventsOf (runDetection t) this = objectEvents t this.
Proof.
  intros (Hf & Ho & Hi) Hnf Hfaces Ht.
  rewrite tick_events_split, runDetection_state.
  unfold noFace in Hfaces. rewrite Hfaces.
  assert (Hface : detectFaces (video t) (Returns []) (now t) this = (tt, this, [])).
  { destruct this as [fd od init lf la away nf]; simpl in Hf, Ho, Hi, Hnf, Ht; subst.
    unfold detectFaces, judgeFaces, bind, get, NO_FACE_THRESHOLD in *. simpl.
    destruct (Z.gtb_spec (now t - lf) 10000) as [Hgt|Hle]; [lia | reflexivity]. }
  unfold stateAfter. unfold eventsOf at 1. rewrite Hface.
  split; reflexivity.
Qed.

Lemma absence_within_threshold_silent (ticks : list Tick) (this : DetectionSystem) :
  ready this -> hasNoFace this = true ->
  Forall (fun t => noFace t /\
                   now t - lastFaceDetectedTime this <= NO_FACE_THRESHOLD) ticks ->
  fst (runLoop ticks this) = this /\
  Forall2 (fun t evs => evs = objectEvents t this) ticks (snd (runLoop ticks this)).
Proof.
  intros Hready Hnf Hall.
  induction Hall as [|t ticks [Hfaces Ht] _ [IHstate IHevs]];
    [split; [reflexivity | constructor]|].
  rewrite runLoop_cons.
  destruct (absent_tick_silent t this Hready Hnf Hfaces Ht) as [Hstate Hevs].
  rewrite Hstate. simpl fst. simpl snd.
  split; [exact IHstate|]. constructor; [exact Hevs | exact IHevs].
Qed.

(** X27. An absence of the face that has lasted at most 10000 ms is not
    reported, however many ticks fall into it: when the first tick
    without a face reads the clock at [start], that tick and all
    following ticks without a face that read it up to 10000 ms later
    trigger nothing but what the object detector triggers from its own
    predictions, and the timer stays at [start]. *)
Theorem short_absence_not_reported (this : DetectionSystem) (first : Tick)
        (ticks : list Tick) :
  ready this -> hasNoFace this = false ->
  noFace first ->
  Forall (fun t => noFace t /\ now t - now first <= NO_FACE_THRESHOLD) ticks ->
  fst (runLoop (first :: ticks) this)
  = mkSystem true true true (now first) (lastLookingAwayTime this)
             (isLookingAway this) true /\
  Forall2 (fun t evs => evs = objectEvents t this)
          (first :: ticks) (snd (runLoop (first :: ticks) this)).
Proof.
  intros (Hf & Ho & Hi) Hnf Hfirst Hall.
  rewrite runLoop_cons.
  set (this' := mkSystem true true true (now first) (lastLookingAwayTime this)
                         (isLookingAway this) true).
  assert (Hface : detectFaces (video first) (Returns []) (now first) this
                  = (tt, this', [])).
  { destruct this as [fd od init lf la away nf]; simpl in Hf, Ho, Hi, Hnf; subst.
    unfold this', detectFaces, judgeFaces, bind, get, NO_FACE_THRESHOLD.
    simpl. replace (now first - now first) with 0 by lia. reflexivity. }
  assert (Hstate : stateAfter (runDetection first) this = this').
  { rewrite runDetection_state. unfold noFace in Hfirst. rewrite Hfirst.
    unfold stateAfter. now rewrite Hface. }
  assert (Hevs : eventsOf (runDetection first) this = objectEvents first this).
  { rewrite tick_events_split. unfold noFace in Hfirst. rewrite Hfirst.
    unfold eventsOf at 1. now rewrite Hface. }
  rewrite Hstate. simpl fst. simpl snd.
  destruct (absence_within_threshold_silent ticks this') as [Hrest Hrestevs];
    [repeat split | reflexivity | exact Hall |].
  split; [exact Hrest|].
  constructor; [exact Hevs|].
  eapply Forall2_impl; [|exact Hrestevs].
  intros t evs ->. unfold objectEvents.
  apply detectObjects_reads_flags; simpl; symmetry; assumption.
Qed.

Lemma short_absence_not_reported_witness :
  fst (runLoop [mkTick 0 (mkVideo 1280 720) (Returns [])
                       (Returns [mkPrediction "cell phone" 0.7%Q]);
                faceTick 5000 (mkVideo 1280 720) [];
                faceTick 10000 (mkVideo 1280 720) []]
               (initialized 0))
  = mkSystem true true true 0 0 false true.
Proof.
  refine (proj1 (short_absence_not_reported (initialized 0)
                   (mkTick 0 (mkVideo 1280 720) (Returns [])
                           (Returns [mkPrediction "cell phone" 0.7%Q]))
                   [faceTick 5000 (mkVideo 1280 720) [];
                    faceTick 10000 (mkVideo 1280 720) []]
                   _ _ _ _)).
  - repeat split.
  - reflexivity.
  - reflexivity.
  - repeat constructor; simpl; discriminate.
Defined.

Lemma deviating_tick_silent (t : Tick) (this : DetectionSystem) :
  ready this -> isLookingAway this = true -> hasNoFace this = false ->
  oneFaceOffCenter t ->
  now t - lastLookingAwayTime this <= FOCUS_LOST_THRESHOLD ->
  stateAfter (runDetection t) this = this /\
  eventsOf (runDetection t) this = objectEvents t this.
Proof.
  intros (Hf & Ho & Hi) Haway Hnf (face & Hfaces & Hoff) Ht.
  apply offCenter_not_centered in Hoff.
  rewrite tick_events_split, runDetection_state, Hfaces.
  assert (Hface : detectFaces (video t) (Returns [face]) (now t) this
                  = (tt, this, [])).
  { destruct this as [fd od init lf la away nf];
      simpl in Hf, Ho, Hi, Haway, Hnf, Ht; subst.
    unfold detectFaces, judgeFaces, bind, get, FOCUS_LOST_THRESHOLD in *. simpl.
    rewrite Hoff. simpl.
    destruct (Z.gtb_spec (now t - la) 5000) as [Hgt|Hle]; [lia | reflexivity]. }
  unfold stateAfter. unfold eventsOf at 1. rewrite Hface.
  split; reflexivity.
Qed.

Lemma deviation_within_threshold_silent (ticks : list Tick) (this : DetectionSystem) :
  ready this -> isLookingAway this = true -> hasNoFace this = false ->
  Forall (fun t => oneFaceOffCenter t /\
                   now t - lastLookingAwayTime this <= FOCUS_LOST_THRESHOLD) ticks ->
  fst (runLoop ticks this) = this /\
  Forall2 (fun t evs => evs = objectEvents t this) ticks (snd (runLoop ticks this)).
Proof.
  intros Hready Haway Hnf Hall.
  induction Hall as [|t ticks [Hfaces Ht] _ [IHstate IHevs]];
    [split; [reflexivity | constructor]|].
  rewrite runLoop_cons.
  destruct (deviating_tick_silent t this Hready Haway Hnf Hfaces Ht) as [Hstate Hevs].
  rewrite Hstate. simpl fst. simpl snd.
  split; [exact IHstate|]. constructor; [exact Hevs | exact IHevs].
Qed.

(** X28. A deviation from the center that has lasted at most 5000 ms is
    not reported, however many ticks fall into it: when the first tick
    with one off-center face reads the clock at [start] on an object that
    was not tracking a deviation, that tick and all following ticks with
    one off-center face that read it up to 5000 ms later trigger nothing
    but what the object detector triggers from its own predictions, and
    the timer stays at [start]. *)
Theorem short_deviation_not_reported (this : DetectionSystem) (first : Tick)
        (ticks : list Tick) :
  ready this -> isLookingAway this = false ->
  oneFaceOffCenter first ->
  Forall (fun t => oneFaceOffCenter t /\
                   now t - now first <= FOCUS_LOST_THRESHOLD) ticks ->
  fst (runLoop (first :: ticks) this)
  = mkSystem true true true (lastFaceDetectedTime this) (now first) true false /\
  Forall2 (fun t evs => evs = objectEvents t this)
          (first :: ticks) (snd (runLoop (first :: ticks) this)).
Proof.
  intros (Hf & Ho & Hi) Haway (face & Hfaces & Hoff) Hall.
  apply offCenter_not_centered in Hoff.
  rewrite runLoop_cons.
  set (this' := mkSystem true true true (lastFaceDetectedTime this) (now first)
                         true false).
  assert (Hface : detectFaces (video first) (Returns [face]) (now first) this
                  = (tt, this', [])).
  { destruct this as [fd od init lf la away nf]; simpl in Hf, Ho, Hi, Haway; subst.
    unfold this', detectFaces, judgeFaces, bind, get, FOCUS_LOST_THRESHOLD.
    simpl. rewrite Hoff. simpl.
    replace (now first - now first) with 0 by lia. reflexivity. }
  assert (Hstate : stateAfter (runDetection first) this = this').
  { rewrite runDetection_state, Hfaces. unfold stateAfter. now rewrite Hface. }
  assert (Hevs : eventsOf (runDetection first) this = objectEvents first this).
  { rewrite tick_events_split, Hfaces. unfold eventsOf at 1. now rewrite Hface. }
  rewrite Hstate. simpl fst. simpl snd.
  destruct (deviation_within_threshold_silent ticks this') as [Hrest Hrestevs];
    [repeat split | reflexivity | reflexivity | exact Hall |].
  split; [exact Hrest|].
  constructor; [exact Hevs|].
  eapply Forall2_impl; [|exact Hrestevs].
  intros t evs ->. unfold objectEvents.
  apply detectObjects_reads_flags; simpl; symmetry; assumption.
Qed.

Lemma short_deviation_not_reported_witness :
  fst (runLoop [mkTick 0 (mkVideo 1280 720)
                       (Returns [mkFace (mkBox 0 0 100 100) 0.9%Q])
                       (Returns [mkPrediction "book" 0.7%Q]);
                faceTick 5000 (mkVideo 1280 720) [mkFace (mkBox 1100 0 100 100) 0.9%Q]]
               (initialized 0))
  = mkSystem true true true 0 0 true false.
Proof.
  refine (proj1 (short_deviation_not_reported (initialized 0)
                   (mkTick 0 (mkVideo 1280 720)
                           (Returns [mkFace (mkBox 0 0 100 100) 0.9%Q])
                           (Returns [mkPrediction "book" 0.7%Q]))
                   [faceTick 5000 (mkVideo 1280 720)
                             [mkFace (mkBox 1100 0 100 100) 0.9%Q]]
                   _ _ _ _)).
  - repeat split.
  - reflexivity.
  - eexists. split; [reflexivity|].
    split; [discriminate | vm_compute; discriminate].
  - constructor; [|constructor].
    split; [|simpl; discriminate].
    eexists. split; [reflexivity|].
    split; [discriminate | vm_compute; discriminate].
Defined.

End ShortEpisodes.

(** ** The live panel and the stored counts *)

Section Panel.

Lemma focusLostShown_count (room : RoomPage.RoomState) :
  RoomPage.focusLostShown room = countKind FOCUS_LOST (RoomPage.events room).
Proof.
  reflexivity.
Qed.

Lemma objectsDetectedShown_count (room : RoomPage.RoomState) :
  RoomPage.objectsDetectedShown room
  = (countKind PHONE_DETECTED (RoomPage.events room)
     + countKind NOTES_DETECTED (RoomPage.events room)
     + countKind BOOK_DETECTED (RoomPage.events room))%nat.
Proof.
  unfold RoomPage.objectsDetectedShown, countKind.
  induction (RoomPage.events room) as [|e evs IH]; [reflexivity|].
  cbn [filter]. destruct (type e); cbn [eventTypeEqb List.length]; lia.
Qed.

(** X29. When ending an interview stores its row, the figures of the
    live panel agree with what is stored: the stored focusLostCount is the
    "Focus Lost" figure, the stored counts of phones, notes and books add
    up to the "Objects Detected" figure, and the stored totalEvents is the
    "Total Events" figure; the panel has no figure for NO_FACE and
    MULTIPLE_FACES, which make up the rest of the total. *)
Theorem live_panel_matches_stored_counts (db : InterviewActions.DbCalls)
        (roomId candidate : string) (started ended : Z) (evs : list DetectionEvent)
        (row : InterviewActions.Interview.t) (log : list InterviewActions.EventData) :
  let room := RoomPage.deliver evs RoomPage.initialRoom in
  RoomPageEnd.endInterview db roomId candidate (Some started) ended room
  = Some (InterviewActions.Saved row log) ->
  InterviewActions.Interview.focusLostCount row = RoomPage.focusLostShown room /\
  (InterviewActions.Interview.phoneDetectedCount row
   + InterviewActions.Interview.notesDetectedCount row
   + InterviewActions.Interview.bookDetectedCount row
   = RoomPage.objectsDetectedShown room)%nat /\
  InterviewActions.Interview.totalEvents row = List.length (RoomPage.events room) /\
  (RoomPage.focusLostShown room + RoomPage.objectsDetectedShown room
   + countKind NO_FACE evs + countKind MULTIPLE_FACES evs
   = List.length (RoomPage.events room))%nat.
Proof.
  cbv zeta. intros Hsave.
  unfold RoomPageEnd.endInterview in Hsave.
  injection Hsave as Hsave.
  apply saveDataWith_saved in Hsave. destruct Hsave as (_ & _ & _ & Hsave).
  apply saveData_inv in Hsave. destruct Hsave as (_ & _ & -> & _).
  cbn [InterviewActions.Interview.totalEvents InterviewActions.Interview.focusLostCount
       InterviewActions.Interview.phoneDetectedCount
       InterviewActions.Interview.notesDetectedCount
       InterviewActions.Interview.bookDetectedCount InterviewActions.events].
  rewrite focusLostShown_count, objectsDetectedShown_count.
  change (InterviewActions.countOf "FOCUS_LOST")
    with (InterviewActions.countOf (typeName FOCUS_LOST)).
  change (InterviewActions.countOf "PHONE_DETECTED")
    with (InterviewActions.countOf (typeName PHONE_DETECTED)).
  change (InterviewActions.countOf "NOTES_DETECTED")
    with (InterviewActions.countOf (typeName NOTES_DETECTED)).
  change (InterviewActions.countOf "BOOK_DETECTED")
    with (InterviewActions.countOf (typeName BOOK_DETECTED)).
  rewrite !countOf_of_room_events, length_map.
  rewrite (deliver_events evs RoomPage.initialRoom).
  change (RoomPage.events RoomPage.initialRoom ++ evs)%list with evs.
  repeat split.
  unfold countKind.
  induction evs as [|e evs IH]; [reflexivity|].
  cbn [filter]. destruct (type e); cbn [eventTypeEqb List.length]; lia.
Qed.

Lemma live_panel_matches_stored_counts_witness :
  match RoomPageEnd.endInterview
          (InterviewActions.mkDbCalls Resolves Resolves Resolves)
          "room-1" "Ada" (Some 0) 90000
          (RoomPage.deliver [mkEvent BOOK_DETECTED 10 0.7%Q; mkEvent NO_FACE 20 0.9%Q]
                            RoomPage.initialRoom) with
  | Some (InterviewActions.Saved row _) =>
      (InterviewActions.Interview.phoneDetectedCount row
       + InterviewActions.Interview.notesDetectedCount row
       + InterviewActions.Interview.bookDetectedCount row = 1)%nat
  | _ => False
  end.
Proof.
  exact (proj1 (proj2 (live_panel_matches_stored_counts
                         (InterviewActions.mkDbCalls Resolves Resolves Resolves)
                         "room-1" "Ada" 0 90000
                         [mkEvent BOOK_DETECTED 10 0.7%Q; mkEvent NO_FACE 20 0.9%Q]
                         _ _ eq_refl))).
Defined.

End Panel.
